(** * ET Legacy server manager: a shallow embedding of the Python sources

    The development follows the repository module by module:

    - [Text]: Python [str] values as lists of characters, and the character
      classes of the [re] module that the sources use;
    - [Re]: a backtracking matcher for the fragment of [re] syntax that occurs
      in the sources, with [re.search] and [re.sub];
    - [DownloadManager], [EtlManager]: the two version catalogues
      (lib/download_manager.py, etlserver-manager.py) and the wizard step that
      consumes them (ui/install_wizard.py);
    - [ServerManager]: instance discovery (lib/server_manager.py);
    - [Fs], [Permissions]: a directory tree with mode bits and
      utils/permissions.py;
    - [Template], [Config], [TextMode], [ConfigTemplate]: replacement
      templates, configuration dictionaries, files opened in text mode, and
      [_configure_server] of lib/installer.py with the export path of
      idk/lib/config_manager.py;
    - [EnvFile]: the environment files of idk/lib/config_manager.py;
    - [SystemService]: the unit files of idk/lib/system_service.py;
    - [Installer]: [install_server] and [update_server] of lib/installer.py,
      over the calls they make on the host.

    Characters are code points in the range U+0000..U+00FF.  lib/installer.py
    uses the names [re] and [time] without importing them: such a name is
    looked up among the globals of the module when the statement runs, and
    the lookup raises [NameError]. *)

From Stdlib Require Import Ascii String ZArith Lia Bool.
From Stdlib Require Import DecimalString DecimalPos DecimalN.
From stdpp Require Import base list gmap strings.

Local Open Scope string_scope.
Local Open Scope list_scope.

(** ** Text *)

Module Text.

(** A Python [str]. *)
Definition str := list ascii.

(** String literals of the sources. *)
Definition py (s : string) : str := list_ascii_of_string s.

Definition code (c : ascii) : nat := nat_of_ascii c.

Definition in_range (lo hi : nat) (c : ascii) : bool :=
  (lo <=? code c)%nat && (code c <=? hi)%nat.

Definition newline : ascii := ascii_of_nat 10.
Definition dquote : ascii := ascii_of_nat 34.
Definition backslash : ascii := ascii_of_nat 92.

Definition is_char (a c : ascii) : bool := Ascii.eqb a c.

(** [\s] on [str] patterns: the characters for which [str.isspace] holds. *)
Definition is_space (c : ascii) : bool :=
  in_range 9 13 c || in_range 28 32 c
  || (code c =? 133)%nat || (code c =? 160)%nat.

(** [.] without DOTALL: everything but the line feed. *)
Definition is_dot (c : ascii) : bool := negb (is_char newline c).

(** [\d]. *)
Definition is_digit (c : ascii) : bool := in_range 48 57 c.

Definition is_lower_hex (c : ascii) : bool := is_digit c || in_range 97 102 c.

Definition is_ascii_letter (c : ascii) : bool :=
  in_range 65 90 c || in_range 97 122 c.

(** [\w]: [str.isalnum] or the underscore. *)
Definition is_word (c : ascii) : bool :=
  is_ascii_letter c || is_digit c || (code c =? 95)%nat
  || (code c =? 170)%nat || (code c =? 181)%nat || (code c =? 186)%nat
  || in_range 178 179 c || (code c =? 185)%nat || in_range 188 190 c
  || in_range 192 214 c || in_range 216 246 c || in_range 248 255 c.

(** [str.lower] on one character. *)
Definition lower_char (c : ascii) : ascii :=
  if in_range 65 90 c || in_range 192 214 c || in_range 216 222 c
  then ascii_of_nat (code c + 32) else c.

Definition lower (s : str) : str := map lower_char s.

(** [s.startswith(p)], returning what follows the prefix. *)
Fixpoint strip_prefix (p s : str) : option str :=
  match p with
  | [] => Some s
  | a :: p' =>
      match s with
      | [] => None
      | c :: s' => if is_char a c then strip_prefix p' s' else None
      end
  end.

(** [p in s]. *)
Fixpoint contains (p s : str) : bool :=
  match strip_prefix p s with
  | Some _ => true
  | None => match s with [] => false | _ :: s' => contains p s' end
  end.

(** [s.endswith(p)]. *)
Definition endswith (p s : str) : bool :=
  match strip_prefix (rev p) (rev s) with Some _ => true | None => false end.

Lemma is_char_eq a c : is_char a c = true <-> a = c.
Proof. unfold is_char. apply Ascii.eqb_eq. Qed.

Lemma strip_prefix_app p s r : strip_prefix p s = Some r <-> s = p ++ r.
Proof.
  revert s; induction p as [|a p IH]; intros s; simpl.
  - split; congruence.
  - destruct s as [|c s]; [split; discriminate|].
    destruct (is_char a c) eqn:E.
    + apply is_char_eq in E as ->. rewrite IH. split; congruence.
    + split; [discriminate|]. intros [= -> _].
      assert (is_char a a = true) by now apply is_char_eq. congruence.
Qed.

Lemma strip_prefix_self p r : strip_prefix p (p ++ r) = Some r.
Proof. now apply strip_prefix_app. Qed.

End Text.

Import Text.

(** ** The [re] fragment *)

Module Re.

(** Syntax.  Repetition is only ever applied to a single character class in
    the sources ([\s+], [\d+], [.*?], [.+?], [.*], [[a-f0-9]+], ...). *)
Inductive regex :=
| Lit (l : str)                          (* literal text *)
| Star (greedy : bool) (p : ascii -> bool)  (* [p*] and [p*?] *)
| Plus (greedy : bool) (p : ascii -> bool)  (* [p+] and [p+?] *)
| Opt (r : regex)                        (* [(?:r)?] *)
| Group (r : regex)                      (* [(r)] *)
| Seq (r1 r2 : regex)
| Eos.                                   (* [$] *)

Infix "<.>" := Seq (at level 62, right associativity).

Section Matcher.
Context {A : Type}.

(** Longest run first, then shorter ones. *)
Fixpoint star_greedy (p : ascii -> bool) (s : str) (k : str -> option A)
  : option A :=
  match s with
  | c :: s' =>
      if p c then
        match star_greedy p s' k with
        | Some x => Some x
        | None => k s
        end
      else k s
  | [] => k []
  end.

(** Shortest run first, then longer ones. *)
Fixpoint star_lazy (p : ascii -> bool) (s : str) (k : str -> option A)
  : option A :=
  match k s with
  | Some x => Some x
  | None =>
      match s with
      | c :: s' => if p c then star_lazy p s' k else None
      | [] => None
      end
  end.

Definition star (greedy : bool) := if greedy then star_greedy else star_lazy.

(** [rmatch r s g k]: match [r] at the head of [s], having captured the
    groups [g] so far, and hand the remaining input to [k]; a failure of [k]
    makes the matcher backtrack. *)
Fixpoint rmatch (r : regex) (s : str) (g : list str)
    (k : str -> list str -> option A) : option A :=
  match r with
  | Lit l =>
      match strip_prefix l s with
      | Some s' => k s' g
      | None => None
      end
  | Star gr p => star gr p s (fun s' => k s' g)
  | Plus gr p =>
      match s with
      | c :: s' => if p c then star gr p s' (fun s'' => k s'' g) else None
      | [] => None
      end
  | Opt r =>
      match rmatch r s g k with
      | Some x => Some x
      | None => k s g
      end
  | Group r =>
      rmatch r s g
        (fun s' g' => k s' (g' ++ [take (length s - length s') s]))
  | Seq r1 r2 => rmatch r1 s g (fun s' g' => rmatch r2 s' g' k)
  | Eos =>
      match s with
      | [] => k s g
      | [c] => if is_char newline c then k s g else None
      | _ => None
      end
  end.
End Matcher.

(** A match object: the matched text ([group(0)]), the capture groups and
    the input that follows the match. *)
Record rmatch_obj := MatchObj {
  m_text : str;
  m_groups : list str;
  m_rest : str
}.

(** [pattern.match] at the current position. *)
Definition match_here (r : regex) (s : str) : option rmatch_obj :=
  rmatch r s []
    (fun s' g => Some (MatchObj (take (length s - length s') s) g s')).

(** [re.search(r, s)]: the leftmost position with a match. *)
Fixpoint search (r : regex) (s : str) : option rmatch_obj :=
  match match_here r s with
  | Some m => Some m
  | None =>
      match s with
      | [] => None
      | _ :: s' => search r s'
      end
  end.

(** [m.group(1)]. *)
Definition group1 (m : rmatch_obj) : str := default [] (m_groups m !! 0%nat).
Definition group2 (m : rmatch_obj) : str := default [] (m_groups m !! 1%nat).

(** [re.sub(r, repl, s)] for a compiled replacement [tpl], which maps the text
    of a match to what replaces it.  The scan resumes where the match ended:
    [skip] counts the characters of the current match still to be dropped.
    (Every pattern the sources substitute matches at least five characters; an
    empty match is given the replacement and the scan moves on by one
    character.) *)
Fixpoint sub_from (r : regex) (tpl : str -> str) (skip : nat) (s : str) : str :=
  match skip with
  | S n =>
      match s with
      | [] => []
      | _ :: s' => sub_from r tpl n s'
      end
  | O =>
      match match_here r s with
      | Some m =>
          tpl (m_text m) ++
          match s with
          | [] => []
          | c :: s' =>
              match length (m_text m) with
              | O => c :: sub_from r tpl 0 s'
              | S n => sub_from r tpl n s'
              end
          end
      | None =>
          match s with
          | [] => []
          | c :: s' => c :: sub_from r tpl 0 s'
          end
      end
  end.

Definition sub (r : regex) (tpl : str -> str) (s : str) : str :=
  sub_from r tpl 0 s.

(** *** Facts about the matcher *)

Lemma star_greedy_run {A} (p : ascii -> bool) (run rest : str)
    (k : str -> option A) (x : A) :
  Forall (fun c => p c = true) run ->
  star_greedy p rest k = Some x ->
  star_greedy p (run ++ rest) k = Some x.
Proof.
  intros Hrun Hk. induction Hrun as [|c run Hc _ IH]; simpl; [exact Hk|].
  now rewrite Hc, IH.
Qed.

Lemma star_greedy_stop {A} (p : ascii -> bool) (s : str) (k : str -> option A) :
  match s with [] => True | c :: _ => p c = false end ->
  star_greedy p s k = k s.
Proof. destruct s as [|c s]; simpl; [reflexivity|]. now intros ->. Qed.

End Re.

Import Re.

Example search_demo :
  option_map group1
    (search (Lit (py "etlserver-") <.> Group (Plus true is_digit) <.> Lit (py ".service"))
            (py "/etc/systemd/system/etlserver-27960.service"))
  = Some (py "27960").
Proof. reflexivity. Qed.

Example sub_demo :
  sub (Lit (py "set k") <.> Plus true is_space <.> Lit [dquote] <.>
       Star false is_dot <.> Lit [dquote])
      (fun _ => py "<R>")
      (py "a set k  " ++ [dquote] ++ py "x" ++ [dquote] ++ py " b set k "
         ++ [dquote; dquote])
  = py "a <R> b <R>".
Proof. reflexivity. Qed.

(** ** Results of Python calls *)

(** A call either returns or raises; the exception carries its message. *)
Inductive result (A : Type) :=
| Return (a : A)
| Raise (msg : str).
Arguments Return {A} a.
Arguments Raise {A} msg.

(** An [<a>] element as BeautifulSoup hands it out: the [href] attribute, if
    it has one, and the text. *)
Record anchor := Anchor { a_href : option str; a_text : str }.

(** What [requests.get] gives: it raises, or the page arrives and is parsed
    into its anchors in document order. *)
Inductive response :=
| Unreachable (msg : str)
| Page (anchors : list anchor).

(** [soup.find_all("a", href=re.compile(r))]. *)
Definition find_all_href (r : regex) (links : list anchor) : list anchor :=
  List.filter
    (fun a => match a_href a with
              | Some h => match search r h with Some _ => true | None => false end
              | None => false
              end) links.

(** ** lib/download_manager.py *)

Module DownloadManager.

Record version_info := VersionInfo {
  name : str;
  url : str;
  version : str;
  is_stable : bool
}.

Definition workflow_files_url := py "https://etlegacy.com/workflow-files".
Definition download_base_url := py "https://etlegacy.com/download".

Definition href_of (a : anchor) : str := default [] (a_href a).

(** [r"/download/file/\d+"] *)
Definition re_stable_href : regex := Lit (py "/download/file/") <.> Plus true is_digit.

(** [r"v(\d+\.\d+\.\d+)"] *)
Definition re_stable_version : regex :=
  Lit (py "v") <.>
  Group (Plus true is_digit <.> Lit (py ".") <.> Plus true is_digit <.>
         Lit (py ".") <.> Plus true is_digit).

(** [r"/workflow-files/dl/.*?/lnxx8664/.*?\.sh"] *)
Definition re_dev_href : regex :=
  Lit (py "/workflow-files/dl/") <.> Star false is_dot <.>
  Lit (py "/lnxx8664/") <.> Star false is_dot <.> Lit (py ".sh").

(** [r"etlegacy-v(\d+\.\d+\.\d+(?:-\d+-g[a-f0-9]+)?)"] *)
Definition re_dev_version : regex :=
  Lit (py "etlegacy-v") <.>
  Group (Plus true is_digit <.> Lit (py ".") <.> Plus true is_digit <.>
         Lit (py ".") <.> Plus true is_digit <.>
         Opt (Lit (py "-") <.> Plus true is_digit <.> Lit (py "-g") <.>
              Plus true is_lower_hex)).

(** The loop of [_get_stable_version]: the first link whose text names a
    64 bit Linux shell installer. *)
Fixpoint first_stable (links : list anchor) : option version_info :=
  match links with
  | [] => None
  | link :: rest =>
      let t := lower (a_text link) in
      if contains (py "linux") t && contains (py "64") t && contains (py ".sh") t
      then
        let version_str :=
          match search re_stable_version (a_text link) with
          | Some m => group1 m
          | None => py "Unknown"
          end in
        Some {| name := py "Stable " ++ version_str;
                url := download_base_url ++ href_of link;
                version := version_str;
                is_stable := true |}
      else first_stable rest
  end.

Definition _get_stable_version (resp : response) : result (option version_info) :=
  match resp with
  | Unreachable e => Raise (py "Error fetching stable version: " ++ e)
  | Page links => Return (first_stable (find_all_href re_stable_href links))
  end.

(** The loop of [_get_dev_versions]. *)
Fixpoint dev_entries (links : list anchor) : list version_info :=
  match links with
  | [] => []
  | link :: rest =>
      match search re_dev_version (a_text link) with
      | Some m =>
          let version_str := group1 m in
          {| name := py "Development " ++ version_str;
             url := py "https://etlegacy.com" ++ href_of link;
             version := version_str;
             is_stable := false |} :: dev_entries rest
      | None => dev_entries rest
      end
  end.

Definition _get_dev_versions (resp : response) : result (list version_info) :=
  match resp with
  | Unreachable e => Raise (py "Error fetching development versions: " ++ e)
  | Page links => Return (dev_entries (find_all_href re_dev_href links))
  end.

(** [get_available_versions], given what the two requests produce.  The
    second component is what was printed on the console. *)
Definition get_available_versions (stable_page dev_page : response)
  : list version_info * list str :=
  let versions := [] in
  let console := [] in
  let '(versions, console) :=
    match _get_stable_version stable_page with
    | Return (Some stable_version) => (versions ++ [stable_version], console)
    | Return None => (versions, console)
    | Raise e =>
        (versions,
         console ++ [py "[warning]Warning: Could not fetch stable version: "
                       ++ e ++ py "[/warning]"])
    end in
  let '(versions, console) :=
    match _get_dev_versions dev_page with
    | Return dev_versions => (versions ++ dev_versions, console)
    | Raise e =>
        (versions,
         console ++ [py "[warning]Warning: Could not fetch development versions: "
                       ++ e ++ py "[/warning]"])
    end in
  (versions, console).

End DownloadManager.

(** ** ui/install_wizard.py, step 3 *)

Module InstallWizard.
Import DownloadManager.

(** [versions[i]] for a Python index. *)
Definition py_index {A} (l : list A) (i : Z) : option A :=
  if (0 <=? i)%Z then l !! Z.to_nat i
  else if (- Z.of_nat (length l) <=? i)%Z then l !! Z.to_nat (Z.of_nat (length l) + i)
  else None.

(** The version selection of [run]: [None] is the [return None] of the two
    failure exits, [Some v] the value stored in [config["version"]].
    [version_choice] is what [IntPrompt.ask] returned. *)
Definition select_version (stable_page dev_page : response) (version_choice : Z)
  : option version_info :=
  let versions := fst (get_available_versions stable_page dev_page) in
  match versions with
  | [] => None
  | _ => py_index versions (version_choice - 1)
  end.

End InstallWizard.

(** ** etlserver-manager.py *)

Module EtlManager.

Record build := Build { b_version : str; b_hash : str; b_url : str }.

(** [r'.*lnxx8664/etlegacy-v.*\.sh$'] *)
Definition re_build_href : regex :=
  Star true is_dot <.> Lit (py "lnxx8664/etlegacy-v") <.> Star true is_dot <.>
  Lit (py ".sh") <.> Eos.

Definition is_version_char (c : ascii) : bool :=
  is_digit c || is_char "."%char c || is_char "-"%char c.

(** [r'etlegacy-v([\d\.\-]+)-(\w+)-x86_64\.sh'] *)
Definition re_build_name : regex :=
  Lit (py "etlegacy-v") <.> Group (Plus true is_version_char) <.> Lit (py "-") <.>
  Group (Plus true is_word) <.> Lit (py "-x86_64.sh").

Fixpoint builds_of (links : list anchor) : list build :=
  match links with
  | [] => []
  | link :: rest =>
      let href := default [] (a_href link) in
      match search re_build_name href with
      | Some m => Build (group1 m) (group2 m) href :: builds_of rest
      | None => builds_of rest
      end
  end.

(** [get_dev_build_links]; [Unreachable] also stands for a response on which
    [raise_for_status] raises. *)
Definition get_dev_build_links (resp : response) : list build :=
  match resp with
  | Unreachable _ => []
  | Page links => take 4 (builds_of (find_all_href re_build_href links))
  end.

End EtlManager.

(** ** The version catalogue: properties *)

Module CatalogProps.
Import DownloadManager InstallWizard EtlManager.

(** What each source contributes when it can be reached. *)
Definition stable_releases (resp : response) : list version_info :=
  match resp with
  | Unreachable _ => []
  | Page links => option_list (first_stable (find_all_href re_stable_href links))
  end.

Definition dev_releases (resp : response) : list version_info :=
  match resp with
  | Unreachable _ => []
  | Page links => dev_entries (find_all_href re_dev_href links)
  end.

Lemma get_available_versions_eq stable_page dev_page :
  fst (get_available_versions stable_page dev_page)
  = stable_releases stable_page ++ dev_releases dev_page.
Proof.
  unfold get_available_versions.
  destruct stable_page as [e|ls], dev_page as [e'|ld]; simpl;
    try destruct (first_stable _); simpl; auto using app_nil_r.
Qed.

Lemma stable_releases_length resp : (length (stable_releases resp) <= 1)%nat.
Proof.
  destruct resp as [e|ls]; simpl; [lia|].
  destruct (first_stable _); simpl; lia.
Qed.

Lemma dev_entries_dev links v : In v (dev_entries links) -> is_stable v = false.
Proof.
  induction links as [|a l IH]; simpl; [tauto|].
  destruct (search _ _); simpl; [|exact IH].
  intros [<-|H]; auto.
Qed.

Lemma py_index_in_range {A} (l : list A) (i : Z) :
  (0 <= i < Z.of_nat (length l))%Z -> is_Some (py_index l i).
Proof.
  intros H. unfold py_index.
  destruct (Z.leb_spec 0 i); [|lia].
  apply lookup_lt_is_Some. lia.
Qed.

(** The five newest development builds of a listing, and a stable release. *)
Definition dev_link (n : string) : anchor :=
  Anchor
    (Some (py "/workflow-files/dl/20240101/lnxx8664/etlegacy-v2.83.2-" ++ py n
             ++ py "-g6f90ecf-x86_64.sh"))
    (py "etlegacy-v2.83.2-" ++ py n ++ py "-g6f90ecf-x86_64.sh").

Definition dev_page5 : response :=
  Page [dev_link "75"; dev_link "74"; dev_link "73"; dev_link "72"; dev_link "71"].

Definition stable_page1 : response :=
  Page [Anchor (Some (py "/download/file/693")) (py "Linux x86_64 v2.83.2 installer .sh")].

Example catalog_demo :
  map version (fst (get_available_versions stable_page1 (Page [dev_link "75"; dev_link "74"])))
  = [py "2.83.2"; py "2.83.2-75-g6f90ecf"; py "2.83.2-74-g6f90ecf"].
Proof. vm_compute. reflexivity. Qed.

(** C3, on the code: [get_available_versions] lists the stable release first
    and the development builds after it in page order, but it keeps every
    development build of the page.  With five builds listed, five
    development entries are returned; [get_dev_build_links] of
    etlserver-manager.py, on the same page, keeps four. *)
Theorem C3_dev_entries_not_capped :
  let versions := fst (get_available_versions stable_page1 dev_page5) in
  map is_stable versions = [true; false; false; false; false; false]
  /\ length (List.filter (fun v => negb (is_stable v)) versions) = 5%nat
  /\ length (get_dev_build_links dev_page5) = 4%nat.
Proof. vm_compute. repeat split. Qed.

(** C7: the listing is the releases of the stable page followed by those of
    the development page, an unreachable page contributing none and raising
    nothing; the wizard gives up exactly when the list is empty.
    The hypothesis is what [IntPrompt.ask(choices=...)] guarantees of the
    choice. *)
Theorem C7_catalog_degrades (stable_page dev_page : response) (choice : Z) :
  let versions := fst (get_available_versions stable_page dev_page) in
  (versions <> [] -> 1 <= choice <= Z.of_nat (length versions))%Z ->
  versions = stable_releases stable_page ++ dev_releases dev_page
  /\ (forall e, fst (get_available_versions (Unreachable e) dev_page)
                = dev_releases dev_page)
  /\ (forall e, fst (get_available_versions stable_page (Unreachable e))
                = stable_releases stable_page)
  /\ (select_version stable_page dev_page choice = None <-> versions = []).
Proof.
  intros versions Hchoice. subst versions.
  split; [apply get_available_versions_eq|].
  split; [intros e; now rewrite get_available_versions_eq|].
  split; [intros e; rewrite get_available_versions_eq; simpl; apply app_nil_r|].
  unfold select_version.
  destruct (fst (get_available_versions stable_page dev_page)) as [|v vs] eqn:E.
  - tauto.
  - split; [|discriminate].
    intros Hnone. exfalso.
    destruct (py_index_in_range (v :: vs) (choice - 1)) as [x Hx].
    + specialize (Hchoice ltac:(discriminate)). lia.
    + congruence.
Qed.

Lemma C7_catalog_degrades_witness :
  let versions := fst (get_available_versions (Unreachable (py "timeout")) dev_page5) in
  (versions <> [] -> 1 <= 2 <= Z.of_nat (length versions))%Z
  /\ length versions = 5%nat
  /\ (select_version (Unreachable (py "timeout")) dev_page5 2 = None <-> versions = []).
Proof.
  assert (H : (fst (get_available_versions (Unreachable (py "timeout")) dev_page5) <> [] ->
               1 <= 2 <= Z.of_nat (length (fst (get_available_versions
                                       (Unreachable (py "timeout")) dev_page5))))%Z).
  { intros _. vm_compute. split; discriminate. }
  split; [exact H|]. split; [vm_compute; reflexivity|].
  exact (proj2 (proj2 (proj2
           (C7_catalog_degrades (Unreachable (py "timeout")) dev_page5 2 H)))).
Defined.

End CatalogProps.

(** ** Integers in decimal *)


Module Dec.

(** [str(n)] for a non-negative [int]. *)
Definition str_of_N (n : N) : str :=
  list_ascii_of_string (NilEmpty.string_of_uint (N.to_uint n)).

(** [int(s)] for a string of digits; [None] is [ValueError]. *)
Definition int_of_str (s : str) : option N :=
  match s with
  | [] => None
  | _ => option_map N.of_uint (NilEmpty.uint_of_string (string_of_list_ascii s))
  end.

Lemma uint_digits d :
  Forall (fun c => is_digit c = true)
         (list_ascii_of_string (NilEmpty.string_of_uint d)).
Proof. induction d; simpl; constructor; auto. Qed.

Lemma str_of_N_digits n : Forall (fun c => is_digit c = true) (str_of_N n).
Proof. apply uint_digits. Qed.

Lemma to_uint_not_nil n : N.to_uint n <> Decimal.Nil.
Proof.
  destruct n as [|p]; simpl; [discriminate|].
  apply DecimalPos.Unsigned.to_uint_nonnil.
Qed.

Lemma str_of_N_nonempty n : str_of_N n <> [].
Proof.
  unfold str_of_N. pose proof (to_uint_not_nil n) as H.
  destruct (N.to_uint n); simpl; congruence.
Qed.

Lemma int_of_str_of_N n : int_of_str (str_of_N n) = Some n.
Proof.
  unfold int_of_str. pose proof (str_of_N_nonempty n) as H.
  destruct (str_of_N n) eqn:E; [congruence|]. rewrite <- E.
  unfold str_of_N. rewrite string_of_list_ascii_of_string.
  rewrite NilEmpty.usu. simpl. now rewrite DecimalN.Unsigned.of_to.
Qed.

End Dec.

Import Dec.

(** ** lib/server_manager.py *)

Module ServerManager.

Record server := Server {
  name : str;
  port : N;
  version : str;
  dir : str;
  installDir : str
}.

(** A path as [open] meets it. *)
Inductive file :=
| Absent
| Unreadable (msg : str)
| Readable (content : str).

(** The host as [get_installed_servers] observes it: the entries of
    /etc/systemd/system in the order [glob] lists them (names are those of one
    directory, hence pairwise distinct), the other files by path, and the
    standard output of a shell command (or the exception it dies with). *)
Record host := Host {
  systemd_dir : list (str * file);
  files : str -> file;
  run_command : str -> result str
}.

Definition slash : ascii := "/"%char.

Fixpoint drop_while (p : ascii -> bool) (s : str) : str :=
  match s with
  | [] => []
  | c :: s' => if p c then drop_while p s' else s
  end.

(** [os.path.dirname] (posixpath). *)
Definition dirname (p : str) : str :=
  let head := rev (drop_while (fun c => negb (is_char slash c)) (rev p)) in
  if forallb (is_char slash) head then head
  else rev (drop_while (is_char slash) (rev head)).

(** The glob pattern [etlserver-*.service] on an entry name. *)
Definition glob_match (entry : str) : bool :=
  match strip_prefix (py "etlserver-") entry with
  | Some rest => endswith (py ".service") rest
  | None => false
  end.

(** [glob.glob("/etc/systemd/system/etlserver-*.service")]. *)
Definition glob (h : host) : list (str * file) :=
  map (fun e => (py "/etc/systemd/system/" ++ fst e, snd e))
      (List.filter (fun e => glob_match (fst e)) (systemd_dir h)).

(** [r'etlserver-(\d+)\.service'] *)
Definition re_port : regex :=
  Lit (py "etlserver-") <.> Group (Plus true is_digit) <.> Lit (py ".service").

(** [r'ExecStart=(.+?)/etl_start\.sh'] *)
Definition re_exec_start : regex :=
  Lit (py "ExecStart=") <.> Group (Plus false is_dot) <.> Lit (py "/etl_start.sh").

(** [r'set sv_hostname\s+"(.+?)"'] *)
Definition re_hostname : regex :=
  Lit (py "set sv_hostname") <.> Plus true is_space <.> Lit [dquote] <.>
  Group (Plus false is_dot) <.> Lit [dquote].

(** [r'ET Legacy v(\d+\.\d+\.\d+)'] *)
Definition re_version : regex :=
  Lit (py "ET Legacy v") <.>
  Group (Plus true is_digit <.> Lit (py ".") <.> Plus true is_digit <.>
         Lit (py ".") <.> Plus true is_digit).

(** [open(path).read()] *)
Definition read (f : file) : result str :=
  match f with
  | Absent => Raise (py "FileNotFoundError")
  | Unreadable e => Raise e
  | Readable c => Return c
  end.

(** [os.path.exists] *)
Definition exists_ (f : file) : bool :=
  match f with Absent => false | _ => true end.

(** The body of the [try] for one service file: the record to append, if
    any, or the exception that the [except] clause reports. *)
Definition server_of (h : host) (service_file : str) (f : file)
  : result (option server) :=
  match search re_port service_file with
  | None => Return None
  | Some port_match =>
      match int_of_str (group1 port_match) with
      | None => Raise (py "ValueError")
      | Some port =>
          match read f with
          | Raise e => Raise e
          | Return service_content =>
              match search re_exec_start service_content with
              | None => Return None
              | Some dir_match =>
                  let server_dir := group1 dir_match in
                  let install_dir := dirname (dirname server_dir) in
                  let cfg_file := server_dir ++ py "/etmain/etl_server.cfg" in
                  let server_name :=
                    if exists_ (files h cfg_file) then
                      match read (files h cfg_file) with
                      | Raise e => Raise e
                      | Return cfg_content =>
                          match search re_hostname cfg_content with
                          | Some name_match => Return (group1 name_match)
                          | None => Return (py "ET Legacy Server")
                          end
                      end
                    else Return (py "ET Legacy Server") in
                  match server_name with
                  | Raise e => Raise e
                  | Return server_name =>
                      let version :=
                        match run_command h
                                (server_dir ++
                                 py "/etlded.x86_64 +set dedicated 1 +set com_quiet 1 +quit")
                        with
                        | Return stdout =>
                            match search re_version stdout with
                            | Some version_match => group1 version_match
                            | None => py "Unknown"
                            end
                        | Raise _ => py "Unknown"
                        end in
                      Return (Some (Server server_name port version
                                           server_dir install_dir))
                  end
              end
          end
      end
  end.

(** The loop of [get_installed_servers] over the globbed paths: the records
    and the warnings printed. *)
Fixpoint scan (h : host) (service_files : list (str * file))
  : list server * list str :=
  match service_files with
  | [] => ([], [])
  | (service_file, f) :: rest =>
      let '(servers, console) := scan h rest in
      match server_of h service_file f with
      | Return (Some s) => (s :: servers, console)
      | Return None => (servers, console)
      | Raise e =>
          (servers,
           (py "[warning]Error reading server info from " ++ service_file
              ++ py ": " ++ e ++ py "[/warning]") :: console)
      end
  end.

Definition get_installed_servers (h : host) : list server :=
  fst (scan h (glob h)).

End ServerManager.

Module ServerManagerProps.
Import ServerManager.

(** The unit file that [configure_etl_services] writes for a server
    directory. *)
Definition unit_for (server_dir : string) : file :=
  Readable (py "[Service]" ++ [newline] ++ py "ExecStart=" ++ py server_dir
              ++ py "/etl_start.sh" ++ [newline]).

Definition quiet_host (entries : list (str * file)) : host :=
  Host entries (fun _ => Absent) (fun _ => Raise (py "not found")).

Example scan_demo :
  map port (get_installed_servers
              (quiet_host [(py "etlserver-27960.service", unit_for "/home/etlegacy/et/27960");
                           (py "etlrestart-27960.service", unit_for "/x");
                           (py "etlserver-27961.service", unit_for "/home/etlegacy/et/27961")]))
  = [27960%N; 27961%N]
  /\ map installDir (get_installed_servers
              (quiet_host [(py "etlserver-27960.service", unit_for "/home/etlegacy/et/27960")]))
  = [py "/home/etlegacy"].
Proof. vm_compute. split; reflexivity. Qed.

(** C9, as stated, fails: two distinct unit files whose names encode the
    same number produce two records with one port. *)
Lemma C9_same_port_twice :
  map port (get_installed_servers
              (quiet_host [(py "etlserver-27960.service", unit_for "/home/etlegacy/et/27960");
                           (py "etlserver-027960.service", unit_for "/srv/et/27960")]))
  = [27960%N; 27960%N].
Proof. vm_compute. reflexivity. Qed.

(** The name under which [configure_etl_services] writes the unit of a
    port: [f"etlserver-{port}.service"]. *)
Definition unit_name (p : N) : str :=
  py "etlserver-" ++ str_of_N p ++ py ".service".

Lemma search_port_unit_name p :
  exists m, search re_port (py "/etc/systemd/system/" ++ unit_name p) = Some m
            /\ group1 m = str_of_N p.
Proof.
  unfold unit_name.
  set (ds := str_of_N p).
  assert (Hd : Forall (fun c => is_digit c = true) ds) by apply str_of_N_digits.
  assert (Hne : ds <> []) by apply str_of_N_nonempty.
  destruct ds as [|d ds']; [congruence|].
  apply Forall_cons in Hd as [Hd Hds].
  eexists. split.
  - simpl. unfold match_here. simpl. rewrite Hd.
    erewrite star_greedy_run; [reflexivity|exact Hds|].
    rewrite star_greedy_stop by reflexivity. simpl. reflexivity.
  - unfold group1. simpl.
    rewrite length_app. simpl.
    replace (length ds' + 8 - 7)%nat with (S (length ds')) by lia.
    simpl. now rewrite take_app_length.
Qed.

Lemma server_of_port h p f s :
  server_of h (py "/etc/systemd/system/" ++ unit_name p) f = Return (Some s) ->
  port s = p.
Proof.
  destruct (search_port_unit_name p) as (m & Hm & Hg).
  unfold server_of. rewrite Hm, Hg, int_of_str_of_N.
  destruct (read f) as [c|]; [|discriminate].
  destruct (search re_exec_start c) as [dm|]; [|discriminate].
  cbv zeta.
  match goal with |- context [if ?b then ?x else ?y] =>
    destruct (if b then x else y) as [n|] end; [|discriminate].
  intros [= <-]. reflexivity.
Qed.

Definition with_dir (e : str * file) : str * file :=
  (py "/etc/systemd/system/" ++ fst e, snd e).

Lemma scan_ports h (l : list (str * file)) :
  (forall e, In e l -> exists p, fst e = unit_name p) ->
  forall s, In s (fst (scan h (map with_dir l))) ->
            In (unit_name (port s)) (map fst l).
Proof.
  induction l as [|[n f] l IH]; intros Hcan s; simpl; [tauto|].
  destruct (scan h (map with_dir l)) as [servers console] eqn:E.
  assert (IH' : forall s, In s servers -> In (unit_name (port s)) (map fst l)).
  { intros s' Hs'. apply IH; [intros e He; apply Hcan; now right|exact Hs']. }
  destruct (Hcan (n, f) (or_introl eq_refl)) as [p Hp]. simpl in Hp. subst n.
  destruct (server_of h _ f) as [[srv|]|e] eqn:Es; simpl; auto.
  intros [<-|Hs]; auto.
  left. now rewrite (server_of_port _ _ _ _ Es).
Qed.

Lemma scan_nodup h (l : list (str * file)) :
  (forall e, In e l -> exists p, fst e = unit_name p) ->
  NoDup (map fst l) ->
  NoDup (map port (fst (scan h (map with_dir l)))).
Proof.
  induction l as [|[n f] l IH]; intros Hcan Hnd; simpl; [constructor|].
  pose proof (scan_ports h l (fun e He => Hcan e (or_intror He))) as Hports.
  destruct (scan h (map with_dir l)) as [servers console] eqn:E.
  simpl in Hnd. apply NoDup_cons in Hnd as [Hn Hnd].
  assert (IH' : NoDup (map port servers)).
  { apply IH; [intros e He; apply Hcan; now right|exact Hnd]. }
  destruct (Hcan (n, f) (or_introl eq_refl)) as [p Hp]. simpl in Hp. subst n.
  destruct (server_of h _ f) as [[srv|]|e] eqn:Es; simpl; auto.
  apply NoDup_cons. split; [|exact IH'].
  rewrite (server_of_port _ _ _ _ Es).
  intros Hin. apply Hn. apply list_elem_of_In.
  apply list_elem_of_In in Hin. apply in_map_iff in Hin as (s' & <- & Hs').
  now apply Hports.
Qed.

Lemma filter_fst_nodup {A B} (f : A * B -> bool) (l : list (A * B)) :
  NoDup (map fst l) -> NoDup (map fst (List.filter f l)).
Proof.
  induction l as [|e l IH]; simpl; [auto|].
  intros Hnd. apply NoDup_cons in Hnd as [Hn Hnd].
  destruct (f e); simpl; auto.
  apply NoDup_cons. split; auto.
  intros Hin. apply Hn. apply list_elem_of_In. apply list_elem_of_In in Hin.
  apply in_map_iff in Hin as (x & Hx & Hin). apply filter_In in Hin as [Hin _].
  apply in_map_iff. eauto.
Qed.

(** C9, amended: when every entry of the unit directory that the glob
    selects is named as [configure_etl_services] names the unit of a port
    ([etlserver-] followed by [str(port)] and [.service]), the records have
    pairwise distinct ports, and the port of each record is the one its
    own unit file name spells. *)
Theorem C9_ports_distinct (h : host) :
  NoDup (map fst (systemd_dir h)) ->
  (forall e, In e (systemd_dir h) -> glob_match (fst e) = true ->
             exists p, fst e = unit_name p) ->
  NoDup (map port (get_installed_servers h))
  /\ (forall s, In s (get_installed_servers h) ->
                In (unit_name (port s)) (map fst (systemd_dir h))).
Proof.
  intros Hnd Hcan. unfold get_installed_servers, glob.
  fold with_dir.
  set (l := List.filter (fun e => glob_match (fst e)) (systemd_dir h)).
  assert (Hl : forall e, In e l -> exists p, fst e = unit_name p).
  { intros e He. apply filter_In in He as [He Hg]. now apply Hcan. }
  split.
  - apply scan_nodup; [exact Hl|]. now apply filter_fst_nodup.
  - intros s Hs. apply (scan_ports h l Hl) in Hs.
    apply in_map_iff in Hs as (e & He & Hin).
    apply filter_In in Hin as [Hin _].
    apply in_map_iff. eauto.
Qed.

Definition two_units : host :=
  quiet_host [(unit_name 27960, unit_for "/home/etlegacy/et/27960");
              (unit_name 27961, unit_for "/home/etlegacy/et/27961");
              (py "etlmonitor-27960.timer", Readable [])].

Lemma C9_ports_distinct_witness :
  NoDup (map port (get_installed_servers two_units))
  /\ map port (get_installed_servers two_units) = [27960%N; 27961%N].
Proof.
  split; [|vm_compute; reflexivity].
  apply (C9_ports_distinct two_units).
  - vm_compute. repeat (apply NoDup_cons_2; [by (intros H; repeat (apply elem_of_cons in H as [H|H]; [discriminate H|]); inversion H)|]).
    apply NoDup_nil_2.
  - intros e [<-|[<-|[<-|[]]]] Hg.
    + now exists 27960%N.
    + now exists 27961%N.
    + vm_compute in Hg. discriminate.
Defined.

End ServerManagerProps.

(** ** The file system *)

Module Fs.

(** Octal literals of the sources. *)
Definition oct (digits : list nat) : Z :=
  fold_left (fun acc d => 8 * acc + Z.of_nat d)%Z digits 0%Z.

Definition S_IFDIR : Z := oct [0; 4; 0; 0; 0; 0].
Definition S_IFREG : Z := oct [1; 0; 0; 0; 0; 0].

(** A regular file or a directory, with its permission bits and its group.
    The entries of a directory are kept in listing order. *)
#[warnings="-register-all"]
Inductive node :=
| File (perm : Z) (group : str) (data : str)
| Dir (perm : Z) (group : str) (entries : list (str * node)).

Definition path := list str.

Fixpoint str_eqb (a b : str) : bool :=
  match a, b with
  | [], [] => true
  | x :: a', y :: b' => is_char x y && str_eqb a' b'
  | _, _ => false
  end.

Lemma str_eqb_eq a b : str_eqb a b = true <-> a = b.
Proof.
  revert b; induction a as [|x a IH]; intros [|y b]; simpl;
    try (split; congruence).
  rewrite andb_true_iff, is_char_eq, IH. split; [intros [-> ->]|intros [= -> ->]]; auto.
Qed.

Lemma str_eqb_refl a : str_eqb a a = true.
Proof. now apply str_eqb_eq. Qed.

(** The components of a path string: the pieces between slashes. *)
Fixpoint split_path (cur : str) (s : str) : path :=
  match s with
  | [] => match cur with [] => [] | _ => [rev cur] end
  | c :: s' =>
      if is_char "/"%char c then
        match cur with
        | [] => split_path [] s'
        | _ => rev cur :: split_path [] s'
        end
      else split_path (c :: cur) s'
  end.

Definition components (p : str) : path := split_path [] p.

(** [os.path.basename] *)
Definition basename (p : str) : str := List.last (components p) [].

Fixpoint assoc (k : str) (es : list (str * node)) : option node :=
  match es with
  | [] => None
  | (k', n) :: es' => if str_eqb k k' then Some n else assoc k es'
  end.

(** Replace the entry named [k], or add it at the end of the listing. *)
Fixpoint assoc_set (k : str) (n : node) (es : list (str * node))
  : list (str * node) :=
  match es with
  | [] => [(k, n)]
  | (k', n') :: es' =>
      if str_eqb k k' then (k, n) :: es' else (k', n') :: assoc_set k n es'
  end.

Fixpoint assoc_del (k : str) (es : list (str * node)) : list (str * node) :=
  match es with
  | [] => []
  | (k', n') :: es' =>
      if str_eqb k k' then es' else (k', n') :: assoc_del k es'
  end.

(** The node at a path below [n]. *)
Fixpoint lookup (p : path) (n : node) {struct p} : option node :=
  match p with
  | [] => Some n
  | k :: p' =>
      match n with
      | Dir _ _ es =>
          match assoc k es with
          | Some c => lookup p' c
          | None => None
          end
      | File _ _ _ => None
      end
  end.

(** Put [x] at path [p]; the parent has to be an existing directory. *)
Fixpoint put (p : path) (x : node) (n : node) {struct p} : option node :=
  match p with
  | [] => Some x
  | k :: p' =>
      match n with
      | Dir m g es =>
          match p' with
          | [] => Some (Dir m g (assoc_set k x es))
          | _ =>
              match assoc k es with
              | Some c =>
                  match put p' x c with
                  | Some c' => Some (Dir m g (assoc_set k c' es))
                  | None => None
                  end
              | None => None
              end
          end
      | File _ _ _ => None
      end
  end.

(** Remove the node at path [p]. *)
Fixpoint del (p : path) (n : node) {struct p} : option node :=
  match p with
  | [] => None
  | k :: p' =>
      match n with
      | Dir m g es =>
          match assoc k es with
          | Some c =>
              match p' with
              | [] => Some (Dir m g (assoc_del k es))
              | _ =>
                  match del p' c with
                  | Some c' => Some (Dir m g (assoc_set k c' es))
                  | None => None
                  end
              end
          | None => None
          end
      | File _ _ _ => None
      end
  end.

(** Replace the node at [p] by its image under [f], where there is one. *)
Definition alter (f : node -> node) (p : path) (n : node) : node :=
  match lookup p n with
  | Some x => default n (put p (f x) n)
  | None => n
  end.

Definition is_dir (n : node) : bool :=
  match n with Dir _ _ _ => true | File _ _ _ => false end.

Definition perm_of (n : node) : Z :=
  match n with Dir m _ _ => m | File m _ _ => m end.

(** [os.stat(path).st_mode] *)
Definition st_mode (n : node) : Z :=
  match n with
  | Dir m _ _ => Z.lor S_IFDIR m
  | File m _ _ => Z.lor S_IFREG m
  end.

(** [os.chmod(path, mode)] on the node itself: the kernel keeps the twelve
    permission bits. *)
Definition chmod (mode : Z) (n : node) : node :=
  match n with
  | Dir _ g es => Dir (Z.land mode (oct [7; 7; 7; 7])) g es
  | File _ g d => File (Z.land mode (oct [7; 7; 7; 7])) g d
  end.

(** The host state the tool reads and writes: the tree below [/], the group
    database and the two environment variables the sources consult. *)
Record world := World {
  tree : node;
  groups : list str;
  env_SUDO_USER : option str;
  env_USER : option str
}.

Definition set_tree (t : node) (w : world) : world :=
  World t (groups w) (env_SUDO_USER w) (env_USER w).

(** *** Lookup after an update *)

Lemma assoc_set_same k x es : assoc k (assoc_set k x es) = Some x.
Proof.
  induction es as [|[k' n'] es IH]; simpl.
  - now rewrite str_eqb_refl.
  - destruct (str_eqb k k') eqn:E; simpl; now rewrite ?str_eqb_refl, ?E.
Qed.

Lemma lookup_put p q x x0 t :
  lookup p t = Some x0 ->
  exists t', put p x t = Some t' /\ lookup (p ++ q) t' = lookup q x.
Proof.
  revert t; induction p as [|k p IH]; intros t; simpl.
  - intros _. eauto.
  - destruct t as [|m g es]; [discriminate|].
    destruct (assoc k es) as [c|] eqn:Ec; [|discriminate].
    intros Hc. destruct (IH c Hc) as (c' & Hput & Hlook).
    destruct p as [|k2 p].
    + simpl in *. injection Hput as <-. eexists. split; [reflexivity|].
      simpl. now rewrite assoc_set_same.
    + rewrite Hput. eexists. split; [reflexivity|].
      simpl. rewrite assoc_set_same. exact Hlook.
Qed.

Lemma lookup_alter f p q x t :
  lookup p t = Some x ->
  lookup (p ++ q) (alter f p t) = lookup q (f x).
Proof.
  intros H. unfold alter. rewrite H.
  destruct (lookup_put p q (f x) x t H) as (t' & -> & Hl). exact Hl.
Qed.

Lemma lookup_alter_here f p x t :
  lookup p t = Some x -> lookup p (alter f p t) = Some (f x).
Proof.
  intros H. pose proof (lookup_alter f p [] x t H) as E.
  now rewrite app_nil_r in E.
Qed.

Lemma assoc_map (F : str -> node -> node) k es :
  assoc k (map (fun e => (fst e, F (fst e) (snd e))) es)
  = option_map (F k) (assoc k es).
Proof.
  induction es as [|[k' n'] es IH]; simpl; [reflexivity|].
  destruct (str_eqb k k') eqn:E; [|exact IH].
  apply str_eqb_eq in E as ->. reflexivity.
Qed.

End Fs.

Import Fs.

(** ** utils/permissions.py *)

Module Permissions.

(** [chgrp -R group] on a node. *)
Fixpoint chgrp_R (g : str) (n : node) : node :=
  match n with
  | File m _ d => File m g d
  | Dir m _ es => Dir m g (map (fun e => (fst e, chgrp_R g (snd e))) es)
  end.

(** What the [os.walk] loop does to a node that it meets in [dirs] or
    [files]: a directory gets [0o775], then its [st_mode] with the setgid
    bit, and the walk descends into it; a file gets [0o664]. *)
Fixpoint walk_entry (n : node) : node :=
  match n with
  | File _ _ _ => chmod (oct [6; 6; 4]) n
  | Dir _ g es =>
      let n1 := chmod (oct [7; 7; 5]) n in
      let mode := st_mode n1 in
      match chmod (Z.lor mode (oct [2; 0; 0; 0])) n1 with
      | Dir m' g' _ => Dir m' g' (map (fun e => (fst e, walk_entry (snd e))) es)
      | File _ _ _ as f => f
      end
  end.

(** [os.walk(top)]: the top itself is listed, not changed. *)
Definition walk (top : node) : node :=
  match top with
  | File _ _ _ => top
  | Dir m g es => Dir m g (map (fun e => (fst e, walk_entry (snd e))) es)
  end.

(** [find top -name '*ext' -type f -exec chmod 775 {} \;] on the node called
    [name]. *)
Fixpoint find_chmod (ext : str) (name : str) (n : node) : node :=
  match n with
  | File _ _ _ => if endswith ext name then chmod (oct [7; 7; 5]) n else n
  | Dir m g es =>
      Dir m g (map (fun e => (fst e, find_chmod ext (fst e) (snd e))) es)
  end.

(** Characters with a meaning of their own for [/bin/sh] inside an unquoted
    word: blanks, quotes, the backslash, [$] and the backquote, the operators
    [& ( ) ; < > |], and the characters of patterns and braces. *)
Definition shell_special (c : ascii) : bool :=
  existsb (fun a => is_char a c)
    (ascii_of_nat 9 :: newline :: dquote :: backslash :: py " $&'()*;<>?[`{|}").

(** A path that the shell hands on as it stands: none of its characters is
    special, and it does not start like a comment or a home directory. *)
Definition shell_word (s : str) : bool :=
  match s with
  | [] => false
  | c :: _ =>
      negb (is_char "#"%char c) && negb (is_char "~"%char c)
      && forallb (fun c => negb (shell_special c)) s
  end.

(** An argument that a command takes for an option. *)
Definition looks_like_option (s : str) : bool :=
  match s with
  | c :: _ => is_char "-"%char c
  | [] => false
  end.

(** [set_file_permissions(install_dir)]: the value returned and the host it
    leaves.  One [try] holds the three passes, so a pass that raises ends the
    run with [False] and with what the earlier passes have changed.

    [chgrp] is started without a shell: it exits with an error, and
    [check=True] raises, when its last argument reads as an option, when
    [install_dir/et] is missing and when the group is unknown.  The tool runs
    as root (etlegacy_installer.py checks it), so [os.chmod] does not fail
    in the walk.  The two [find] commands are handed to [/bin/sh] with the
    path unquoted: a path that is a [shell_word] reaches [find] as it stands.
    A path with a blank or with a character that the shell interprets does
    not: the shell makes other words of it, and what [find] then does
    depends on what these words name.  The model covers the hosts on which
    they name nothing, as on a host that has /home/my dir/et and no /home/my:
    the first [find] changes nothing and exits with an error, and
    [check=True] raises.  What is proved of a run with such a path is stated
    under the hypothesis [shell_word], or holds of [chgrp] and the walk
    alone. *)
Definition set_file_permissions (install_dir : str) (w : world) : bool * world :=
  let top := install_dir ++ py "/et" in
  if looks_like_option top then (false, w) else
  match lookup (components top) (tree w) with
  | None => (false, w)
  | Some _ =>
      if existsb (str_eqb (py "etusers")) (groups w) then
        let t1 := alter (chgrp_R (py "etusers")) (components top) (tree w) in
        let t2 := alter walk (components top) t1 in
        if shell_word top then
          let t3 := alter (find_chmod (py ".sh") (basename top)) (components top) t2 in
          let t4 := alter (find_chmod (py ".x86_64") (basename top)) (components top) t3 in
          (true, set_tree t4 w)
        else (false, set_tree t2 w)
      else (false, w)
  end.

End Permissions.

Module PermissionsProps.
Import Permissions.

Definition is_executable_name (name : str) : bool :=
  endswith (py ".sh") name || endswith (py ".x86_64") name.

(** All that the three passes do to an entry called [name]. *)
Definition normalize_entry (name : str) (n : node) : node :=
  find_chmod (py ".x86_64") name
    (find_chmod (py ".sh") name (walk_entry (chgrp_R (py "etusers") n))).

(** The modes the passes leave behind. *)
Definition normalized (name : str) (n : node) : Prop :=
  match n with
  | Dir m _ _ => m = oct [2; 7; 7; 5]
  | File m _ _ =>
      m = if is_executable_name name then oct [7; 7; 5] else oct [6; 6; 4]
  end.

Lemma normalize_entry_dir name m g es :
  normalize_entry name (Dir m g es)
  = Dir (oct [2; 7; 7; 5]) (py "etusers")
        (map (fun e => (fst e, normalize_entry (fst e) (snd e))) es).
Proof.
  unfold normalize_entry. simpl. f_equal.
  rewrite !map_map. apply map_ext. intros [k c]. reflexivity.
Qed.

Lemma normalize_entry_file name m g d :
  normalize_entry name (File m g d)
  = File (if is_executable_name name then oct [7; 7; 5] else oct [6; 6; 4])
         (py "etusers") d.
Proof.
  unfold normalize_entry, is_executable_name. simpl.
  destruct (endswith ["."%char; "s"%char; "h"%char] name); simpl;
    destruct (endswith _ name); reflexivity.
Qed.

Lemma last_cons {A} (q : list A) (k d : A) :
  List.last (k :: q) d = List.last q k.
Proof.
  revert k d; induction q as [|x q IH]; intros k d; [reflexivity|].
  change (List.last (k :: x :: q) d) with (List.last (x :: q) d).
  rewrite (IH x d). symmetry. apply (IH x k).
Qed.

Lemma normalize_entry_lookup q name c n :
  lookup q (normalize_entry name c) = Some n ->
  normalized (List.last q name) n.
Proof.
  revert name c; induction q as [|k q IH]; intros name c.
  - simpl. intros [= <-]. destruct c as [m g d|m g es].
    + rewrite normalize_entry_file. reflexivity.
    + rewrite normalize_entry_dir. reflexivity.
  - destruct c as [m g d|m g es].
    + rewrite normalize_entry_file. discriminate.
    + rewrite normalize_entry_dir. simpl lookup.
      rewrite (assoc_map normalize_entry).
      destruct (assoc k es) as [c|]; [|discriminate]. simpl option_map. cbv iota.
      intros H. apply IH in H. now rewrite last_cons.
Qed.

Lemma normalize_top top base k q n :
  lookup (k :: q)
    (find_chmod (py ".x86_64") base
       (find_chmod (py ".sh") base (walk (chgrp_R (py "etusers") top)))) = Some n ->
  normalized (List.last q k) n.
Proof.
  destruct top as [m g d|m g es].
  - simpl. destruct (endswith _ base); simpl;
      try destruct (endswith _ base); discriminate.
  - simpl find_chmod. rewrite !map_map. simpl lookup.
    rewrite (assoc_map normalize_entry).
    destruct (assoc k es) as [c|]; [|discriminate]. simpl.
    apply normalize_entry_lookup.
Qed.

(** C6, amended: when [install_dir/et] reaches [find] as one word and
    [set_file_permissions] returns [True], every directory strictly below
    [install_dir/et] is group-writable and setgid, every regular file below
    it is group-writable, and every regular file whose name ends in [.sh] or
    [.x86_64] has its three execute bits.  The modes are exactly [0o2775],
    [0o664] and [0o775]: the [0o664] of the walk has been overwritten by the
    later [find ... chmod 775], and by nothing else. *)
Theorem C6_permissions_normalized (install_dir : str) (w w' : world)
    (k : str) (q : path) (n : node) :
  shell_word (install_dir ++ py "/et") = true ->
  set_file_permissions install_dir w = (true, w') ->
  lookup (components (install_dir ++ py "/et") ++ k :: q) (tree w') = Some n ->
  normalized (List.last q k) n
  /\ match n with
     | Dir m _ _ => Z.land m (oct [2; 0; 2; 0]) = oct [2; 0; 2; 0]
     | File m _ _ =>
         Z.land m (oct [0; 2; 0]) = oct [0; 2; 0]
         /\ (is_executable_name (List.last q k) = true ->
             Z.land m (oct [1; 1; 1]) = oct [1; 1; 1])
     end.
Proof.
  intros Hword. unfold set_file_permissions. cbv zeta. rewrite Hword.
  set (p := components (install_dir ++ py "/et")).
  destruct (looks_like_option _); [discriminate|].
  destruct (lookup p (tree w)) as [top|] eqn:Htop; [|discriminate].
  destruct (existsb _ (groups w)); [|discriminate].
  intros [= <-]. simpl tree.
  rewrite (lookup_alter _ p (k :: q) _ _
             (lookup_alter_here _ p _ _
                (lookup_alter_here _ p _ _ (lookup_alter_here _ p _ _ Htop)))).
  intros H. apply normalize_top in H.
  split; [exact H|].
  destruct n as [m g d|m g es]; simpl in H; subst m.
  - destruct (is_executable_name _);
      (split; [reflexivity|first [discriminate|intros _; reflexivity]]).
  - reflexivity.
Qed.

(** A host with one instance under /home/etlegacy. *)
Definition dir0 (es : list (string * node)) : node :=
  Dir (oct [7; 5; 5]) (py "root") (map (fun e => (py (fst e), snd e)) es).
Definition file0 (perm : Z) (data : string) : node := File perm (py "root") (py data).

Definition instance0 : node :=
  dir0 [("etl_start.sh", file0 (oct [7; 5; 5]) "#!/bin/bash");
        ("etlded.x86_64", file0 (oct [7; 5; 5]) "ELF");
        ("etmain", dir0 [("etl_server.cfg", file0 (oct [6; 4; 4]) "set sv_hidden 1");
                         ("pak0.pk3", file0 (oct [7; 5; 5]) "PK")]);
        ("legacy", dir0 [])].

Definition host0 : world :=
  World (dir0 [("home", dir0 [("etlegacy", dir0 [("et", dir0 [("27960", instance0)])])]);
               ("etc", dir0 [("systemd", dir0 [("system", dir0 [])])]);
               ("tmp", dir0 [])])
        [py "root"; py "etusers"] (Some (py "admin")) (Some (py "root")).

Example set_file_permissions_demo :
  let w' := snd (set_file_permissions (py "/home/etlegacy") host0) in
  option_map perm_of (lookup (components (py "/home/etlegacy/et/27960/etmain")) (tree w'))
    = Some (oct [2; 7; 7; 5])
  /\ option_map perm_of (lookup (components (py "/home/etlegacy/et/27960/etmain/pak0.pk3")) (tree w'))
    = Some (oct [6; 6; 4])
  /\ option_map perm_of (lookup (components (py "/home/etlegacy/et/27960/etlded.x86_64")) (tree w'))
    = Some (oct [7; 7; 5])
  /\ option_map perm_of (lookup (components (py "/home/etlegacy/et")) (tree w'))
    = Some (oct [7; 5; 5]).
Proof. vm_compute. repeat split. Qed.

(** An install directory with a blank in its name: the run ends with [False]
    at the first [find], after [chgrp] and the walk have done their work. *)
Example set_file_permissions_blank_demo :
  let w := World (dir0 [("home", dir0 [("my dir", dir0 [("et", dir0
                    [("27960", dir0 [("etl_start.sh", file0 (oct [7; 5; 5]) "#!")])])])])])
                 [py "etusers"] None (Some (py "root")) in
  let r := set_file_permissions (py "/home/my dir") w in
  fst r = false
  /\ option_map perm_of
       (lookup (components (py "/home/my dir/et/27960/etl_start.sh")) (tree (snd r)))
     = Some (oct [6; 6; 4])
  /\ option_map perm_of (lookup (components (py "/home/my dir/et/27960")) (tree (snd r)))
     = Some (oct [2; 7; 7; 5]).
Proof. vm_compute. repeat split. Qed.

(** C6, as stated, fails for the directory [install_dir/et] itself: the walk
    lists it, but changes only what it finds in [dirs] and [files].  After a
    successful run it has the mode it had before, here [0o755], without the
    group-write and the setgid bit. *)
Lemma C6_top_directory_keeps_mode :
  let r := set_file_permissions (py "/home/etlegacy") host0 in
  fst r = true
  /\ exists m g es,
       lookup (components (py "/home/etlegacy/et")) (tree (snd r)) = Some (Dir m g es)
       /\ m = oct [7; 5; 5]
       /\ Z.land m (oct [2; 0; 2; 0]) <> oct [2; 0; 2; 0].
Proof.
  cbv zeta. split; [vm_compute; reflexivity|].
  eexists _, _, _. split; [vm_compute; reflexivity|].
  split; [reflexivity|]. vm_compute. discriminate.
Qed.

Lemma C6_permissions_normalized_witness :
  normalized (py "etl_start.sh") (File (oct [7; 7; 5]) (py "etusers") (py "#!/bin/bash"))
  /\ (Z.land (oct [7; 7; 5]) (oct [0; 2; 0]) = oct [0; 2; 0]
      /\ (is_executable_name (py "etl_start.sh") = true ->
          Z.land (oct [7; 7; 5]) (oct [1; 1; 1]) = oct [1; 1; 1])).
Proof.
  apply (C6_permissions_normalized (py "/home/etlegacy") host0
           (snd (set_file_permissions (py "/home/etlegacy") host0))
           (py "27960") [py "etl_start.sh"]
           (File (oct [7; 7; 5]) (py "etusers") (py "#!/bin/bash"))).
  - reflexivity.
  - vm_compute. reflexivity.
  - vm_compute. reflexivity.
Defined.

End PermissionsProps.

(** ** Replacement templates of [re.sub] *)

Module Template.

(** A compiled replacement: literal characters and references to the whole
    match ([\g<0>]).  The patterns substituted by the sources have no capture
    group, so every other group reference is an error. *)
Inductive part :=
| PLit (c : ascii)
| PMatch.

(** Where the template parser stands: in plain text, behind a backslash,
    inside an octal escape that started with [\0] (value and number of digits
    read after the zero), behind [\d] or [\dd] for a digit [d] from 1 to 9,
    behind [\g], or inside the name of [\g<name>] (whether it is non-empty and
    whether all of it is zeros). *)
Inductive mode :=
| MText
| MEscape
| MOctal (value digits : nat)
| MDigit1 (d1 : nat)
| MDigit2 (d1 d2 : nat)
| MGroup
| MName (nonempty zeros : bool).

Definition digit_value (c : ascii) : nat := code c - 48.
Definition is_octal (c : ascii) : bool := in_range 48 55 c.

(** The escapes that stand for one character: [\a \b \f \n \r \t \v \\]. *)
Definition simple_escape (c : ascii) : option ascii :=
  if is_char "a" c then Some (ascii_of_nat 7)
  else if is_char "b" c then Some (ascii_of_nat 8)
  else if is_char "f" c then Some (ascii_of_nat 12)
  else if is_char "n" c then Some (ascii_of_nat 10)
  else if is_char "r" c then Some (ascii_of_nat 13)
  else if is_char "t" c then Some (ascii_of_nat 9)
  else if is_char "v" c then Some (ascii_of_nat 11)
  else if is_char backslash c then Some backslash
  else None.

Definition cons_part (p : part) (r : option (list part)) : option (list part) :=
  option_map (cons p) r.

(** The template parser of the [re] module; [None] is [re.error] (or the
    [IndexError] of an unknown group name). *)
Fixpoint parse (m : mode) (s : str) : option (list part) :=
  match s with
  | [] =>
      match m with
      | MText => Some []
      | MOctal v _ => Some [PLit (ascii_of_nat (v mod 256))]
      | _ => None
      end
  | c :: s' =>
      let text :=
        if is_char backslash c then parse MEscape s'
        else cons_part (PLit c) (parse MText s') in
      match m with
      | MText => text
      | MEscape =>
          if is_char "g" c then parse MGroup s'
          else if is_char "0" c then parse (MOctal 0 0) s'
          else if is_digit c then parse (MDigit1 (digit_value c)) s'
          else
            match simple_escape c with
            | Some e => cons_part (PLit e) (parse MText s')
            | None =>
                if is_ascii_letter c then None
                else cons_part (PLit backslash) (cons_part (PLit c) (parse MText s'))
            end
      | MOctal v n =>
          if is_octal c && (n <? 2)%nat
          then parse (MOctal (8 * v + digit_value c) (S n)) s'
          else cons_part (PLit (ascii_of_nat (v mod 256))) text
      | MDigit1 d1 =>
          if is_digit c then parse (MDigit2 d1 (digit_value c)) s' else None
      | MDigit2 d1 d2 =>
          if (d1 <? 8)%nat && (d2 <? 8)%nat && is_octal c then
            let v := (64 * d1 + 8 * d2 + digit_value c)%nat in
            if (255 <? v)%nat then None
            else cons_part (PLit (ascii_of_nat v)) (parse MText s')
          else None
      | MGroup => if is_char "<" c then parse (MName false true) s' else None
      | MName nonempty zeros =>
          if is_char ">" c then
            if nonempty && zeros then cons_part PMatch (parse MText s') else None
          else parse (MName true (zeros && is_char "0" c)) s'
      end
  end.

(** [match.expand] for a compiled template. *)
Fixpoint expand (parts : list part) (matched : str) : str :=
  match parts with
  | [] => []
  | PLit c :: rest => c :: expand rest matched
  | PMatch :: rest => matched ++ expand rest matched
  end.

Definition compile (repl : str) : option (str -> str) :=
  option_map expand (parse MText repl).

(** [re.sub(pattern, repl, string)] *)
Definition re_sub (pattern : regex) (repl : str) (string : str) : result str :=
  match compile repl with
  | Some tpl => Return (sub pattern tpl string)
  | None => Raise (py "re.error")
  end.


End Template.

Example template_demo :
  option_map (fun tpl => tpl (py "M"))
    (Template.compile (py "a\\b\n\g<0>\101\.")) = Some (py "a\b" ++ [newline] ++ py "MA\.")
  /\ Template.compile (py "pa\ss") = None
  /\ Template.compile (py "tail\") = None
  /\ Template.compile (py "\1") = None.
Proof. vm_compute. repeat split. Qed.

(** ** Configuration dictionaries *)

Module Config.

(** The scalar values of a configuration dictionary: the wizard stores
    strings, integers and booleans, the environment file only strings.
    ([config['version']], a dictionary, is kept apart, see [Installer].) *)
Inductive pyval :=
| PStr (s : str)
| PInt (z : Z)
| PBool (b : bool).

Definition str_of_Z (z : Z) : str :=
  if (z <? 0)%Z then py "-" ++ str_of_N (Z.to_N (- z)) else str_of_N (Z.to_N z).

(** [f"{v}"] *)
Definition format (v : pyval) : str :=
  match v with
  | PStr s => s
  | PInt z => str_of_Z z
  | PBool true => py "True"
  | PBool false => py "False"
  end.

(** Truth value of [v]. *)
Definition truthy (v : pyval) : bool :=
  match v with
  | PStr s => negb (bool_decide (s = []))
  | PInt z => negb (z =? 0)%Z
  | PBool b => b
  end.

Definition config := gmap string pyval.

(** [config[key]] *)
Definition getitem (c : config) (key : string) : result pyval :=
  match c !! key with
  | Some v => Return v
  | None => Raise (py "KeyError: " ++ py key)
  end.

(** [config.get(key, default)] *)
Definition get (c : config) (key : string) (default : pyval) : pyval :=
  match c !! key with
  | Some v => v
  | None => default
  end.

End Config.

Import Config.

#[global] Instance result_ret : MRet result := fun A a => Return a.
#[global] Instance result_bind : MBind result :=
  fun A B f r => match r with Return a => f a | Raise e => Raise e end.

(** ** Files opened in text mode *)

Module TextMode.

Definition cr : ascii := ascii_of_nat 13.

(** Reading in text mode: [\r\n] and [\r] arrive as [\n]. *)
Fixpoint translate_newlines (s : str) : str :=
  match s with
  | [] => []
  | c :: s' =>
      if is_char cr c then
        match s' with
        | c' :: s'' =>
            if is_char newline c' then newline :: translate_newlines s''
            else newline :: translate_newlines s'
        | [] => [newline]
        end
      else c :: translate_newlines s'
  end.

(** The codec of the locale: [open(path, 'r').read()] decodes the bytes of
    the file and raises [UnicodeDecodeError] on bytes that are no text in that
    encoding; writing encodes. *)
Record codec := Codec {
  decode : str -> result str;
  encode : str -> result str
}.

(** ISO 8859-1: every byte is the character of the same number. *)
Definition latin1 : codec := Codec Return Return.

(** [f.read()] on a file opened with [open(path, 'r')]. *)
Definition read_text (k : codec) (data : str) : result str :=
  text ← decode k data;
  mret (translate_newlines text).

End TextMode.

Import TextMode.

(** ** The server configuration file (lib/installer.py, idk/lib/config_manager.py) *)

Module ConfigTemplate.

(** The text [set <key>] that opens a directive. *)
Definition set_ (key : string) : str := py "set " ++ py key.

(** [r'set <key>\s+".*?"'], the patterns of [_configure_server]. *)
Definition set_re (key : string) : regex :=
  Lit (set_ key) <.> Plus true is_space <.> Lit [dquote] <.>
  Star false is_dot <.> Lit [dquote].

(** [f'set <key> "{value}"'] *)
Definition set_line (key : string) (value : str) : str :=
  set_ key ++ py " " ++ [dquote] ++ value ++ [dquote].

(** The [replacements] dictionary, in insertion order.  Building it reads
    the configuration; a missing key raises [KeyError]. *)
Definition replacements (c : config) : result (list (regex * str)) :=
  servername ← getitem c "servername";
  g_password ← getitem c "g_password";
  sv_maxclients ← getitem c "sv_maxclients";
  sv_privateclients ← getitem c "sv_privateclients";
  let sv_privatepassword := get c "sv_privatepassword" (PStr []) in
  rconpassword ← getitem c "rconpassword";
  refereepassword ← getitem c "refereepassword";
  ShoutcastPassword ← getitem c "ShoutcastPassword";
  let sv_wwwBaseURL := get c "sv_wwwBaseURL" (PStr []) in
  port ← getitem c "port";
  mret
    [(set_re "sv_hostname", set_line "sv_hostname" (format servername));
     (set_re "g_password", set_line "g_password" (format g_password));
     (set_re "sv_maxclients", set_line "sv_maxclients" (format sv_maxclients));
     (set_re "sv_privateclients", set_line "sv_privateclients" (format sv_privateclients));
     (set_re "sv_privatepassword", set_line "sv_privatepassword" (format sv_privatepassword));
     (set_re "rconpassword", set_line "rconpassword" (format rconpassword));
     (set_re "refereePassword", set_line "refereePassword" (format refereepassword));
     (set_re "ShoutcastPassword", set_line "ShoutcastPassword" (format ShoutcastPassword));
     (set_re "sv_wwwBaseURL", set_line "sv_wwwBaseURL" (format sv_wwwBaseURL));
     (set_re "sv_hidden", set_line "sv_hidden" (py "0"));
     (set_re "net_port", set_line "net_port" (format port))].

(** The names bound at module level in lib/installer.py: what it imports
    and the class it defines.  [re] is not one of them, and is no builtin. *)
Definition installer_globals : list string :=
  ["os"; "shutil"; "subprocess"; "Console"; "Progress"; "SpinnerColumn";
   "TextColumn"; "BarColumn"; "TimeElapsedColumn"; "Panel";
   "PermissionsManager"; "BashRunner"; "SystemServiceManager";
   "FirewallManager"; "Installer"].

Definition name_error (name : string) : str :=
  py "NameError: name '" ++ py name ++ py "' is not defined".

(** Evaluating a global name inside a method of lib/installer.py. *)
Definition load_global (name : string) : result unit :=
  if existsb (String.eqb name) installer_globals then Return tt
  else Raise (name_error name).

(** [for pattern, replacement in replacements.items():
       cfg_content = re.sub(pattern, replacement, cfg_content)]
    Each turn of the loop first evaluates the name [re]. *)
Fixpoint substitute_all (rs : list (regex * str)) (cfg_content : str) : result str :=
  match rs with
  | [] => Return cfg_content
  | (pattern, replacement) :: rest =>
      _ ← load_global "re";
      cfg_content ← Template.re_sub pattern replacement cfg_content;
      substitute_all rest cfg_content
  end.

(** What [_configure_server] makes of the contents of etl_server.cfg
    (the spec's [ApplySettings]): the table is built, then the loop runs. *)
Definition replace_configuration_values (c : config) (cfg_content : str) : result str :=
  rs ← replacements c;
  substitute_all rs cfg_content.

(** [_configure_server(config, server_dir)] on the host.  The file is read
    in text mode; it is written again only when the loop has returned.
    ([open(path, 'w')] empties the file before anything is encoded.) *)
Definition _configure_server (k : codec) (c : config) (server_dir : str) (w : world)
  : result unit * world :=
  let etl_server_cfg := components (server_dir ++ py "/etmain/etl_server.cfg") in
  match lookup etl_server_cfg (tree w) with
  | None => (Return tt, w)
  | Some (Dir _ _ _) => (Raise (py "IsADirectoryError"), w)
  | Some (File perm group data) =>
      match cfg_content ← read_text k data; replace_configuration_values c cfg_content with
      | Raise e => (Raise e, w)
      | Return cfg_content' =>
          let written :=
            match encode k cfg_content' with
            | Return bytes => (Return tt, bytes)
            | Raise e => (Raise e, [])
            end in
          match put etl_server_cfg (File perm group (snd written)) (tree w) with
          | Some t => (fst written, set_tree t w)
          | None => (Raise (py "OSError"), w)
          end
      end
  end.

(** [r'set <key>\s+"(.+?)"'], the patterns of [export_server_config]. *)
Definition get_re (key : string) : regex :=
  Lit (set_ key) <.> Plus true is_space <.> Lit [dquote] <.>
  Group (Plus false is_dot) <.> Lit [dquote].

(** The [patterns] dictionary of [export_server_config]. *)
Definition patterns : list (string * regex) :=
  [("sv_maxclients", get_re "sv_maxclients");
   ("g_password", get_re "g_password");
   ("sv_privateclients", get_re "sv_privateclients");
   ("sv_privatepassword", get_re "sv_privatepassword");
   ("rconpassword", get_re "rconpassword");
   ("refereepassword", get_re "refereePassword");
   ("ShoutcastPassword", get_re "ShoutcastPassword");
   ("sv_wwwBaseURL", get_re "sv_wwwBaseURL")].

(** [for key, pattern in patterns.items(): ...] *)
Fixpoint extract (ps : list (string * regex)) (cfg_content : str) (c : config)
  : config :=
  match ps with
  | [] => c
  | (key, pattern) :: rest =>
      let c' :=
        match search pattern cfg_content with
        | Some m => <[key := PStr (group1 m)]> c
        | None => c
        end in
      extract rest cfg_content c'
  end.

(** The dictionary that [export_server_config] hands to [save_env_file]:
    [server_info] supplies name, port, install directory and version,
    [cfg] is the contents of etl_server.cfg when the file exists. *)
Definition export_server_config (server_info : config) (cfg : option str) : config :=
  let c : config :=
    <["version" := get server_info "version" (PStr [])]>
    (<["installDir" := get server_info "installDir" (PStr [])]>
    (<["port" := get server_info "port" (PStr (py "27960"))]>
    (<["servername" := get server_info "name" (PStr [])]> ∅))) in
  match cfg with
  | Some cfg_content => extract patterns cfg_content c
  | None => c
  end.

End ConfigTemplate.

Module ConfigExamples.
Import ConfigTemplate.

Definition quoted (v : string) : str := [dquote] ++ py v ++ [dquote].

(** A wizard configuration. *)
Definition config0 : config :=
  <["servername" := PStr (py "^1ET ^2Legacy")]>
  (<["g_password" := PStr []]>
  (<["sv_maxclients" := PInt 16]>
  (<["sv_privateclients" := PInt 0]>
  (<["rconpassword" := PStr (py "secret")]>
  (<["refereepassword" := PStr (py "ref")]>
  (<["ShoutcastPassword" := PStr (py "cast")]>
  (<["sv_wwwBaseURL" := PStr []]>
  (<["port" := PInt 27960]> ∅)))))))).

(** A vendor file. *)
Definition vendor_cfg : str :=
  py "set sv_hostname " ++ quoted "ET: Legacy Host" ++ py " // name" ++ [newline] ++
  py "set g_password " ++ quoted "x" ++ [newline] ++
  py "set sv_maxclients  " ++ quoted "24" ++ [newline] ++
  py "set sv_hidden " ++ quoted "1" ++ [newline] ++
  py "set rconpassword " ++ [dquote; dquote] ++ [newline] ++
  py "set net_port " ++ quoted "27970" ++ [newline].

Definition rendered_cfg : str :=
  py "set sv_hostname " ++ quoted "^1ET ^2Legacy" ++ py " // name" ++ [newline] ++
  py "set g_password " ++ [dquote; dquote] ++ [newline] ++
  py "set sv_maxclients " ++ quoted "16" ++ [newline] ++
  py "set sv_hidden " ++ quoted "0" ++ [newline] ++
  py "set rconpassword " ++ quoted "secret" ++ [newline] ++
  py "set net_port " ++ quoted "27960" ++ [newline].

Example replace_demo :
  replace_configuration_values config0 vendor_cfg = Raise (name_error "re")
  /\ replace_configuration_values (delete "port" config0) vendor_cfg
     = Raise (py "KeyError: port").
Proof. vm_compute. split; reflexivity. Qed.

Example export_demo :
  let c := export_server_config ∅ (Some rendered_cfg) in
  c !! "rconpassword" = Some (PStr (py "secret"))
  /\ c !! "sv_maxclients" = Some (PStr (py "16"))
  /\ c !! "g_password" = None.
Proof. vm_compute. repeat split. Qed.

End ConfigExamples.

(** ** Directive patterns: what they match *)

Module Directive.
Import ConfigTemplate.

(** *** Repetition with a continuation *)




(** *** What a directive pattern matches *)

Definition plain (c : ascii) : Prop := c <> dquote /\ c <> newline.


Lemma take_text (t rest : str) : take (length (t ++ rest) - length rest) (t ++ rest) = t.
Proof.
  rewrite length_app. replace (length t + length rest - length rest)%nat with (length t) by lia.
  apply take_app_length.
Qed.



(** *** Line boundaries *)

Definition no_newline (s : str) : Prop := Forall (fun c => c <> newline) s.

(** *** The literal that opens a directive *)





End Directive.

(** ** The replacement table *)

Module Table.
Import ConfigTemplate Directive.

Lemma bind_return {A B} (f : A -> result B) (a : A) : (Return a ≫= f) = f a.
Proof. reflexivity. Qed.

(** The keys of the directives that [_configure_server] rewrites, in the
    order of the [replacements] dictionary. *)
Definition keys : list string :=
  ["sv_hostname"; "g_password"; "sv_maxclients"; "sv_privateclients";
   "sv_privatepassword"; "rconpassword"; "refereePassword"; "ShoutcastPassword";
   "sv_wwwBaseURL"; "sv_hidden"; "net_port"].

(** The configuration keys that [replacements] reads with [config[...]]. *)
Definition required : list string :=
  ["servername"; "g_password"; "sv_maxclients"; "sv_privateclients";
   "rconpassword"; "refereepassword"; "ShoutcastPassword"; "port"].

(** The values written for [keys]. *)
Definition values (c : config) : list str :=
  let v key := format (get c key (PStr [])) in
  [v "servername"; v "g_password"; v "sv_maxclients"; v "sv_privateclients";
   v "sv_privatepassword"; v "rconpassword"; v "refereepassword";
   v "ShoutcastPassword"; v "sv_wwwBaseURL"; py "0"; v "port"].

Definition entry (key : string) (v : str) : regex * str :=
  (set_re key, set_line key v).


Lemma replacements_total c :
  forallb (fun key => bool_decide (is_Some (c !! key))) required = true ->
  replacements c = Return (zip_with entry keys (values c)).
Proof.
  intros H. rewrite forallb_forall in H.
  assert (Hk : forall key, In key required -> exists v, c !! key = Some v).
  { intros key Hin. apply H, bool_decide_eq_true in Hin as [v Hv]. eauto. }
  unfold replacements, getitem, values, get.
  repeat (match goal with
          | |- context [c !! ?k] =>
              let E := fresh in
              destruct (Hk k) as [? E]; [cbn; tauto|rewrite !E; clear E]
          end; rewrite ?bind_return).
  reflexivity.
Qed.

End Table.

(** ** The visibility flag *)

Module HiddenProps.
Import ConfigTemplate Directive Table.

Lemma contains_unfold p s :
  contains p s = match strip_prefix p s with
                 | Some _ => true
                 | None => match s with [] => false | _ :: s' => contains p s' end
                 end.
Proof. destruct s; reflexivity. Qed.

Lemma contains_app p A B : contains p (A ++ p ++ B) = true.
Proof.
  induction A as [|c A IH]; rewrite contains_unfold.
  - cbn [app]. now rewrite strip_prefix_self.
  - cbn [app]. now destruct (strip_prefix p (c :: A ++ p ++ B)).
Qed.

(** A host whose instance directory holds the vendor file. *)
Definition vendor_host : world :=
  let dir := Dir (oct [7; 5; 5]) (py "root") in
  World (dir [(py "srv", dir [(py "27960", dir [(py "etmain", dir
           [(py "etl_server.cfg",
             File (oct [6; 4; 4]) (py "root") ConfigExamples.vendor_cfg)])])])])
        [py "root"] None (Some (py "root")).

(** C10, on the code: the vendor file holds [set sv_hidden "1"] and the
    configuration has every key the table reads.  [_configure_server] raises
    [NameError] at the first [re.sub], because lib/installer.py does not
    import [re]; the file is not written, and still holds [set sv_hidden "1"]
    and nowhere [set sv_hidden "0"]. *)
Theorem C10_hidden_not_forced :
  let etl_server_cfg := components (py "/srv/27960/etmain/etl_server.cfg") in
  let r := _configure_server latin1 ConfigExamples.config0 (py "/srv/27960") vendor_host in
  lookup etl_server_cfg (tree vendor_host)
  = Some (File (oct [6; 4; 4]) (py "root") ConfigExamples.vendor_cfg)
  /\ contains (set_line "sv_hidden" (py "1")) ConfigExamples.vendor_cfg = true
  /\ fst r = Raise (name_error "re")
  /\ snd r = vendor_host
  /\ contains (set_line "sv_hidden" (py "0")) ConfigExamples.vendor_cfg = false.
Proof.
  cbv zeta. split; [vm_compute; reflexivity|]. split; [vm_compute; reflexivity|].
  split; [vm_compute; reflexivity|]. split; [|vm_compute; reflexivity].
  unfold _configure_server.
  replace (lookup _ (tree vendor_host))
    with (Some (File (oct [6; 4; 4]) (py "root") ConfigExamples.vendor_cfg))
    by (vm_compute; reflexivity).
  replace (cfg_content ← read_text latin1 ConfigExamples.vendor_cfg;
           replace_configuration_values ConfigExamples.config0 cfg_content)
    with (Raise (name_error "re") : result str) by (vm_compute; reflexivity).
  reflexivity.
Qed.

End HiddenProps.

(** ** What [_configure_server] does to the host *)

Module ApplyProps.
Import ConfigTemplate Table.





End ApplyProps.

(** ** Configuration files line by line *)

Module Lines.
Import ConfigTemplate Directive Table.

(** *** Splitting at the first character of a kind *)




(** *** Counting quotes *)








(** *** Lines *)







(** *** Matches stay within a line *)





(** *** Lines with at most two quotes *)







(** *** The keys of the table *)








(** *** Well-formed lines *)



(** *** Lines, decidably *)







(** *** The patterns of the export *)






End Lines.

(** ** The version catalogues: further properties *)

Module CatalogFacts.
Import DownloadManager InstallWizard EtlManager CatalogProps.

(** In the list of [get_available_versions] a stable release can only stand
    at the head: every later entry is a development build. *)
Theorem later_entries_are_dev stable_page dev_page i v :
  fst (get_available_versions stable_page dev_page) !! S i = Some v ->
  is_stable v = false.
Proof.
  rewrite get_available_versions_eq. intros Hi.
  pose proof (stable_releases_length stable_page) as Hlen.
  apply lookup_app_Some in Hi as [Hi|[Hge Hi]].
  - apply lookup_lt_Some in Hi. lia.
  - apply list_elem_of_lookup_2, list_elem_of_In in Hi.
    destruct dev_page as [e|links]; [destruct Hi|].
    now apply dev_entries_dev in Hi.
Qed.

Lemma later_entries_are_dev_witness :
  let v := VersionInfo (py "Development 2.83.2-75-g6f90ecf")
             (py "https://etlegacy.com/workflow-files/dl/20240101/lnxx8664/etlegacy-v2.83.2-75-g6f90ecf-x86_64.sh")
             (py "2.83.2-75-g6f90ecf") false in
  fst (get_available_versions stable_page1 dev_page5) !! 1%nat = Some v
  /\ is_stable v = false.
Proof.
  intros v.
  assert (H : fst (get_available_versions stable_page1 dev_page5) !! 1%nat = Some v)
    by (vm_compute; reflexivity).
  split; [exact H|].
  exact (later_entries_are_dev stable_page1 dev_page5 0 v H).
Defined.

(** [get_dev_build_links] returns at most four builds, and their URLs are
    [href]s of the page, in page order. *)
Theorem dev_build_links_bounded links :
  (length (get_dev_build_links (Page links)) <= 4)%nat
  /\ sublist (map b_url (get_dev_build_links (Page links)))
             (map (fun a => default [] (a_href a)) links).
Proof.
  unfold get_dev_build_links. split.
  - rewrite length_take. lia.
  - transitivity (map b_url (builds_of (find_all_href re_build_href links))).
    { apply (fmap_sublist b_url), sublist_take. }
    unfold find_all_href.
    induction links as [|a links IH]; [constructor|].
    cbn [List.filter map].
    match goal with |- context [if ?b then _ else _] => destruct b end.
    + cbn [builds_of].
      destruct (search re_build_name (default [] (a_href a))).
      * cbn [map b_url]. now apply sublist_skip.
      * now apply sublist_cons.
    + now apply sublist_cons.
Qed.

(** The default answer of the version prompt, 1, selects the stable release
    whenever the stable page offers one. *)
Theorem default_choice_is_stable links dev_page v :
  first_stable (find_all_href re_stable_href links) = Some v ->
  select_version (Page links) dev_page 1 = Some v.
Proof.
  intros H. unfold select_version. rewrite get_available_versions_eq.
  cbn [stable_releases]. rewrite H. reflexivity.
Qed.

Lemma default_choice_is_stable_witness :
  let links := [Anchor (Some (py "/download/file/693"))
                       (py "Linux x86_64 v2.83.2 installer .sh")] in
  let v := VersionInfo (py "Stable 2.83.2")
             (py "https://etlegacy.com/download/download/file/693")
             (py "2.83.2") true in
  first_stable (find_all_href re_stable_href links) = Some v
  /\ select_version (Page links) dev_page5 1 = Some v.
Proof.
  intros links v.
  assert (H : first_stable (find_all_href re_stable_href links) = Some v)
    by (vm_compute; reflexivity).
  split; [exact H|].
  exact (default_choice_is_stable links dev_page5 v H).
Defined.

(** The stable release is built from a link of the page whose [href] holds
    [/download/file/<digits>]: its URL is the download page's URL with that
    [href] appended (so a site-absolute [href] yields [/download] twice), and
    its name is [Stable] followed by the version. *)
Theorem stable_release_of_link links v :
  first_stable (find_all_href re_stable_href links) = Some v ->
  exists link h,
    In link links /\ a_href link = Some h
    /\ is_Some (search re_stable_href h)
    /\ url v = py "https://etlegacy.com/download" ++ h
    /\ name v = py "Stable " ++ version v
    /\ is_stable v = true.
Proof.
  unfold find_all_href.
  induction links as [|a links IH]; [discriminate|].
  cbn [List.filter].
  destruct (a_href a) as [h|] eqn:Eh.
  - destruct (search re_stable_href h) as [m|] eqn:Em.
    + cbn [first_stable].
      match goal with |- context [if ?b then _ else _] => destruct b end.
      * intros [= <-]. exists a, h. cbn.
        unfold href_of. rewrite Eh. repeat split; eauto.
      * intros H. destruct (IH H) as (link & h' & Hin & Hrest).
        exists link, h'. split; [now right|exact Hrest].
    + intros H. destruct (IH H) as (link & h' & Hin & Hrest).
      exists link, h'. split; [now right|exact Hrest].
  - intros H. destruct (IH H) as (link & h' & Hin & Hrest).
    exists link, h'. split; [now right|exact Hrest].
Qed.

Lemma stable_release_of_link_witness :
  exists link h,
    In link [Anchor (Some (py "/download/file/693"))
                    (py "Linux x86_64 v2.83.2 installer .sh")]
    /\ a_href link = Some h
    /\ is_Some (search re_stable_href h)
    /\ py "https://etlegacy.com/download/download/file/693"
       = py "https://etlegacy.com/download" ++ h
    /\ py "Stable 2.83.2" = py "Stable " ++ py "2.83.2"
    /\ true = true.
Proof.
  apply (stable_release_of_link
           [Anchor (Some (py "/download/file/693"))
                   (py "Linux x86_64 v2.83.2 installer .sh")]
           (VersionInfo (py "Stable 2.83.2")
              (py "https://etlegacy.com/download/download/file/693")
              (py "2.83.2") true)).
  vm_compute. reflexivity.
Defined.

End CatalogFacts.

(** ** Instance discovery: further properties *)

Module RegistryFacts.
Import ServerManager.

Lemma scan_in h l s :
  In s (fst (scan h l)) ->
  exists service_file f, In (service_file, f) l
                         /\ server_of h service_file f = Return (Some s).
Proof.
  induction l as [|[sf f] l IH]; cbn [scan]; [intros []|].
  destruct (scan h l) as [servers console].
  destruct (server_of h sf f) as [[s'|]|e] eqn:E; cbn [fst In] in *.
  - intros [<-|H]; [exists sf, f; auto|].
    destruct (IH H) as (sf' & f' & Hin & Hs). exists sf', f'. auto.
  - intros H. destruct (IH H) as (sf' & f' & Hin & Hs). exists sf', f'. auto.
  - intros H. destruct (IH H) as (sf' & f' & Hin & Hs). exists sf', f'. auto.
Qed.

Lemma scan_app h l1 l2 :
  fst (scan h (l1 ++ l2)) = fst (scan h l1) ++ fst (scan h l2).
Proof.
  induction l1 as [|[sf f] l1 IH]; [reflexivity|].
  cbn [app scan].
  destruct (scan h (l1 ++ l2)) as [servers console].
  destruct (scan h l1) as [servers1 console1].
  cbn [fst] in IH. subst servers.
  now destruct (server_of h sf f) as [[s'|]|e].
Qed.

(** What a record says about the unit file it was read from. *)
Lemma server_of_inv h service_file f s :
  server_of h service_file f = Return (Some s) ->
  exists c m,
    f = Readable c
    /\ search re_exec_start c = Some m
    /\ dir s = group1 m
    /\ installDir s = dirname (dirname (dir s))
    /\ (files h (dir s ++ py "/etmain/etl_server.cfg") = Absent ->
        name s = py "ET Legacy Server")
    /\ (forall e, run_command h
                    (dir s ++ py "/etlded.x86_64 +set dedicated 1 +set com_quiet 1 +quit")
                  = Raise e -> version s = py "Unknown").
Proof.
  unfold server_of.
  destruct (search re_port service_file) as [pm|]; [|discriminate].
  destruct (int_of_str (group1 pm)) as [p|]; [|discriminate].
  destruct f as [|e|c]; cbn [read]; [discriminate|discriminate|].
  destruct (search re_exec_start c) as [m|] eqn:Em; [|discriminate].
  cbv zeta.
  destruct (files h (group1 m ++ py "/etmain/etl_server.cfg")) as [|e|cfg] eqn:Ef;
    cbn [exists_ read]; [|discriminate|].
  - intros [= <-]. exists c, m. cbn [dir installDir name version].
    repeat split; auto. intros e He; cbn in He |- *; now rewrite He.
  - destruct (search re_hostname cfg) as [nm|].
    + intros [= <-]. exists c, m. cbn [dir installDir name version].
      repeat split; auto; [congruence|]. intros e He; cbn in He |- *; now rewrite He.
    + intros [= <-]. exists c, m. cbn [dir installDir name version].
      repeat split; auto. intros e He; cbn in He |- *; now rewrite He.
Qed.

Lemma glob_in h service_file f :
  In (service_file, f) (glob h) ->
  exists n, service_file = py "/etc/systemd/system/" ++ n
            /\ In (n, f) (systemd_dir h) /\ glob_match n = true.
Proof.
  unfold glob. intros H. apply in_map_iff in H as ([n f'] & [= <- <-] & Hin).
  apply filter_In in Hin as [Hin Hg]. exists n. auto.
Qed.

(** Every record of [get_installed_servers] comes from a readable entry of
    the unit directory that the glob selects and in which an [ExecStart] line
    was found; its install directory is two levels above its server
    directory. *)
Theorem record_origin h s :
  In s (get_installed_servers h) ->
  exists n c,
    In (n, Readable c) (systemd_dir h)
    /\ glob_match n = true
    /\ option_map group1 (search re_exec_start c) = Some (dir s)
    /\ installDir s = dirname (dirname (dir s)).
Proof.
  unfold get_installed_servers. intros H.
  apply scan_in in H as (sf & f & Hin & Hs).
  apply glob_in in Hin as (n & -> & Hin & Hg).
  apply server_of_inv in Hs as (c & m & -> & Hm & Hd & Hi & _).
  exists n, c. rewrite Hm, Hi. cbn [option_map]. rewrite Hd. repeat split; auto.
Qed.

Lemma record_origin_witness :
  exists n c,
    In (n, Readable c) (systemd_dir ServerManagerProps.two_units)
    /\ glob_match n = true
    /\ option_map group1 (search re_exec_start c) = Some (py "/home/etlegacy/et/27960")
    /\ py "/home/etlegacy" = dirname (dirname (py "/home/etlegacy/et/27960")).
Proof.
  apply (record_origin ServerManagerProps.two_units
           (Server (py "ET Legacy Server") 27960 (py "Unknown")
                   (py "/home/etlegacy/et/27960") (py "/home/etlegacy"))).
  vm_compute. left. reflexivity.
Defined.

(** A record whose configuration file does not exist is named
    [ET Legacy Server], and one whose server binary cannot be run has the
    version [Unknown]. *)
Theorem record_defaults h s :
  In s (get_installed_servers h) ->
  (files h (dir s ++ py "/etmain/etl_server.cfg") = Absent ->
   name s = py "ET Legacy Server")
  /\ (forall e, run_command h
                  (dir s ++ py "/etlded.x86_64 +set dedicated 1 +set com_quiet 1 +quit")
                = Raise e -> version s = py "Unknown").
Proof.
  unfold get_installed_servers. intros H.
  apply scan_in in H as (sf & f & Hin & Hs).
  apply server_of_inv in Hs as (c & m & _ & _ & _ & _ & Hn & Hv). auto.
Qed.

Lemma record_defaults_witness :
  let s := Server (py "ET Legacy Server") 27960 (py "Unknown")
                  (py "/home/etlegacy/et/27960") (py "/home/etlegacy") in
  In s (get_installed_servers ServerManagerProps.two_units)
  /\ name s = py "ET Legacy Server" /\ version s = py "Unknown".
Proof.
  intros s.
  assert (H : In s (get_installed_servers ServerManagerProps.two_units))
    by (vm_compute; left; reflexivity).
  split; [exact H|].
  destruct (record_defaults ServerManagerProps.two_units s H) as [Hn Hv].
  split; [apply Hn; reflexivity|apply (Hv (py "not found")); reflexivity].
Defined.

(** The records depend on the unit directory only through the list that is
    scanned. *)
Lemma scan_same_files h d l :
  fst (scan (Host d (files h) (run_command h)) l) = fst (scan h l).
Proof.
  induction l as [|[sf f] l IH]; [reflexivity|]. cbn [scan].
  destruct (scan h l) as [a b],
           (scan (Host d (files h) (run_command h)) l) as [a' b'].
  cbn [fst] in IH. subst a'.
  change (server_of (Host d (files h) (run_command h)) sf f)
    with (server_of h sf f).
  now destruct (server_of h sf f) as [[s|]|e].
Qed.

(** A unit file that cannot be read does not stop the listing: the records
    are those of the directory without that entry. *)
Theorem unreadable_unit_skipped h l1 n f e l2 :
  systemd_dir h = l1 ++ (n, f) :: l2 ->
  read f = Raise e ->
  get_installed_servers h
  = get_installed_servers (Host (l1 ++ l2) (files h) (run_command h)).
Proof.
  intros Hdir Hf. unfold get_installed_servers, glob. cbn [systemd_dir].
  rewrite scan_same_files.
  rewrite Hdir, !List.filter_app, !List.map_app, !scan_app.
  f_equal. cbn [List.filter fst].
  destruct (glob_match n); cbn [map fst snd]; [|reflexivity].
  cbn [scan].
  match goal with |- context [scan h ?l] => destruct (scan h l) as [a b] end.
  unfold server_of.
  destruct (search re_port _) as [pm|]; [|reflexivity].
  destruct (int_of_str (group1 pm)); [|reflexivity].
  now rewrite Hf.
Qed.

Lemma unreadable_unit_skipped_witness :
  let broken := (py "etlserver-27962.service", Unreadable (py "PermissionError")) in
  let h := ServerManagerProps.quiet_host
             [(ServerManagerProps.unit_name 27960,
               ServerManagerProps.unit_for "/home/etlegacy/et/27960");
              broken;
              (ServerManagerProps.unit_name 27961,
               ServerManagerProps.unit_for "/home/etlegacy/et/27961")] in
  map port (get_installed_servers h) = [27960%N; 27961%N].
Proof.
  intros broken h.
  rewrite (unreadable_unit_skipped h
             [(ServerManagerProps.unit_name 27960,
               ServerManagerProps.unit_for "/home/etlegacy/et/27960")]
             (py "etlserver-27962.service") (Unreadable (py "PermissionError"))
             (py "PermissionError")
             [(ServerManagerProps.unit_name 27961,
               ServerManagerProps.unit_for "/home/etlegacy/et/27961")]);
    [|reflexivity|reflexivity].
  vm_compute. reflexivity.
Defined.

End RegistryFacts.

(** ** Rewriting the configuration file: further properties *)

Module ConfigFacts.
Import ConfigTemplate Directive Table Lines.

(** *** The file system around the configuration file *)

Lemma str_eqb_neq a b : a <> b -> str_eqb a b = false.
Proof.
  intros H. destruct (str_eqb a b) eqn:E; [|reflexivity].
  apply str_eqb_eq in E. congruence.
Qed.




(** A host whose instance directory holds the vendor file and a map. *)
Definition cfg_host : world :=
  let dir := Dir (oct [7; 5; 5]) (py "root") in
  World (dir [(py "srv", dir [(py "27960", dir [(py "etmain", dir
           [(py "etl_server.cfg",
             File (oct [6; 4; 4]) (py "root") ConfigExamples.vendor_cfg);
            (py "pak0.pk3", File (oct [6; 4; 4]) (py "root") (py "PK"))])])])])
        [py "root"] None (Some (py "root")).

(** *** The call on an existing file *)

(** For a configuration with every key that the table reads, and a file
    that can be decoded, [_configure_server] raises [NameError] for [re],
    whatever the file holds, and the host stays as it was: the file is not
    written. *)
Theorem configure_raises_name_error k c server_dir w perm group data text :
  forallb (fun key => bool_decide (is_Some (c !! key))) required = true ->
  lookup (components (server_dir ++ py "/etmain/etl_server.cfg")) (tree w)
  = Some (File perm group data) ->
  decode k data = Return text ->
  _configure_server k c server_dir w = (Raise (name_error "re"), w).
Proof.
  intros Hc Hfile Hd. unfold _configure_server. cbv zeta. rewrite Hfile.
  unfold read_text. rewrite Hd.
  change ((Return text ≫= λ text0 : str, mret (translate_newlines text0))
          ≫= λ cfg_content : str, replace_configuration_values c cfg_content)
    with (replace_configuration_values c (translate_newlines text)).
  unfold replace_configuration_values.
  rewrite (replacements_total c Hc). reflexivity.
Qed.

Lemma configure_raises_name_error_witness :
  forallb (fun key => bool_decide (is_Some (ConfigExamples.config0 !! key))) required
  = true
  /\ lookup (components (py "/srv/27960" ++ py "/etmain/etl_server.cfg")) (tree cfg_host)
     = Some (File (oct [6; 4; 4]) (py "root") ConfigExamples.vendor_cfg)
  /\ decode latin1 ConfigExamples.vendor_cfg = Return ConfigExamples.vendor_cfg
  /\ _configure_server latin1 ConfigExamples.config0 (py "/srv/27960") cfg_host
     = (Raise (name_error "re"), cfg_host).
Proof.
  split; [vm_compute; reflexivity|]. split; [vm_compute; reflexivity|].
  split; [reflexivity|].
  apply (configure_raises_name_error latin1 ConfigExamples.config0 (py "/srv/27960")
           cfg_host (oct [6; 4; 4]) (py "root") ConfigExamples.vendor_cfg
           ConfigExamples.vendor_cfg).
  - vm_compute. reflexivity.
  - vm_compute. reflexivity.
  - reflexivity.
Defined.

(** *** A configuration that lacks a key *)

(** The first key, in the order in which the table reads them with
    [config[...]], that the configuration lacks. *)
Definition first_missing (c : config) : option string :=
  List.find (fun key => negb (bool_decide (is_Some (c !! key)))) required.

Ltac read_key c k :=
  let v := fresh "v" in
  destruct (c !! k) as [v|];
  [change (bool_decide (is_Some (Some v))) with true; cbn [negb];
   rewrite ?bind_return
  |change (bool_decide (is_Some (@None pyval))) with false; cbn [negb];
   intros [= <-]; reflexivity].

Lemma replacements_first_missing c key :
  first_missing c = Some key ->
  replacements c = Raise (py "KeyError: " ++ py key).
Proof.
  unfold first_missing, required. cbn [List.find].
  unfold replacements, getitem.
  read_key c "servername". read_key c "g_password". read_key c "sv_maxclients".
  read_key c "sv_privateclients". read_key c "rconpassword".
  read_key c "refereepassword". read_key c "ShoutcastPassword". read_key c "port".
  discriminate.
Qed.

(** When the configuration lacks a key that the table reads with
    [config[...]], [_configure_server] on a file that can be decoded raises
    [KeyError] for the first such key in the order of the table, and leaves
    the host as it was, whether or not the file holds a directive for that
    key. *)
Theorem missing_key_leaves_file k c server_dir w perm group data text key :
  lookup (components (server_dir ++ py "/etmain/etl_server.cfg")) (tree w)
  = Some (File perm group data) ->
  decode k data = Return text ->
  first_missing c = Some key ->
  _configure_server k c server_dir w = (Raise (py "KeyError: " ++ py key), w).
Proof.
  intros Hfile Hd Hkey. unfold _configure_server. cbv zeta. rewrite Hfile.
  unfold read_text. rewrite Hd.
  change ((Return text ≫= λ text0 : str, mret (translate_newlines text0))
          ≫= λ cfg_content : str, replace_configuration_values c cfg_content)
    with (replace_configuration_values c (translate_newlines text)).
  unfold replace_configuration_values.
  rewrite (replacements_first_missing c key Hkey). reflexivity.
Qed.

Lemma missing_key_leaves_file_witness :
  let c := delete "port" (delete "rconpassword" ConfigExamples.config0) in
  lookup (components (py "/srv/27960" ++ py "/etmain/etl_server.cfg")) (tree cfg_host)
  = Some (File (oct [6; 4; 4]) (py "root") ConfigExamples.vendor_cfg)
  /\ decode latin1 ConfigExamples.vendor_cfg = Return ConfigExamples.vendor_cfg
  /\ first_missing c = Some "rconpassword"
  /\ _configure_server latin1 c (py "/srv/27960") cfg_host
     = (Raise (py "KeyError: rconpassword"), cfg_host).
Proof.
  intros c. split; [vm_compute; reflexivity|]. split; [reflexivity|].
  split; [vm_compute; reflexivity|].
  apply (missing_key_leaves_file latin1 c (py "/srv/27960") cfg_host
           (oct [6; 4; 4]) (py "root") ConfigExamples.vendor_cfg
           ConfigExamples.vendor_cfg "rconpassword").
  - vm_compute. reflexivity.
  - reflexivity.
  - vm_compute. reflexivity.
Defined.

(** *** The export *)





(** *** What the export reads from a file of directives *)









End ConfigFacts.

(** ** The round trip through the configuration file *)

Module ExportProps.
Import ConfigTemplate Directive Table Lines ConfigFacts.





End ExportProps.

(** ** Permissions: further properties *)

Module PermissionFacts.
Import Permissions PermissionsProps ConfigFacts.

(** *** Updates of the tree *)

Lemma assoc_set_set k x y es :
  assoc_set k y (assoc_set k x es) = assoc_set k y es.
Proof.
  induction es as [|[k' n'] es IH]; cbn [assoc_set].
  - now rewrite str_eqb_refl.
  - destruct (str_eqb k k') eqn:E; cbn [assoc_set].
    + now rewrite str_eqb_refl.
    + now rewrite E, IH.
Qed.

Lemma put_put p x y t t1 :
  put p x t = Some t1 -> put p y t1 = put p y t.
Proof.
  revert t t1. induction p as [|k p IH]; intros t t1; [reflexivity|].
  cbn [put]. destruct t as [|m g es]; [discriminate|].
  destruct p as [|k2 p].
  - intros [= <-]. now rewrite assoc_set_set.
  - destruct (assoc k es) as [c|] eqn:Ec; [|discriminate].
    destruct (put (k2 :: p) x c) as [c'|] eqn:Ep; [|discriminate].
    intros [= <-]. rewrite assoc_set_same, (IH _ _ Ep).
    destruct (put (k2 :: p) y c); [|reflexivity]. now rewrite assoc_set_set.
Qed.

Lemma alter_alter f g p t x :
  lookup p t = Some x ->
  alter f p (alter g p t) = alter (fun n => f (g n)) p t.
Proof.
  intros H. unfold alter. rewrite H.
  destruct (lookup_put p [] (g x) x t H) as (t1 & Hput & Hl).
  rewrite app_nil_r in Hl. rewrite Hput. cbn [default from_option id].
  rewrite Hl. cbn [lookup]. rewrite (put_put _ _ _ _ _ Hput).
  destruct (lookup_put p [] (f (g x)) x t H) as (t2 & Hput2 & _).
  now rewrite Hput2.
Qed.

Lemma alter_ext_at f g p t x :
  lookup p t = Some x -> f x = g x -> alter f p t = alter g p t.
Proof. intros H E. unfold alter. now rewrite H, E. Qed.


(** What [set_file_permissions] does to the node [install_dir/et]. *)
Definition normalize (base : str) (top : node) : node :=
  find_chmod (py ".x86_64") base
    (find_chmod (py ".sh") base (walk (chgrp_R (py "etusers") top))).

(** A run succeeds when [chgrp] and [find] get [install_dir/et] as it is,
    the directory exists and the group is known; it is then one update of the
    tree, at [install_dir/et]. *)
Lemma set_file_permissions_eq install_dir w top :
  looks_like_option (install_dir ++ py "/et") = false ->
  shell_word (install_dir ++ py "/et") = true ->
  lookup (components (install_dir ++ py "/et")) (tree w) = Some top ->
  existsb (str_eqb (py "etusers")) (groups w) = true ->
  set_file_permissions install_dir w
  = (true, set_tree (alter (normalize (basename (install_dir ++ py "/et")))
                       (components (install_dir ++ py "/et")) (tree w)) w).
Proof.
  intros Ho Hw Htop Hg. unfold set_file_permissions. cbv zeta.
  set (p := components (install_dir ++ py "/et")) in *.
  rewrite Ho, Htop, Hg, Hw. f_equal. f_equal.
  rewrite (alter_alter _ _ p _ _
             (lookup_alter_here _ p _ _ (lookup_alter_here _ p _ _ Htop))).
  rewrite (alter_alter _ _ p _ _ (lookup_alter_here _ p _ _ Htop)).
  now rewrite (alter_alter _ _ p _ _ Htop).
Qed.

(** The three ways a run ends: before anything is changed; after the group
    and the modes of the walk are changed, when the shell does not hand the
    path to [find]; or with every pass done. *)
Lemma set_file_permissions_inv install_dir w b w' :
  set_file_permissions install_dir w = (b, w') ->
  (b = false /\ w' = w)
  \/ (b = false
      /\ shell_word (install_dir ++ py "/et") = false
      /\ w' = set_tree
                (alter walk (components (install_dir ++ py "/et"))
                   (alter (chgrp_R (py "etusers"))
                      (components (install_dir ++ py "/et")) (tree w))) w)
  \/ (b = true
      /\ looks_like_option (install_dir ++ py "/et") = false
      /\ shell_word (install_dir ++ py "/et") = true
      /\ exists top, lookup (components (install_dir ++ py "/et")) (tree w) = Some top
                     /\ existsb (str_eqb (py "etusers")) (groups w) = true).
Proof.
  unfold set_file_permissions. cbv zeta.
  destruct (looks_like_option _) eqn:Ho; [intros [= <- <-]; now left|].
  destruct (lookup _ (tree w)) as [top|] eqn:Htop; [|intros [= <- <-]; now left].
  destruct (existsb _ (groups w)) eqn:Hg; [|intros [= <- <-]; now left].
  destruct (shell_word _) eqn:Hw.
  - intros [= <- _]. right. right. eauto 6.
  - intros [= <- <-]. right. left. auto.
Qed.



(** *** Groups *)

Definition group_of (n : node) : str :=
  match n with File _ g _ => g | Dir _ g _ => g end.

Lemma normalize_entry_group q name c n :
  lookup q (normalize_entry name c) = Some n -> group_of n = py "etusers".
Proof.
  revert name c; induction q as [|k q IH]; intros name c.
  - cbn [lookup]. intros [= <-]. destruct c as [m g d|m g es].
    + now rewrite normalize_entry_file.
    + now rewrite normalize_entry_dir.
  - destruct c as [m g d|m g es].
    + rewrite normalize_entry_file. discriminate.
    + rewrite normalize_entry_dir. cbn [lookup].
      rewrite (assoc_map normalize_entry).
      destruct (assoc k es) as [c|]; [|discriminate]. cbn [option_map].
      apply IH.
Qed.

Lemma normalize_dir base m g es :
  normalize base (Dir m g es)
  = Dir m (py "etusers") (map (fun e => (fst e, normalize_entry (fst e) (snd e))) es).
Proof.
  unfold normalize. cbn [chgrp_R walk find_chmod]. f_equal.
  rewrite !map_map. apply map_ext. intros [k c]. reflexivity.
Qed.

Lemma normalize_file base m g d :
  normalize base (File m g d)
  = File (if is_executable_name base then oct [7; 7; 5] else m) (py "etusers") d.
Proof.
  unfold normalize, is_executable_name. cbn [chgrp_R walk find_chmod].
  destruct (endswith (py ".sh") base); cbn [chmod find_chmod];
    destruct (endswith (py ".x86_64") base); reflexivity.
Qed.

(** After a successful run, [install_dir/et] and everything below it belongs
    to the group [etusers]. *)
Theorem permissions_group install_dir w w' q n :
  set_file_permissions install_dir w = (true, w') ->
  lookup (components (install_dir ++ py "/et") ++ q) (tree w') = Some n ->
  group_of n = py "etusers".
Proof.
  intros H. pose proof H as H0.
  apply set_file_permissions_inv in H
    as [[? _]|[(? & _)|(_ & Ho & Hw & top & Htop & Hg)]]; [discriminate..|].
  rewrite (set_file_permissions_eq _ _ _ Ho Hw Htop Hg) in H0. injection H0 as <-.
  cbn [tree set_tree]. rewrite (lookup_alter _ _ q _ _ Htop).
  destruct top as [m g d|m g es].
  - rewrite normalize_file. destruct q; [|discriminate]. now intros [= <-].
  - rewrite normalize_dir. destruct q as [|k q]; [now intros [= <-]|].
    cbn [lookup]. rewrite (assoc_map normalize_entry).
    destruct (assoc k es) as [c|]; [|discriminate]. cbn [option_map].
    apply normalize_entry_group.
Qed.

Lemma permissions_group_witness :
  option_map group_of
    (lookup (components (py "/home/etlegacy/et") ++ [py "27960"; py "etmain"; py "pak0.pk3"])
       (tree (snd (set_file_permissions (py "/home/etlegacy") host0))))
  = Some (py "etusers").
Proof.
  destruct (lookup (components (py "/home/etlegacy/et") ++ [py "27960"; py "etmain"; py "pak0.pk3"])
              (tree (snd (set_file_permissions (py "/home/etlegacy") host0))))
    as [n|] eqn:E; [|vm_compute in E; discriminate].
  cbn [option_map]. f_equal.
  apply (permissions_group (py "/home/etlegacy") host0
           (snd (set_file_permissions (py "/home/etlegacy") host0))
           [py "27960"; py "etmain"; py "pak0.pk3"] n); [vm_compute; reflexivity|exact E].
Defined.

(** *** Running twice *)

Lemma node_rect' (P : node -> Prop) :
  (forall m g d, P (File m g d)) ->
  (forall m g es, Forall (fun e => P (snd e)) es -> P (Dir m g es)) ->
  forall n, P n.
Proof.
  intros Hf Hd. fix IH 1. intros [m g d|m g es]; [apply Hf|apply Hd].
  induction es as [|e es IHes]; constructor; [apply IH|exact IHes].
Qed.

Lemma normalize_entry_idem name c :
  normalize_entry name (normalize_entry name c) = normalize_entry name c.
Proof.
  revert name. induction c as [m g d|m g es IH] using node_rect'; intros name.
  - rewrite !normalize_entry_file. reflexivity.
  - rewrite !normalize_entry_dir. f_equal. rewrite map_map. cbn [fst snd].
    apply map_ext_in. intros [k c] Hin. cbn [fst snd]. f_equal.
    rewrite List.Forall_forall in IH. apply (IH (k, c) Hin).
Qed.

Lemma normalize_idem base top :
  normalize base (normalize base top) = normalize base top.
Proof.
  destruct top as [m g d|m g es].
  - rewrite !normalize_file. now destruct (is_executable_name base).
  - rewrite !normalize_dir. f_equal. rewrite map_map. cbn [fst snd].
    apply map_ext. intros [k c]. cbn [fst snd]. f_equal. apply normalize_entry_idem.
Qed.

(** A second run after a successful one succeeds and changes nothing. *)
Theorem permissions_twice install_dir w w' :
  set_file_permissions install_dir w = (true, w') ->
  set_file_permissions install_dir w' = (true, w').
Proof.
  intros H. pose proof H as H0.
  apply set_file_permissions_inv in H
    as [[? _]|[(? & _)|(_ & Ho & Hw & top & Htop & Hg)]]; [discriminate..|].
  rewrite (set_file_permissions_eq _ _ _ Ho Hw Htop Hg) in H0. injection H0 as <-.
  rewrite (set_file_permissions_eq install_dir _
             (normalize (basename (install_dir ++ py "/et")) top) Ho Hw).
  - f_equal. unfold set_tree. cbn [tree groups env_SUDO_USER env_USER]. f_equal.
    etransitivity; [apply (alter_alter _ _ _ _ _ Htop)|].
    apply (alter_ext_at _ _ _ _ top Htop). apply normalize_idem.
  - cbn [tree set_tree]. now apply lookup_alter_here.
  - exact Hg.
Qed.

Lemma permissions_twice_witness :
  set_file_permissions (py "/home/etlegacy")
    (snd (set_file_permissions (py "/home/etlegacy") host0))
  = (true, snd (set_file_permissions (py "/home/etlegacy") host0)).
Proof.
  apply (permissions_twice (py "/home/etlegacy") host0).
  vm_compute. reflexivity.
Defined.

(** *** Contents *)












End PermissionFacts.

(** ** Environment files (idk/lib/config_manager.py) *)

Module EnvFile.

Definition squote : ascii := ascii_of_nat 39.

(** [for line in f]: the lines with their line feeds; [cur] is the line
    being read, reversed. *)
Fixpoint file_lines (cur : str) (s : str) : list str :=
  match s with
  | [] => match cur with [] => [] | _ => [rev cur] end
  | c :: s' =>
      if is_char newline c then rev (c :: cur) :: file_lines [] s'
      else file_lines (c :: cur) s'
  end.

Fixpoint lstrip (s : str) : str :=
  match s with
  | [] => []
  | c :: s' => if is_space c then lstrip s' else s
  end.

Definition rstrip (s : str) : str := rev (lstrip (rev s)).

(** [s.strip()] *)
Definition strip (s : str) : str := lstrip (rstrip s).

(** [line.split('=', 1)] for a line that holds [=]; [None] when it does
    not. *)
Fixpoint split_eq (s : str) : option (str * str) :=
  match s with
  | [] => None
  | c :: s' =>
      if is_char "="%char c then Some ([], s')
      else match split_eq s' with
           | Some (k, v) => Some (c :: k, v)
           | None => None
           end
  end.

Definition startswith_char (q : ascii) (s : str) : bool :=
  match s with c :: _ => is_char q c | [] => false end.

Definition endswith_char (q : ascii) (s : str) : bool := startswith_char q (rev s).

(** [value[1:-1]] *)
Definition inner (s : str) : str :=
  match s with
  | [] => []
  | _ :: s' => removelast s'
  end.

(** The body of the loop of [load_env_file]. *)
Definition load_line (cfg : config) (line : str) : config :=
  let line := strip line in
  match line with
  | [] => cfg
  | _ =>
      if startswith_char "#"%char line then cfg
      else
        match split_eq line with
        | Some (key, value) =>
            let key := strip key in
            let value := strip value in
            let value :=
              if (startswith_char dquote value && endswith_char dquote value)
                 || (startswith_char squote value && endswith_char squote value)
              then inner value else value in
            <[string_of_list_ascii key := PStr value]> cfg
        | None => cfg
        end
  end.

(** [load_env_file]; [None] is a path that does not exist. *)
Definition load_env_file (env_file : option str) : config :=
  match env_file with
  | None => ∅
  | Some content =>
      fold_left load_line (file_lines [] (translate_newlines content)) ∅
  end.

(** What [save_env_file] writes.  [version] is [config["version"]] when that
    is a dictionary, as the wizard stores it. *)
Definition save_env_file (c : config) (version : option config) : str :=
  let quoted key default :=
    py key ++ py "=" ++ [dquote] ++ format (get c key (PStr (py default)))
           ++ [dquote] ++ [newline] in
  let bare key default :=
    py key ++ py "=" ++ format (get c key (PStr (py default))) ++ [newline] in
  let flag key :=
    py key ++ py "="
      ++ (if truthy (get c key (PBool true)) then py "true" else py "false")
      ++ [newline] in
  py "# ET Legacy Server Configuration" ++ [newline; newline]
  ++ py "# Server Information" ++ [newline]
  ++ quoted "servername" ""
  ++ bare "port" "27960"
  ++ bare "sv_maxclients" "16"
  ++ quoted "g_password" ""
  ++ bare "sv_privateclients" "0"
  ++ quoted "sv_privatepassword" ""
  ++ quoted "rconpassword" ""
  ++ quoted "refereepassword" ""
  ++ quoted "ShoutcastPassword" ""
  ++ quoted "sv_wwwBaseURL" ""
  ++ [newline] ++ py "# Installation Information" ++ [newline]
  ++ quoted "installDir" "/home/etlegacy"
  ++ quoted "ftpuser" ""
  ++ match version with
     | Some d =>
         py "version=" ++ [dquote] ++ format (get d "version" (PStr [])) ++ [dquote]
            ++ [newline]
         ++ py "version_url=" ++ [dquote] ++ format (get d "url" (PStr [])) ++ [dquote]
            ++ [newline]
     | None => []
     end
  ++ [newline] ++ py "# Additional Options" ++ [newline]
  ++ flag "install_maps"
  ++ flag "configure_firewall".

End EnvFile.

Example env_demo :
  let c := EnvFile.load_env_file
             (Some (EnvFile.save_env_file ConfigExamples.config0 None)) in
  c !! "servername" = Some (PStr (py "^1ET ^2Legacy"))
  /\ c !! "port" = Some (PStr (py "27960"))
  /\ c !! "g_password" = Some (PStr [])
  /\ c !! "install_maps" = Some (PStr (py "true"))
  /\ c !! "version" = None.
Proof. vm_compute. repeat split. Qed.

(** ** Environment files: saving and loading again *)

Module EnvFacts.
Import EnvFile.

(** *** Stripping *)

Definition no_space (s : str) : Prop := Forall (fun c => is_space c = false) s.

Lemma lstrip_head a s : is_space a = false -> lstrip (a :: s) = a :: s.
Proof. intros H. cbn [lstrip]. now rewrite H. Qed.

Lemma lstrip_app_head A b B :
  is_space b = false -> lstrip (A ++ b :: B) = lstrip A ++ b :: B.
Proof.
  intros Hb. induction A as [|a A IH]; cbn [app lstrip].
  - now rewrite Hb.
  - destruct (is_space a); [exact IH|reflexivity].
Qed.

Lemma lstrip_idem s : lstrip (lstrip s) = lstrip s.
Proof.
  induction s as [|a s IH]; [reflexivity|]. cbn [lstrip].
  destruct (is_space a) eqn:E; [exact IH|]. cbn [lstrip]. now rewrite E.
Qed.

Lemma lstrip_no_space s : no_space s -> lstrip s = s.
Proof. intros [|a s' Ha _]; [reflexivity|now apply lstrip_head]. Qed.

Lemma rstrip_idem s : rstrip (rstrip s) = rstrip s.
Proof. unfold rstrip. now rewrite rev_involutive, lstrip_idem. Qed.

Lemma rstrip_no_space s : no_space s -> rstrip s = s.
Proof.
  intros H. unfold rstrip. rewrite lstrip_no_space, rev_involutive; [reflexivity|].
  now apply List.Forall_rev.
Qed.

(** The line feed and the white space before it go; what stands before a
    character that is not white space stays. *)
Lemma rstrip_line X e v :
  is_space e = false ->
  rstrip (X ++ e :: v ++ [newline]) = X ++ e :: rstrip v.
Proof.
  intros He. unfold rstrip.
  rewrite !rev_app_distr. cbn [rev app]. rewrite rev_app_distr. cbn [rev app].
  rewrite <- !app_assoc. cbn [app lstrip].
  change (is_space newline) with true. cbv iota.
  rewrite lstrip_app_head by exact He.
  rewrite rev_app_distr. cbn [rev]. rewrite rev_involutive, <- app_assoc. reflexivity.
Qed.

Lemma strip_rstrip v : strip (rstrip v) = strip v.
Proof. unfold strip. now rewrite rstrip_idem. Qed.

Lemma strip_no_space s : no_space s -> strip s = s.
Proof. intros H. unfold strip. now rewrite rstrip_no_space, lstrip_no_space. Qed.

(** A text that begins and ends with a character that is not white space. *)
Lemma strip_tight a m b :
  is_space a = false -> is_space b = false ->
  strip (a :: m ++ [b]) = a :: m ++ [b].
Proof.
  intros Ha Hb. unfold strip, rstrip.
  change (a :: m ++ [b]) with ((a :: m) ++ [b]).
  rewrite rev_app_distr. cbn [rev app]. rewrite lstrip_head by exact Hb.
  change (b :: rev m ++ [a]) with ([b] ++ rev (a :: m)).
  rewrite rev_app_distr, rev_involutive. cbn [rev app]. now apply lstrip_head.
Qed.

(** *** Splitting at the first [=] *)

Lemma split_eq_app k v :
  Forall (fun c => c <> "="%char) k -> split_eq (k ++ "="%char :: v) = Some (k, v).
Proof.
  induction 1 as [|c k Hc _ IH]; cbn [app split_eq].
  - reflexivity.
  - destruct (is_char "="%char c) eqn:E; [apply is_char_eq in E; congruence|].
    now rewrite IH.
Qed.

(** *** One line *)

(** The quote removal of [load_env_file]. *)
Definition unquote (value : str) : str :=
  if (startswith_char dquote value && endswith_char dquote value)
     || (startswith_char squote value && endswith_char squote value)
  then inner value else value.

Lemma unquote_quoted v : unquote (dquote :: v ++ [dquote]) = v.
Proof.
  unfold unquote, endswith_char.
  change (dquote :: v ++ [dquote]) with ((dquote :: v) ++ [dquote]).
  rewrite rev_app_distr. cbn [rev app startswith_char].
  change (is_char dquote dquote) with true. cbn [andb orb inner app].
  apply removelast_last.
Qed.

(** A key as [save_env_file] writes them: a word without [=] or white
    space that does not start with [#]. *)
Definition key_word (key : string) : bool :=
  match py key with
  | [] => false
  | a :: _ =>
      negb (is_char "#"%char a)
      && forallb (fun c => negb (is_char "="%char c) && negb (is_space c)) (py key)
  end.

Lemma key_word_spec key :
  key_word key = true ->
  exists a k, py key = a :: k /\ is_space a = false /\ a <> "#"%char
              /\ no_space (py key) /\ Forall (fun c => c <> "="%char) (py key).
Proof.
  unfold key_word. destruct (py key) as [|a k] eqn:E; [discriminate|].
  rewrite andb_true_iff, negb_true_iff, forallb_forall. intros [Ha Hall].
  assert (H : forall c, In c (a :: k) -> c <> "="%char /\ is_space c = false).
  { intros c Hc. specialize (Hall c Hc).
    rewrite andb_true_iff, !negb_true_iff in Hall. destruct Hall as [H1 H2].
    split; [|exact H2]. intros ->. discriminate. }
  exists a, k. repeat split.
  - apply (H a). now left.
  - intros ->. discriminate.
  - apply List.Forall_forall. intros c Hc. now apply H.
  - apply List.Forall_forall. intros c Hc. now apply H.
Qed.

Definition no_newline (s : str) : Prop := Forall (fun c => c <> newline) s.

(** An assignment line is read as its key and its value, stripped and
    unquoted. *)
Lemma load_assignment cfg key value :
  key_word key = true ->
  load_line cfg (py key ++ py "=" ++ value ++ [newline])
  = <[key := PStr (unquote (strip value))]> cfg.
Proof.
  intros Hk. destruct (key_word_spec key Hk) as (a & k & E & Ha & Hhash & Hns & Heq).
  unfold load_line.
  assert (Es : strip (py key ++ py "=" ++ value ++ [newline])
               = py key ++ "="%char :: rstrip value).
  { unfold strip. change (py "=" ++ value ++ [newline]) with ("="%char :: value ++ [newline]).
    rewrite rstrip_line by reflexivity. rewrite E. now apply lstrip_head. }
  rewrite Es. cbv zeta. rewrite split_eq_app by exact Heq.
  rewrite (strip_no_space _ Hns), strip_rstrip.
  assert (Hkey : string_of_list_ascii (py key) = key)
    by (unfold py; apply string_of_list_ascii_of_string).
  rewrite Hkey. fold (unquote (strip value)).
  rewrite E. cbn [app startswith_char].
  destruct (is_char "#"%char a) eqn:Eh; [apply is_char_eq in Eh; congruence|].
  reflexivity.
Qed.

(** Blank lines and comments are skipped. *)
Lemma load_blank cfg : load_line cfg [newline] = cfg.
Proof. reflexivity. Qed.

Lemma load_comment cfg text :
  no_newline text -> load_line cfg ("#"%char :: text ++ [newline]) = cfg.
Proof.
  intros _. unfold load_line.
  assert (Es : exists r, strip ("#"%char :: text ++ [newline]) = "#"%char :: r).
  { unfold strip. pose proof (rstrip_line [] "#"%char text eq_refl) as R.
    cbn [app] in R. rewrite R, lstrip_head by reflexivity. eauto. }
  destruct Es as [r ->]. reflexivity.
Qed.

(** *** The lines of a file *)

Lemma file_lines_cons cur l rest :
  no_newline l ->
  file_lines cur (l ++ newline :: rest) = (rev cur ++ l ++ [newline]) :: file_lines [] rest.
Proof.
  intros H. revert cur. induction H as [|c l Hc _ IH]; intros cur.
  - cbn [app file_lines]. change (is_char newline newline) with true. cbv iota.
    cbn [rev]. reflexivity.
  - cbn [app file_lines].
    destruct (is_char newline c) eqn:E; [apply is_char_eq in E; congruence|].
    rewrite IH. cbn [rev]. now rewrite <- app_assoc.
Qed.

Lemma file_lines_concat ls :
  Forall no_newline ls ->
  file_lines [] (concat (map (fun l => l ++ [newline]) ls))
  = map (fun l => l ++ [newline]) ls.
Proof.
  induction 1 as [|l ls Hl _ IH]; [reflexivity|].
  cbn [map concat]. rewrite <- app_assoc. cbn [app].
  rewrite file_lines_cons by exact Hl. now rewrite IH.
Qed.

Lemma translate_id s :
  Forall (fun c => c <> cr) s -> translate_newlines s = s.
Proof.
  induction 1 as [|c s Hc _ IH]; [reflexivity|]. cbn [translate_newlines].
  destruct (is_char cr c) eqn:E; [apply is_char_eq in E; congruence|].
  now rewrite IH.
Qed.


(** *** A whole file *)

(** A text without line feed and carriage return. *)
Definition plain (s : str) : bool :=
  forallb (fun ch => negb (is_char newline ch || is_char cr ch)) s.

Lemma plain_spec s :
  plain s = true -> no_newline s /\ Forall (fun c => c <> cr) s.
Proof.
  unfold plain, no_newline. rewrite forallb_forall, !List.Forall_forall.
  intros H. split; intros c Hc; specialize (H c Hc);
    rewrite negb_true_iff, orb_false_iff in H; destruct H as [H1 H2];
    intros ->; [unfold is_char in H1; now rewrite Ascii.eqb_refl in H1
               |unfold is_char in H2; now rewrite Ascii.eqb_refl in H2].
Qed.

Lemma plain_app s t : plain (s ++ t) = plain s && plain t.
Proof. apply forallb_app. Qed.

Lemma no_space_plain s : no_space s -> plain s = true.
Proof.
  unfold plain. rewrite forallb_forall. intros H c Hc.
  assert (Hs : is_space c = false).
  { unfold no_space in H. rewrite List.Forall_forall in H. now apply H. }
  destruct (is_char newline c) eqn:E1; [apply is_char_eq in E1; subst; discriminate|].
  destruct (is_char cr c) eqn:E2; [apply is_char_eq in E2; subst; discriminate|].
  reflexivity.
Qed.

(** The lines [save_env_file] writes are comments, blank lines and
    assignments. *)
Inductive line :=
| Comment (text : str)
| Blank
| Assign (key : string) (value : str).

Definition render (l : line) : str :=
  match l with
  | Comment text => "#"%char :: text
  | Blank => []
  | Assign key value => py key ++ py "=" ++ value
  end.

Definition text_of (ls : list line) : str :=
  concat (map (fun l => render l ++ [newline]) ls).

Definition line_fine (l : line) : bool :=
  match l with
  | Comment text => plain text
  | Blank => true
  | Assign key value => key_word key && plain value
  end.

(** What [load_env_file] makes of a line. *)
Definition assign_line (cfg : config) (l : line) : config :=
  match l with
  | Assign key value => <[key := PStr (unquote (strip value))]> cfg
  | _ => cfg
  end.

Lemma render_plain l : line_fine l = true -> plain (render l) = true.
Proof.
  destruct l as [text| |key value]; cbn [line_fine render].
  - intros H. cbn [plain forallb]. exact H.
  - reflexivity.
  - rewrite andb_true_iff. intros [Hk Hv].
    destruct (key_word_spec key Hk) as (a & k & _ & _ & _ & Hns & _).
    rewrite !plain_app, (no_space_plain _ Hns), Hv. reflexivity.
Qed.

Lemma load_rendered cfg l :
  line_fine l = true -> load_line cfg (render l ++ [newline]) = assign_line cfg l.
Proof.
  destruct l as [text| |key value]; cbn [line_fine render assign_line].
  - intros H. apply (load_comment cfg text). now apply plain_spec.
  - intros _. apply load_blank.
  - rewrite andb_true_iff. intros [Hk _]. rewrite <- !app_assoc.
    now apply load_assignment.
Qed.

Lemma fold_rendered ls cfg :
  forallb line_fine ls = true ->
  fold_left load_line (map (fun l => render l ++ [newline]) ls) cfg
  = fold_left assign_line ls cfg.
Proof.
  revert cfg. induction ls as [|l ls IH]; intros cfg; [reflexivity|].
  cbn [forallb map fold_left]. rewrite andb_true_iff. intros [Hl Hls].
  rewrite load_rendered by exact Hl. now apply IH.
Qed.

Lemma text_of_no_cr ls :
  forallb line_fine ls = true -> Forall (fun c => c <> cr) (text_of ls).
Proof.
  induction ls as [|l ls IH]; [constructor|].
  cbn [forallb]. rewrite andb_true_iff. intros [Hl Hls].
  unfold text_of. cbn [map concat]. fold (text_of ls).
  rewrite !List.Forall_app. repeat split.
  - now apply plain_spec, render_plain.
  - constructor; [discriminate|constructor].
  - now apply IH.
Qed.

(** A file of such lines is read as the successive assignments. *)
Lemma load_lines ls :
  forallb line_fine ls = true ->
  load_env_file (Some (text_of ls)) = fold_left assign_line ls ∅.
Proof.
  intros H. unfold load_env_file.
  rewrite translate_id by now apply text_of_no_cr.
  unfold text_of. rewrite <- (map_map render (fun s => s ++ [newline])).
  rewrite file_lines_concat.
  - rewrite map_map. now apply fold_rendered.
  - apply List.Forall_forall. intros s Hs. apply in_map_iff in Hs.
    destruct Hs as (l & <- & Hl). apply plain_spec, render_plain.
    rewrite forallb_forall in H. now apply H.
Qed.


(** *** What [save_env_file] writes, line by line *)

Definition quote_text (v : str) : str := dquote :: v ++ [dquote].

(** The keys written between quotes and the keys written bare, with the
    defaults of [config.get]. *)
Definition quoted_keys : list (string * string) :=
  [("servername", ""); ("g_password", ""); ("sv_privatepassword", "");
   ("rconpassword", ""); ("refereepassword", ""); ("ShoutcastPassword", "");
   ("sv_wwwBaseURL", ""); ("installDir", "/home/etlegacy"); ("ftpuser", "")].

Definition bare_keys : list (string * string) :=
  [("port", "27960"); ("sv_maxclients", "16"); ("sv_privateclients", "0")].

Definition flag_keys : list string := ["install_maps"; "configure_firewall"].

Definition version_keys (version : option config) : list string :=
  match version with Some _ => ["version"; "version_url"] | None => [] end.

Definition saved_keys (version : option config) : list string :=
  map fst quoted_keys ++ map fst bare_keys ++ version_keys version ++ flag_keys.

(** The values [save_env_file] formats into the file. *)
Definition written (c : config) (version : option config) : list str :=
  map (fun kd => format (get c kd.1 (PStr (py kd.2)))) (quoted_keys ++ bare_keys)
  ++ match version with
     | Some d => [format (get d "version" (PStr [])); format (get d "url" (PStr []))]
     | None => []
     end.

(** No written value holds a line feed or a carriage return. *)
Definition savable (c : config) (version : option config) : bool :=
  forallb plain (written c version).

Definition flag_text (c : config) (key : string) : str :=
  if truthy (get c key (PBool true)) then py "true" else py "false".

Definition save_lines (c : config) (version : option config) : list line :=
  let quoted key default :=
    Assign key (quote_text (format (get c key (PStr (py default))))) in
  let bare key default := Assign key (format (get c key (PStr (py default)))) in
  [Comment (py " ET Legacy Server Configuration"); Blank;
   Comment (py " Server Information");
   quoted "servername" "";
   bare "port" "27960";
   bare "sv_maxclients" "16";
   quoted "g_password" "";
   bare "sv_privateclients" "0";
   quoted "sv_privatepassword" "";
   quoted "rconpassword" "";
   quoted "refereepassword" "";
   quoted "ShoutcastPassword" "";
   quoted "sv_wwwBaseURL" "";
   Blank; Comment (py " Installation Information");
   quoted "installDir" "/home/etlegacy";
   quoted "ftpuser" ""]
  ++ match version with
     | Some d =>
         [Assign "version" (quote_text (format (get d "version" (PStr []))));
          Assign "version_url" (quote_text (format (get d "url" (PStr []))))]
     | None => []
     end
  ++ [Blank; Comment (py " Additional Options");
      Assign "install_maps" (flag_text c "install_maps");
      Assign "configure_firewall" (flag_text c "configure_firewall")].

Lemma save_text c version :
  save_env_file c version = text_of (save_lines c version).
Proof.
  unfold save_env_file, save_lines, text_of, flag_text, quote_text.
  destruct version as [d|]; cbn [app map concat render];
    repeat first [rewrite <- app_assoc | progress cbn [app]]; reflexivity.
Qed.

Lemma plain_quote v : plain v = true -> plain (quote_text v) = true.
Proof.
  intros H. unfold quote_text. change (dquote :: v ++ [dquote]) with ([dquote] ++ v ++ [dquote]).
  rewrite !plain_app, H. reflexivity.
Qed.

Lemma plain_flag c key : plain (flag_text c key) = true.
Proof. unfold flag_text. now destruct (truthy _). Qed.

Lemma savable_lines c version :
  savable c version = true -> forallb line_fine (save_lines c version) = true.
Proof.
  unfold savable, written, save_lines.
  rewrite !forallb_app. cbn [map app quoted_keys bare_keys forallb fst snd].
  rewrite !andb_true_iff.
  intros ((H1 & H2 & H3 & H4 & H5 & H6 & H7 & H8 & H9 & H10 & H11 & H12 & _) & Hv).
  cbn [line_fine].
  rewrite !plain_quote, !plain_flag by assumption.
  rewrite H10, H11, H12.
  repeat split.
  destruct version as [d|]; [|reflexivity].
  cbn [forallb line_fine] in *. rewrite !andb_true_iff in Hv.
  destruct Hv as (Hv1 & Hv2 & _). now rewrite !plain_quote by assumption.
Qed.

(** Loading what was saved is the sequence of assignments of the lines. *)
Lemma load_saved c version :
  savable c version = true ->
  load_env_file (Some (save_env_file c version))
  = fold_left assign_line (save_lines c version) ∅.
Proof.
  intros H. rewrite save_text. now apply load_lines, savable_lines.
Qed.

Lemma unquote_quote_text v : unquote (strip (quote_text v)) = v.
Proof.
  unfold quote_text. rewrite strip_tight by reflexivity. apply unquote_quoted.
Qed.


Ltac saved_lookup :=
  unfold save_lines; cbn [app fold_left assign_line]; unfold config;
  repeat first [rewrite lookup_insert_eq | rewrite lookup_insert_ne by discriminate].

(** A text of digits, with or without a sign, is neither stripped nor
    unquoted. *)
Definition word_char (c : ascii) : bool :=
  negb (is_space c) && negb (is_char dquote c) && negb (is_char squote c).

Lemma word_unchanged s : forallb word_char s = true -> unquote (strip s) = s.
Proof.
  intros H. assert (Hns : no_space s).
  { rewrite forallb_forall in H. apply List.Forall_forall. intros c Hc.
    specialize (H c Hc). unfold word_char in H.
    rewrite !andb_true_iff, !negb_true_iff in H. tauto. }
  rewrite strip_no_space by exact Hns.
  destruct s as [|a s]; [reflexivity|].
  cbn [forallb] in H. rewrite andb_true_iff in H. destruct H as [Ha _].
  unfold word_char in Ha. rewrite !andb_true_iff, !negb_true_iff in Ha.
  destruct Ha as [[_ Hd] Hq]. unfold unquote. cbn [startswith_char].
  now rewrite Hd, Hq.
Qed.

Lemma digit_word c : is_digit c = true -> word_char c = true.
Proof.
  destruct c as [[] [] [] [] [] [] [] []]; intros H; vm_compute in H;
    try discriminate H; reflexivity.
Qed.

Lemma str_of_Z_word z : forallb word_char (str_of_Z z) = true.
Proof.
  assert (H : forall n, forallb word_char (str_of_N n) = true).
  { intros n. apply forallb_forall. intros c Hc. apply digit_word.
    pose proof (str_of_N_digits n) as Hd. rewrite List.Forall_forall in Hd.
    now apply Hd. }
  unfold str_of_Z. destruct (z <? 0)%Z; [|apply H].
  rewrite forallb_app, H. reflexivity.
Qed.

(** X20: a value written between quotes is read back as it was written. *)
Theorem saved_text_comes_back c version key d :
  savable c version = true ->
  In (key, d) quoted_keys ->
  load_env_file (Some (save_env_file c version)) !! key
  = Some (PStr (format (get c key (PStr (py d))))).
Proof.
  intros Hs Hin. rewrite load_saved by exact Hs.
  unfold quoted_keys in Hin. cbn [In] in Hin.
  destruct version as [v|];
    repeat (destruct Hin as [Hin|Hin];
            [injection Hin as <- <-; saved_lookup; now rewrite unquote_quote_text|]);
    destruct Hin.
Qed.

Lemma saved_text_comes_back_witness :
  savable ConfigExamples.config0 None = true
  /\ In ("servername", "") quoted_keys
  /\ load_env_file (Some (save_env_file ConfigExamples.config0 None)) !! "servername"
     = Some (PStr (format (get ConfigExamples.config0 "servername" (PStr (py ""))))).
Proof.
  split; [vm_compute; reflexivity|]. split; [left; reflexivity|].
  apply (saved_text_comes_back ConfigExamples.config0 None "servername" "").
  - vm_compute. reflexivity.
  - left. reflexivity.
Defined.


(** X21: a value written bare is read back stripped and without one pair of
    surrounding quotes, always as text: a number comes back as its decimal
    text, and a key that was absent comes back as its default. *)
Theorem saved_number_comes_back_as_text c version key d :
  savable c version = true ->
  In (key, d) bare_keys ->
  let r := load_env_file (Some (save_env_file c version)) in
  r !! key = Some (PStr (unquote (strip (format (get c key (PStr (py d)))))))
  /\ (forall z, c !! key = Some (PInt z) -> r !! key = Some (PStr (str_of_Z z)))
  /\ (c !! key = None -> r !! key = Some (PStr (py d))).
Proof.
  intros Hs Hin r.
  assert (H : r !! key
              = Some (PStr (unquote (strip (format (get c key (PStr (py d)))))))).
  { subst r. rewrite load_saved by exact Hs.
    unfold bare_keys in Hin. cbn [In] in Hin.
    destruct version as [v|];
      repeat (destruct Hin as [Hin|Hin];
              [injection Hin as <- <-; saved_lookup; reflexivity|]);
      destruct Hin. }
  split; [exact H|]. split.
  - intros z Hz. rewrite H. unfold get. rewrite Hz. cbn [format].
    now rewrite word_unchanged by apply str_of_Z_word.
  - intros Hn. rewrite H. unfold get. rewrite Hn. cbn [format].
    unfold bare_keys in Hin. cbn [In] in Hin.
    repeat (destruct Hin as [Hin|Hin]; [injection Hin as <- <-; reflexivity|]).
    destruct Hin.
Qed.

Lemma saved_number_comes_back_as_text_witness :
  savable ConfigExamples.config0 None = true
  /\ In ("port", "27960") bare_keys
  /\ load_env_file (Some (save_env_file ConfigExamples.config0 None)) !! "port"
     = Some (PStr (py "27960")).
Proof.
  split; [vm_compute; reflexivity|]. split; [left; reflexivity|].
  destruct (saved_number_comes_back_as_text ConfigExamples.config0 None "port" "27960")
    as (H & _ & _).
  - vm_compute. reflexivity.
  - left. reflexivity.
  - rewrite H. vm_compute. reflexivity.
Defined.

(** X22: a flag is read back as the text [true] or [false]; either text
    counts as true, so the next save of the loaded configuration writes
    [true]. *)
Theorem saved_flag_reads_true c version key :
  savable c version = true ->
  In key flag_keys ->
  let r := load_env_file (Some (save_env_file c version)) in
  r !! key
  = Some (PStr (if truthy (get c key (PBool true)) then py "true" else py "false"))
  /\ truthy (get r key (PBool true)) = true.
Proof.
  intros Hs Hin r.
  assert (H : r !! key = Some (PStr (unquote (strip (flag_text c key))))).
  { subst r. rewrite load_saved by exact Hs.
    unfold flag_keys in Hin. cbn [In] in Hin.
    destruct version as [v|];
      repeat (destruct Hin as [<-|Hin]; [saved_lookup; reflexivity|]);
      destruct Hin. }
  unfold get at 2. rewrite H. unfold flag_text.
  destruct (truthy (get c key (PBool true))); split; reflexivity.
Qed.

Lemma saved_flag_reads_true_witness :
  savable (<["install_maps" := PBool false]> ConfigExamples.config0) None = true
  /\ In "install_maps" flag_keys
  /\ truthy (get (load_env_file
                    (Some (save_env_file
                             (<["install_maps" := PBool false]> ConfigExamples.config0)
                             None)))
                 "install_maps" (PBool true)) = true.
Proof.
  split; [vm_compute; reflexivity|]. split; [left; reflexivity|].
  apply (saved_flag_reads_true
           (<["install_maps" := PBool false]> ConfigExamples.config0) None
           "install_maps").
  - vm_compute. reflexivity.
  - left. reflexivity.
Defined.

(** X23: only the keys [save_env_file] names reach the file: any other
    entry of the configuration is absent after loading. *)
Theorem unsaved_keys_are_lost c version key :
  savable c version = true ->
  ~ In key (saved_keys version) ->
  load_env_file (Some (save_env_file c version)) !! key = None.
Proof.
  intros Hs Hin. rewrite load_saved by exact Hs.
  unfold saved_keys, quoted_keys, bare_keys, flag_keys in Hin.
  destruct version as [v|]; cbn [version_keys map fst app In] in Hin;
    unfold save_lines; cbn [app fold_left assign_line]; unfold config;
    rewrite !lookup_insert_ne by (intros <-; apply Hin; tauto);
    apply lookup_empty.
Qed.

Lemma unsaved_keys_are_lost_witness :
  savable (<["motd" := PStr (py "hello")]> ConfigExamples.config0) None = true
  /\ ~ In "motd" (saved_keys None)
  /\ load_env_file
       (Some (save_env_file (<["motd" := PStr (py "hello")]> ConfigExamples.config0)
                None)) !! "motd" = None.
Proof.
  assert (H : ~ In "motd" (saved_keys None)).
  { cbn. intros H. repeat (destruct H as [H|H]; [discriminate H|]). exact H. }
  split; [vm_compute; reflexivity|]. split; [exact H|].
  apply (unsaved_keys_are_lost
           (<["motd" := PStr (py "hello")]> ConfigExamples.config0) None "motd").
  - vm_compute. reflexivity.
  - exact H.
Defined.

(** X24: the version record is flattened: its [version] and [url] fields are
    read back as the texts under [version] and [version_url]. *)
Theorem saved_version_is_text c d :
  savable c (Some d) = true ->
  let r := load_env_file (Some (save_env_file c (Some d))) in
  r !! "version" = Some (PStr (format (get d "version" (PStr []))))
  /\ r !! "version_url" = Some (PStr (format (get d "url" (PStr [])))).
Proof.
  intros Hs r. subst r. rewrite load_saved by exact Hs.
  split; saved_lookup; now rewrite unquote_quote_text.
Qed.

Lemma saved_version_is_text_witness :
  let d : config := <["version" := PStr (py "2.83.1")]>
                      (<["url" := PStr (py "https://etlegacy.com/download/file/1")]> ∅) in
  savable ConfigExamples.config0 (Some d) = true
  /\ load_env_file (Some (save_env_file ConfigExamples.config0 (Some d))) !! "version"
     = Some (PStr (py "2.83.1")).
Proof.
  intros d. split; [vm_compute; reflexivity|].
  destruct (saved_version_is_text ConfigExamples.config0 d) as [H _].
  - vm_compute. reflexivity.
  - rewrite H. vm_compute. reflexivity.
Defined.


(** *** Appending to a file *)

Lemma file_lines_app cur t rest :
  file_lines cur (t ++ newline :: rest)
  = file_lines cur (t ++ [newline]) ++ file_lines [] rest.
Proof.
  revert cur. induction t as [|c t IH]; intros cur; cbn [app file_lines].
  - change (is_char newline newline) with true. cbv iota. reflexivity.
  - destruct (is_char newline c); [|apply IH].
    cbn [app]. f_equal. apply IH.
Qed.

(** The text is empty or ends with a line feed. *)
Definition whole_lines (text : str) : bool :=
  match rev text with
  | [] => true
  | c :: _ => is_char newline c
  end.

Lemma whole_lines_inv text :
  whole_lines text = true -> text = [] \/ exists t, text = t ++ [newline].
Proof.
  unfold whole_lines. destruct (rev text) as [|c r] eqn:E.
  - intros _. left. apply (f_equal (@rev ascii)) in E.
    now rewrite rev_involutive in E.
  - intros H. apply is_char_eq in H. subst c. right. exists (rev r).
    apply (f_equal (@rev ascii)) in E. now rewrite rev_involutive in E.
Qed.

Definition no_cr (s : str) : bool := forallb (fun c => negb (is_char cr c)) s.

Lemma no_cr_spec s : no_cr s = true -> Forall (fun c => c <> cr) s.
Proof.
  unfold no_cr. rewrite forallb_forall, List.Forall_forall.
  intros H c Hc ->. specialize (H _ Hc). unfold is_char in H.
  now rewrite Ascii.eqb_refl in H.
Qed.

(** X25: an assignment line appended to a file of whole lines sets its key
    to the value, stripped and without one pair of surrounding quotes, and
    keeps what the file assigned to the other keys. *)
Theorem appended_assignment_is_set text key value :
  whole_lines text = true ->
  no_cr text = true ->
  key_word key = true ->
  plain value = true ->
  load_env_file (Some (text ++ py key ++ py "=" ++ value ++ [newline]))
  = <[key := PStr (unquote (strip value))]> (load_env_file (Some text)).
Proof.
  intros Hw Hcr Hk Hv. unfold load_env_file.
  assert (Hl : plain (py key ++ py "=" ++ value) = true).
  { apply (render_plain (Assign key value)). cbn [line_fine]. now rewrite Hk, Hv. }
  apply plain_spec in Hl. destruct Hl as [Hnl Hncr].
  apply no_cr_spec in Hcr.
  rewrite !translate_id.
  - destruct (whole_lines_inv _ Hw) as [->|[t ->]].
    + cbn [app fold_left file_lines].
      pose proof (file_lines_cons [] (py key ++ py "=" ++ value) [] Hnl) as F.
      rewrite <- !app_assoc in F. rewrite F. cbn [rev app file_lines fold_left].
      now apply load_assignment.
    + rewrite <- app_assoc. cbn [app]. rewrite file_lines_app, fold_left_app.
      pose proof (file_lines_cons [] (py key ++ py "=" ++ value) [] Hnl) as F.
      rewrite <- !app_assoc in F. rewrite F. cbn [rev app file_lines fold_left].
      now apply load_assignment.
  - exact Hcr.
  - apply List.Forall_app. split; [exact Hcr|].
    replace (py key ++ py "=" ++ value ++ [newline])
      with ((py key ++ py "=" ++ value) ++ [newline])
      by now rewrite <- !app_assoc.
    apply List.Forall_app. split; [exact Hncr|].
    constructor; [discriminate|constructor].
Qed.

Lemma appended_assignment_is_set_witness :
  let text := save_env_file ConfigExamples.config0 None in
  let value := [dquote] ++ py "rcon secret" ++ [dquote] ++ py "  " in
  whole_lines text = true /\ no_cr text = true
  /\ key_word "rconpassword" = true /\ plain value = true
  /\ load_env_file (Some (text ++ py "rconpassword" ++ py "=" ++ value ++ [newline]))
     = <["rconpassword" := PStr (py "rcon secret")]> (load_env_file (Some text)).
Proof.
  intros text value.
  split; [vm_compute; reflexivity|]. split; [vm_compute; reflexivity|].
  split; [vm_compute; reflexivity|]. split; [vm_compute; reflexivity|].
  rewrite (appended_assignment_is_set text "rconpassword" value);
    [|vm_compute; reflexivity..].
  f_equal.
Defined.

End EnvFacts.

(** ** System services (idk/lib/system_service.py) *)

Module SystemService.
Import ServerManager.

Definition nl_lines (ls : list str) : str :=
  concat (map (fun l => l ++ [newline]) ls).

(** The three unit texts; [port] is the text of [{port}]. *)
Definition server_service (port server_dir : str) : str :=
  nl_lines
    [py "[Unit]";
     py "Description=Wolfenstein Enemy Territory Server (Port " ++ port ++ py ")";
     py "After=network.target";
     [];
     py "[Service]";
     py "ExecStart=" ++ server_dir ++ py "/etl_start.sh";
     py "Restart=always";
     py "User=root";
     [];
     py "[Install]";
     py "WantedBy=network-up.target"].

Definition restart_service (port : str) : str :=
  nl_lines
    [py "[Unit]";
     py "Description=Restarts Enemy Territory Legacy server service (Port "
       ++ port ++ py ")";
     [];
     py "[Service]";
     py "ExecStart=/bin/systemctl restart etlserver-" ++ port ++ py ".service";
     py "User=root"].

Definition monitor_timer (port : str) : str :=
  nl_lines
    [py "[Unit]";
     py "Description=This timer restarts the Enemy Territory Legacy server service etlserver-"
       ++ port ++ py ".service every day at 5am";
     py "Requires=etlrestart-" ++ port ++ py ".service";
     [];
     py "[Timer]";
     py "Unit=etlrestart-" ++ port ++ py ".service";
     py "OnCalendar=*-*-* 5:00:00";
     [];
     py "[Install]";
     py "WantedBy=timers.target"].

(** [open(path, "w")] and [f.write(content)] on an entry of the unit
    directory: an entry of that name is replaced where it stands, a new one
    is added. *)
Fixpoint set_entry (entry : str) (f : file) (l : list (str * file))
  : list (str * file) :=
  match l with
  | [] => [(entry, f)]
  | (n, g) :: l' =>
      if str_eqb n entry then (entry, f) :: l' else (n, g) :: set_entry entry f l'
  end.

(** The file holds [content]; read again in text mode, as
    [get_installed_servers] does, it gives [content] with its line endings
    translated. *)
Definition write_unit (h : host) (entry content : str) : host :=
  Host (set_entry entry (Readable (translate_newlines content)) (systemd_dir h))
       (files h) (run_command h).

(** [configure_etl_services]: the host it leaves and the boolean it returns.
    [can_write] tells for which entries of the unit directory [open(..., "w")]
    succeeds; [port] is an [int], as the wizard and the server listing
    provide it. *)
Definition configure_etl_services (h : host) (can_write : str -> bool)
    (install_dir : str) (port : Z) (server_dir : str) : host * bool :=
  let p := str_of_Z port in
  let server_unit := py "etlserver-" ++ p ++ py ".service" in
  let restart_unit := py "etlrestart-" ++ p ++ py ".service" in
  let monitor_unit := py "etlmonitor-" ++ p ++ py ".timer" in
  if negb (can_write server_unit) then (h, false) else
  let h1 := write_unit h server_unit (server_service p server_dir) in
  if negb (can_write restart_unit) then (h1, false) else
  let h2 := write_unit h1 restart_unit (restart_service p) in
  if negb (can_write monitor_unit) then (h2, false) else
  let h3 := write_unit h2 monitor_unit (monitor_timer p) in
  match run_command h (py "systemctl daemon-reload") with
  | Raise _ => (h3, false)
  | Return _ =>
      match run_command h (py "systemctl enable " ++ server_unit) with
      | Raise _ => (h3, false)
      | Return _ =>
          match run_command h (py "systemctl enable " ++ monitor_unit) with
          | Raise _ => (h3, false)
          | Return _ => (h3, true)
          end
      end
  end.

End SystemService.

Example service_demo :
  let h := ServerManager.Host [] (fun _ => ServerManager.Absent)
                              (fun _ => Return []) in
  let r := SystemService.configure_etl_services h (fun _ => true)
             (py "/home/etlegacy") 27960 (py "/home/etlegacy/et/27960") in
  snd r = true
  /\ map fst (ServerManager.systemd_dir (fst r))
     = [py "etlserver-27960.service"; py "etlrestart-27960.service";
        py "etlmonitor-27960.timer"]
  /\ map ServerManager.dir (ServerManager.get_installed_servers (fst r))
     = [py "/home/etlegacy/et/27960"].
Proof. vm_compute. repeat split. Qed.

(** ** Configured services and the server listing *)

Module ServiceFacts.
Import ServerManager SystemService.

(** *** Searching for the [ExecStart] line *)

Lemma search_here r s m : match_here r s = Some m -> search r s = Some m.
Proof. intros H. destruct s; cbn [search]; now rewrite H. Qed.

Lemma search_lit_skip l r c s :
  strip_prefix l (c :: s) = None ->
  search (Lit l <.> r) (c :: s) = search (Lit l <.> r) s.
Proof.
  intros H. cbn [search]. unfold match_here. cbn [rmatch]. now rewrite H.
Qed.

Lemma search_lit_skip_run a l r run rest :
  Forall (fun c => is_char a c = false) run ->
  search (Lit (a :: l) <.> r) (run ++ rest) = search (Lit (a :: l) <.> r) rest.
Proof.
  induction 1 as [|c run Hc _ IH]; [reflexivity|].
  cbn [app]. rewrite search_lit_skip; [exact IH|].
  cbn [strip_prefix]. now rewrite Hc.
Qed.

Lemma star_lazy_first {A} (p : ascii -> bool) (run rest : str)
    (k : str -> option A) (x : A) :
  Forall (fun c => p c = true) run ->
  (forall a b, run = a ++ b -> b <> [] -> k (b ++ rest) = None) ->
  k rest = Some x ->
  star_lazy p (run ++ rest) k = Some x.
Proof.
  intros Hrun. induction Hrun as [|c run Hc _ IH]; intros Hno Hk.
  - cbn [app]. destruct rest; cbn [star_lazy]; now rewrite Hk.
  - pose proof (Hno [] (c :: run) eq_refl) as H0. cbn [app] in H0.
    cbn [app star_lazy]. rewrite H0 by discriminate. rewrite Hc.
    apply IH; [|exact Hk]. intros a b -> Hb. now apply (Hno (c :: a) b).
Qed.

Definition start_script : str := py "/etl_start.sh".

(** A server directory that [ExecStart=(.+?)/etl_start\.sh] captures whole
    when the unit is read back: not empty, ASCII text (which every codec of a
    locale writes and reads back as it is) without line feed or carriage
    return, and without the script's name inside. *)
Definition plain_dir (d : str) : bool :=
  match d with
  | [] => false
  | _ =>
      forallb (fun c => is_dot c && negb (is_char cr c) && (code c <? 128)%nat) d
      && negb (contains start_script d)
  end.

Lemma plain_dir_spec d :
  plain_dir d = true ->
  d <> [] /\ forallb is_dot d = true /\ Forall (fun c => c <> cr) d
  /\ contains start_script d = false.
Proof.
  unfold plain_dir. destruct d as [|c d]; [discriminate|].
  rewrite andb_true_iff, negb_true_iff. intros [Hall Hc].
  rewrite forallb_forall in Hall.
  split; [discriminate|]. split; [|split; [|exact Hc]].
  - apply forallb_forall. intros x Hx. specialize (Hall x Hx).
    now apply andb_true_iff in Hall as [H _]; apply andb_true_iff in H as [H _].
  - apply List.Forall_forall. intros x Hx. specialize (Hall x Hx).
    apply andb_true_iff in Hall as [H _]. apply andb_true_iff in H as [_ H].
    rewrite negb_true_iff in H.
    intros ->. unfold is_char in H. now rewrite Ascii.eqb_refl in H.
Qed.

Lemma script_not_inside (d a b rest : str) :
  contains start_script d = false ->
  d = a ++ b -> b <> [] ->
  strip_prefix start_script (b ++ start_script ++ rest) = None.
Proof.
  intros Hc -> Hb.
  destruct (strip_prefix start_script (b ++ start_script ++ rest)) as [r|] eqn:E;
    [|reflexivity].
  exfalso. apply strip_prefix_app in E. apply List.app_eq_app in E.
  destruct E as [l [[E1 E2]|[E1 E2]]].
  - subst b. now rewrite HiddenProps.contains_app in Hc.
  - destruct l as [|x l].
    + rewrite app_nil_r in E1. subst b.
      pose proof (HiddenProps.contains_app start_script a []) as H.
      rewrite app_nil_r in H. congruence.
    + unfold start_script in E1, E2.
      assert (x = "/"%char) by (cbn in E2; congruence). subst x.
      destruct b as [|b0 b]; [congruence|].
      assert (Hin : In "/"%char (py "etl_start.sh")).
      { replace (py "etl_start.sh") with (b ++ "/"%char :: l)
          by (cbn in E1; injection E1 as _ E1; symmetry; exact E1).
        apply in_elt. }
      cbn in Hin. repeat (destruct Hin as [Hin|Hin]; [discriminate Hin|]).
      exact Hin.
Qed.

Lemma exec_start_here (d rest : str) :
  plain_dir d = true ->
  match_here re_exec_start (py "ExecStart=" ++ d ++ start_script ++ rest)
  = Some (MatchObj (py "ExecStart=" ++ d ++ start_script) [d] rest).
Proof.
  intros Hd. destruct (plain_dir_spec d Hd) as (Hne & Hdot & _ & Hc).
  destruct d as [|c d]; [congruence|].
  cbn [forallb] in Hdot. rewrite andb_true_iff in Hdot. destruct Hdot as [Hc0 Hdot].
  unfold match_here, re_exec_start. cbn [rmatch].
  rewrite strip_prefix_self. cbn [app]. rewrite Hc0. unfold star.
  erewrite star_lazy_first; [reflexivity| | |].
  - apply List.Forall_forall. rewrite forallb_forall in Hdot. exact Hdot.
  - intros a b E Hb. change (py "/etl_start.sh") with start_script.
    rewrite (script_not_inside (c :: d) (c :: a) b rest Hc); [reflexivity| |exact Hb].
    now rewrite E.
  - change (py "/etl_start.sh") with start_script.
    rewrite strip_prefix_self. f_equal. f_equal.
    + replace (py "ExecStart=" ++ c :: d ++ start_script ++ rest)
        with ((py "ExecStart=" ++ c :: d ++ start_script) ++ rest).
      * apply Directive.take_text.
      * rewrite <- app_assoc. cbn [app]. now rewrite <- app_assoc.
    + f_equal.
      change (c :: d ++ start_script ++ rest) with ((c :: d) ++ start_script ++ rest).
      apply Directive.take_text.
Qed.
(** The server unit, cut at the port and at the [ExecStart] line. *)
Definition unit_head : str :=
  py "[Unit]" ++ [newline]
  ++ py "Description=Wolfenstein Enemy Territory Server (Port ".

Definition unit_mid : str :=
  py ")" ++ [newline] ++ py "After=network.target" ++ [newline; newline]
  ++ py "[Service]" ++ [newline].

Definition unit_tail : str :=
  [newline] ++ py "Restart=always" ++ [newline] ++ py "User=root"
  ++ [newline; newline] ++ py "[Install]" ++ [newline]
  ++ py "WantedBy=network-up.target" ++ [newline].

Lemma server_service_cut port d :
  server_service port d
  = unit_head ++ port ++ unit_mid ++ py "ExecStart=" ++ d ++ start_script ++ unit_tail.
Proof.
  unfold server_service, nl_lines, unit_head, unit_mid, unit_tail, start_script.
  cbn [map concat]. repeat first [rewrite <- app_assoc | progress cbn [app]].
  reflexivity.
Qed.

Lemma digit_not_E c : is_digit c = true -> is_char "E"%char c = false.
Proof.
  destruct c as [[] [] [] [] [] [] [] []]; intros H; vm_compute in H;
    try discriminate H; reflexivity.
Qed.

Lemma digit_not_cr c : is_digit c = true -> c <> cr.
Proof.
  destruct c as [[] [] [] [] [] [] [] []]; intros H; vm_compute in H;
    try discriminate H; discriminate.
Qed.

(** Written and read again, the server unit is the text that was written. *)
Lemma server_service_read port d :
  Forall (fun c => is_digit c = true) port ->
  plain_dir d = true ->
  translate_newlines (server_service port d) = server_service port d.
Proof.
  intros Hp Hd. destruct (plain_dir_spec d Hd) as (_ & _ & Hcr & _).
  apply EnvFacts.translate_id. rewrite server_service_cut.
  rewrite !List.Forall_app. repeat split.
  - apply EnvFacts.no_cr_spec. reflexivity.
  - eapply Forall_impl; [exact Hp|]. intros c Hc. now apply digit_not_cr.
  - apply EnvFacts.no_cr_spec. reflexivity.
  - apply EnvFacts.no_cr_spec. reflexivity.
  - exact Hcr.
  - apply EnvFacts.no_cr_spec. reflexivity.
  - apply EnvFacts.no_cr_spec. reflexivity.
Qed.

Lemma search_exec_start port d :
  Forall (fun c => is_digit c = true) port ->
  plain_dir d = true ->
  search re_exec_start (server_service port d)
  = Some (MatchObj (py "ExecStart=" ++ d ++ start_script) [d] unit_tail).
Proof.
  intros Hp Hd. rewrite server_service_cut.
  unfold re_exec_start, unit_head. cbn [app py list_ascii_of_string].
  repeat rewrite search_lit_skip by reflexivity.
  rewrite search_lit_skip_run
    by (eapply Forall_impl; [exact Hp|]; intros c Hc; now apply digit_not_E).
  unfold unit_mid. cbn [app py list_ascii_of_string].
  repeat rewrite search_lit_skip by reflexivity.
  apply search_here. now apply exec_start_here.
Qed.


(** *** The unit directory *)

Lemma set_entry_in entry f l : In (entry, f) (set_entry entry f l).
Proof.
  induction l as [|[n g] l IH]; cbn [set_entry]; [now left|].
  destruct (str_eqb n entry); [now left|now right].
Qed.

Lemma set_entry_other entry f l n g :
  n <> entry -> In (n, g) l <-> In (n, g) (set_entry entry f l).
Proof.
  intros Hn. induction l as [|[n' g'] l IH]; cbn [set_entry In].
  - split; [tauto|]. intros [[= E _]|[]]. congruence.
  - destruct (str_eqb n' entry) eqn:E.
    + apply str_eqb_eq in E. subst n'. cbn [In]. split.
      * intros [[= E _]|H]; [congruence|now right].
      * intros [[= E _]|H]; [congruence|now right].
    + cbn [In]. rewrite IH. reflexivity.
Qed.

Lemma glob_intro h n f :
  In (n, f) (systemd_dir h) -> glob_match n = true ->
  In (py "/etc/systemd/system/" ++ n, f) (glob h).
Proof.
  intros Hin Hg. unfold glob. apply in_map_iff. exists (n, f). split; [reflexivity|].
  apply filter_In. split; [exact Hin|exact Hg].
Qed.

Lemma scan_intro h l service_file f s :
  In (service_file, f) l ->
  server_of h service_file f = Return (Some s) ->
  In s (fst (scan h l)).
Proof.
  induction l as [|[sf g] l IH]; cbn [In scan]; [tauto|].
  destruct (scan h l) as [servers console]. cbn [fst] in IH.
  intros [[= -> ->]|Hin] Hs.
  - rewrite Hs. now left.
  - specialize (IH Hin Hs).
    destruct (server_of h sf g) as [[s'|]|e]; cbn [fst]; [now right|exact IH..].
Qed.

Lemma glob_match_unit_name p : glob_match (ServerManagerProps.unit_name p) = true.
Proof.
  unfold glob_match, ServerManagerProps.unit_name.
  rewrite strip_prefix_self. unfold endswith.
  rewrite rev_app_distr, strip_prefix_self. reflexivity.
Qed.

Lemma str_of_Z_of_N p : str_of_Z (Z.of_N p) = str_of_N p.
Proof.
  unfold str_of_Z. destruct (Z.ltb_spec (Z.of_N p) 0) as [E|E]; [lia|].
  now rewrite N2Z.id.
Qed.

(** The configuration file of a server can be read, or does not exist. *)
Definition cfg_readable (h : host) (server_dir : str) : bool :=
  match files h (server_dir ++ py "/etmain/etl_server.cfg") with
  | Unreadable _ => false
  | _ => true
  end.

(** The record read from the unit that [configure_etl_services] writes. *)
Lemma server_of_unit h p d :
  plain_dir d = true ->
  cfg_readable h d = true ->
  exists s,
    server_of h (py "/etc/systemd/system/" ++ ServerManagerProps.unit_name p)
              (Readable (server_service (str_of_N p) d)) = Return (Some s)
    /\ port s = p /\ dir s = d /\ installDir s = dirname (dirname d).
Proof.
  intros Hd Hc.
  destruct (ServerManagerProps.search_port_unit_name p) as (m & Hm & Hg).
  unfold server_of. rewrite Hm, Hg, int_of_str_of_N. cbn [read].
  rewrite (search_exec_start _ d (str_of_N_digits p) Hd). cbv zeta.
  change (group1 (MatchObj (py "ExecStart=" ++ d ++ start_script) [d] unit_tail))
    with d.
  unfold cfg_readable in Hc.
  destruct (files h (d ++ py "/etmain/etl_server.cfg")) as [|e|cfg];
    cbn [exists_ read]; [|discriminate|].
  - eexists. split; [reflexivity|]. cbn [port dir installDir]. auto.
  - destruct (search re_hostname cfg) as [nm|];
      (eexists; split; [reflexivity|]; cbn [port dir installDir]; auto).
Qed.

Lemma server_of_ext h h' service_file f :
  files h' = files h -> run_command h' = run_command h ->
  server_of h' service_file f = server_of h service_file f.
Proof. intros Hf Hr. unfold server_of. now rewrite Hf, Hr. Qed.

(** The names of the three units of a port. *)
Definition restart_name (port : str) : str := py "etlrestart-" ++ port ++ py ".service".
Definition monitor_name (port : str) : str := py "etlmonitor-" ++ port ++ py ".timer".
Definition server_name (port : str) : str := py "etlserver-" ++ port ++ py ".service".

Lemma unit_names_differ port :
  server_name port <> restart_name port
  /\ server_name port <> monitor_name port
  /\ restart_name port <> monitor_name port.
Proof. repeat split; intros H; discriminate H. Qed.

(** What a run leaves: the host differs in its unit directory only. *)
Lemma configure_host h can_write install_dir port d :
  let h' := fst (configure_etl_services h can_write install_dir port d) in
  files h' = files h /\ run_command h' = run_command h.
Proof.
  unfold configure_etl_services. cbv zeta.
  repeat match goal with
         | |- context [if negb ?b then _ else _] => destruct b; cbn [negb]
         | |- context [match run_command h ?c with _ => _ end] =>
             destruct (run_command h c)
         end; split; reflexivity.
Qed.

Lemma configure_entry h can_write install_dir port d :
  can_write (server_name (str_of_Z port)) = true ->
  In (server_name (str_of_Z port),
      Readable (translate_newlines (server_service (str_of_Z port) d)))
     (systemd_dir (fst (configure_etl_services h can_write install_dir port d))).
Proof.
  intros Hw. unfold configure_etl_services. cbv zeta.
  fold (server_name (str_of_Z port)) (restart_name (str_of_Z port))
       (monitor_name (str_of_Z port)).
  destruct (unit_names_differ (str_of_Z port)) as (H12 & H13 & H23).
  rewrite Hw. cbn [negb].
  repeat match goal with
         | |- context [if negb ?b then _ else _] => destruct b; cbn [negb]
         | |- context [match run_command h ?c with _ => _ end] =>
             destruct (run_command h c)
         end; cbn [fst write_unit systemd_dir];
    repeat (apply set_entry_other; [assumption|]); apply set_entry_in.
Qed.

(** X26: a server whose unit [configure_etl_services] could write is found
    by [get_installed_servers], with its port and its directory, whatever
    the run returned. *)
Theorem configured_server_is_listed h can_write install_dir p d :
  can_write (ServerManagerProps.unit_name p) = true ->
  plain_dir d = true ->
  cfg_readable h d = true ->
  exists s,
    In s (get_installed_servers
            (fst (configure_etl_services h can_write install_dir (Z.of_N p) d)))
    /\ port s = p /\ dir s = d /\ installDir s = dirname (dirname d).
Proof.
  intros Hw Hd Hc.
  pose proof (configure_entry h can_write install_dir (Z.of_N p) d) as Hin.
  destruct (configure_host h can_write install_dir (Z.of_N p) d) as [Hf Hr].
  set (h' := fst (configure_etl_services h can_write install_dir (Z.of_N p) d)) in *.
  rewrite str_of_Z_of_N in Hin.
  change (server_name (str_of_N p)) with (ServerManagerProps.unit_name p) in Hin.
  specialize (Hin Hw).
  rewrite (server_service_read _ d (str_of_N_digits p) Hd) in Hin.
  destruct (server_of_unit h p d Hd Hc) as (s & Hs & Hp & Hdir & Hi).
  exists s. split; [|auto].
  unfold get_installed_servers.
  apply (scan_intro h' _ (py "/etc/systemd/system/" ++ ServerManagerProps.unit_name p)
           (Readable (server_service (str_of_N p) d))).
  - apply glob_intro; [exact Hin|apply glob_match_unit_name].
  - now rewrite (server_of_ext h h' _ _ Hf Hr).
Qed.

Lemma configured_server_is_listed_witness :
  let h := Host [] (fun _ => Absent) (fun _ => Raise (py "systemctl: not found")) in
  let d := py "/home/etlegacy/et/27960" in
  (fun _ : str => true) (ServerManagerProps.unit_name 27960) = true
  /\ plain_dir d = true /\ cfg_readable h d = true
  /\ snd (configure_etl_services h (fun _ => true) (py "/home/etlegacy") 27960 d) = false
  /\ exists s,
       In s (get_installed_servers
               (fst (configure_etl_services h (fun _ => true) (py "/home/etlegacy")
                       (Z.of_N 27960) d)))
       /\ port s = 27960%N /\ dir s = d /\ installDir s = dirname (dirname d).
Proof.
  intros h d. split; [reflexivity|]. split; [vm_compute; reflexivity|].
  split; [reflexivity|]. split; [vm_compute; reflexivity|].
  apply (configured_server_is_listed h (fun _ => true) (py "/home/etlegacy") 27960 d);
    [reflexivity|vm_compute; reflexivity|reflexivity].
Defined.


(** *** Running it again, and the other servers *)

(** The file found under a name of the unit directory. *)
Fixpoint first_entry (n : str) (l : list (str * file)) : option file :=
  match l with
  | [] => None
  | (m, g) :: l' => if str_eqb m n then Some g else first_entry n l'
  end.

Lemma set_entry_fixed n f l : first_entry n l = Some f -> set_entry n f l = l.
Proof.
  induction l as [|[m g] l IH]; cbn [first_entry set_entry]; [discriminate|].
  destruct (str_eqb m n) eqn:E.
  - apply str_eqb_eq in E. now intros [= ->]; subst.
  - intros H. now rewrite IH.
Qed.

Lemma first_entry_set n m f l :
  first_entry n (set_entry m f l)
  = if str_eqb m n then Some f else first_entry n l.
Proof.
  induction l as [|[m' g] l IH]; cbn [set_entry first_entry]; [reflexivity|].
  destruct (str_eqb m' m) eqn:E.
  - apply str_eqb_eq in E. subst m'. cbn [first_entry].
    now destruct (str_eqb m n).
  - cbn [first_entry]. rewrite IH.
    destruct (str_eqb m' n) eqn:E1; [|reflexivity].
    destruct (str_eqb m n) eqn:E2; [|reflexivity].
    apply str_eqb_eq in E1, E2. subst. now rewrite str_eqb_refl in E.
Qed.

(** The unit directory a run leaves. *)
Definition written_units (can_write : str -> bool) (p d : str)
    (l : list (str * file)) : list (str * file) :=
  if negb (can_write (server_name p)) then l else
  let l1 := set_entry (server_name p)
              (Readable (translate_newlines (server_service p d))) l in
  if negb (can_write (restart_name p)) then l1 else
  let l2 := set_entry (restart_name p)
              (Readable (translate_newlines (restart_service p))) l1 in
  if negb (can_write (monitor_name p)) then l2 else
  set_entry (monitor_name p) (Readable (translate_newlines (monitor_timer p))) l2.

Lemma configure_dir h can_write install_dir port d :
  systemd_dir (fst (configure_etl_services h can_write install_dir port d))
  = written_units can_write (str_of_Z port) d (systemd_dir h).
Proof.
  unfold configure_etl_services, written_units. cbv zeta.
  fold (server_name (str_of_Z port)) (restart_name (str_of_Z port))
       (monitor_name (str_of_Z port)).
  repeat match goal with
         | |- context [if negb ?b then _ else _] => destruct b; cbn [negb]
         | |- context [match run_command h ?c with _ => _ end] =>
             destruct (run_command h c)
         end; reflexivity.
Qed.

(** X27: running [configure_etl_services] again with the same arguments
    leaves the unit directory as the first run left it. *)
Theorem configure_twice h can_write install_dir port d :
  let h' := fst (configure_etl_services h can_write install_dir port d) in
  systemd_dir (fst (configure_etl_services h' can_write install_dir port d))
  = systemd_dir h'.
Proof.
  cbv zeta. rewrite !configure_dir.
  set (p := str_of_Z port). set (l := systemd_dir h).
  destruct (unit_names_differ p) as (H12 & H13 & H23).
  unfold written_units.
  destruct (can_write (server_name p)); cbn [negb]; [|reflexivity].
  destruct (can_write (restart_name p)); cbn [negb].
  - destruct (can_write (monitor_name p)); cbn [negb].
    + rewrite (set_entry_fixed (server_name p)).
      * rewrite (set_entry_fixed (restart_name p)).
        -- apply set_entry_fixed. rewrite first_entry_set.
           now rewrite str_eqb_refl.
        -- rewrite !first_entry_set.
           rewrite (ConfigFacts.str_eqb_neq (monitor_name p) (restart_name p)) by congruence.
           now rewrite str_eqb_refl.
      * rewrite !first_entry_set.
        rewrite (ConfigFacts.str_eqb_neq (monitor_name p) (server_name p)) by congruence.
        rewrite (ConfigFacts.str_eqb_neq (restart_name p) (server_name p)) by congruence.
        now rewrite str_eqb_refl.
    + rewrite (set_entry_fixed (server_name p)).
      * apply set_entry_fixed. rewrite first_entry_set. now rewrite str_eqb_refl.
      * rewrite !first_entry_set.
        rewrite (ConfigFacts.str_eqb_neq (restart_name p) (server_name p)) by congruence.
        now rewrite str_eqb_refl.
  - apply set_entry_fixed. rewrite first_entry_set. now rewrite str_eqb_refl.
Qed.

(** The host without the entries of one name. *)
Definition without (n : str) (l : list (str * file)) : list (str * file) :=
  List.filter (fun e => negb (str_eqb (fst e) n)) l.

Definition drop_unit (n : str) (h : host) : host :=
  Host (without n (systemd_dir h)) (files h) (run_command h).

Definition listed (n : str) (l : list (str * file)) : list (str * file) :=
  List.filter (fun e => glob_match (fst e)) (without n l).

Lemma listed_set_same n f l : listed n (set_entry n f l) = listed n l.
Proof.
  unfold listed, without.
  induction l as [|[m g] l IH]; cbn [set_entry List.filter fst].
  - now rewrite str_eqb_refl.
  - destruct (str_eqb m n) eqn:E; cbn [List.filter fst negb].
    + now rewrite str_eqb_refl.
    + rewrite E. cbn [negb List.filter fst]. now rewrite IH.
Qed.

Lemma listed_set_other n m f l :
  glob_match m = false -> listed n (set_entry m f l) = listed n l.
Proof.
  intros Hg. unfold listed, without.
  induction l as [|[m' g] l IH]; cbn [set_entry List.filter fst].
  - destruct (negb (str_eqb m n)); cbn [List.filter fst]; [now rewrite Hg|reflexivity].
  - destruct (str_eqb m' m) eqn:E.
    + apply str_eqb_eq in E. subst m'. cbn [List.filter fst].
      destruct (negb (str_eqb m n)); cbn [List.filter fst]; [now rewrite Hg|reflexivity].
    + cbn [List.filter fst].
      destruct (negb (str_eqb m' n)); cbn [List.filter fst]; [|exact IH].
      destruct (glob_match m'); [now rewrite IH|exact IH].
Qed.

Lemma other_units_unlisted p :
  glob_match (restart_name p) = false /\ glob_match (monitor_name p) = false.
Proof. split; reflexivity. Qed.

Lemma scan_ext h h' l :
  files h' = files h -> run_command h' = run_command h -> scan h' l = scan h l.
Proof.
  intros Hf Hr. induction l as [|[sf f] l IH]; [reflexivity|].
  cbn [scan]. now rewrite IH, (server_of_ext h h' sf f Hf Hr).
Qed.

(** X28: apart from the unit of the port being configured, the listing is
    what it was: the records read from the other unit files are the same, in
    the same order. *)
Theorem other_servers_unchanged h can_write install_dir port d :
  let n := server_name (str_of_Z port) in
  let h' := fst (configure_etl_services h can_write install_dir port d) in
  get_installed_servers (drop_unit n h') = get_installed_servers (drop_unit n h).
Proof.
  cbv zeta. unfold get_installed_servers, glob, drop_unit. cbn [systemd_dir].
  destruct (configure_host h can_write install_dir port d) as [Hf Hr].
  rewrite configure_dir.
  set (p := str_of_Z port). set (l := systemd_dir h).
  fold (listed (server_name p) (written_units can_write p d l)).
  fold (listed (server_name p) l).
  destruct (other_units_unlisted p) as [G2 G3].
  assert (E : listed (server_name p) (written_units can_write p d l)
              = listed (server_name p) l).
  { unfold written_units.
    destruct (can_write (server_name p)); cbn [negb]; [|reflexivity].
    destruct (can_write (restart_name p)); cbn [negb];
      [|apply listed_set_same].
    destruct (can_write (monitor_name p)); cbn [negb].
    - now rewrite (listed_set_other _ _ _ _ G3), (listed_set_other _ _ _ _ G2),
        listed_set_same.
    - now rewrite (listed_set_other _ _ _ _ G2), listed_set_same. }
  rewrite E. f_equal. apply scan_ext; [exact Hf|exact Hr].
Qed.

End ServiceFacts.

(** ** lib/installer.py: installing and updating a server *)

Module Installer.
Import ConfigTemplate.

(** *** Calls on a host *)

(** A call on a host in state [W] returns or raises, and leaves a host. *)
Definition run (W A : Type) : Type := W -> result A * W.

#[global] Instance run_ret {W} : MRet (run W) := fun A a w => (Return a, w).
#[global] Instance run_bind {W} : MBind (run W) :=
  fun A B f m w =>
    match m w with
    | (Return a, w') => f a w'
    | (Raise e, w') => (Raise e, w')
    end.

(** An expression that does not touch the host. *)
Definition lift {W A} (r : result A) : run W A := fun w => (r, w).

(** A method that catches every exception and answers with a boolean. *)
Definition call {W} (f : W -> bool * W) : run W bool :=
  fun w => (Return (fst (f w)), snd (f w)).

(** A query of the host. *)
Definition ask {W A} (f : W -> A) : run W A := fun w => (Return (f w), w).

Definition when {W} (b : bool) (m : run W unit) : run W unit :=
  if b then m else mret tt.

(** [for x in l: body(x)] *)
Fixpoint for_each {W A} (l : list A) (body : A -> run W unit) : run W unit :=
  match l with
  | [] => mret tt
  | x :: l' => _ ← body x; for_each l' body
  end.

(** [subprocess.CompletedProcess] *)
Record completed := Completed { returncode : Z; stdout : str; stderr : str }.

(** [config['version']] and [version_info]: the wizard stores the dictionary
    of the release, an environment file a string. *)
Inductive pyobj :=
| Scalar (v : pyval)
| Dict (d : config).

(** The modules and objects that [Installer] calls, by what a call may do
    on a host in state [W]: [os], [shutil], [time], [open], and the
    collaborators [BashRunner.run_command] (the flag is [interactive]),
    [DownloadManager.download_version], [PermissionsManager],
    [SystemServiceManager] and [FirewallManager].  The methods of the last
    three catch [Exception] and return a boolean. *)
Record system (W : Type) := System {
  os_makedirs : str -> run W unit;
  os_path_exists : str -> W -> bool;
  os_path_isdir : str -> W -> bool;
  os_listdir : str -> run W (list str);
  os_rename : str -> str -> run W unit;
  os_chmod : str -> Z -> run W unit;
  shutil_copytree : str -> str -> run W unit;
  shutil_copy2 : str -> str -> run W unit;
  shutil_rmtree : str -> run W unit;
  time_time : W -> Z;
  open_read : str -> run W str;
  open_write : str -> str -> run W unit;
  open_append : str -> str -> run W unit;
  run_command : str -> bool -> run W completed;
  download_version : pyobj -> run W str;
  setup_etl_group : W -> bool * W;
  set_file_permissions : pyval -> W -> bool * W;
  configure_etl_services : pyval -> pyval -> str -> W -> bool * W;
  configure_for_server : pyval -> W -> bool * W;
  start_server : pyval -> W -> bool * W
}.
Arguments System {W}.
Arguments os_makedirs {W}.
Arguments os_path_exists {W}.
Arguments os_path_isdir {W}.
Arguments os_listdir {W}.
Arguments os_rename {W}.
Arguments os_chmod {W}.
Arguments shutil_copytree {W}.
Arguments shutil_copy2 {W}.
Arguments shutil_rmtree {W}.
Arguments time_time {W}.
Arguments open_read {W}.
Arguments open_write {W}.
Arguments open_append {W}.
Arguments run_command {W}.
Arguments download_version {W}.
Arguments setup_etl_group {W}.
Arguments set_file_permissions {W}.
Arguments configure_etl_services {W}.
Arguments configure_for_server {W}.
Arguments start_server {W}.

(** [os.path.join(a, *p)] *)
Definition path_join (a : str) (p : list str) : str :=
  fold_left
    (fun path b =>
       match strip_prefix (py "/") b with
       | Some _ => b
       | None =>
           match path with
           | [] => b
           | _ => if endswith (py "/") path then path ++ b else path ++ py "/" ++ b
           end
       end)
    p a.

(** The texts between the double quotes of a line, with the quotes put
    back. *)
Fixpoint quoting (pieces : list str) : str :=
  match pieces with
  | [] => []
  | [piece] => piece
  | piece :: rest => piece ++ dquote :: quoting rest
  end.

Section Methods.
Context {W : Type} (h : system W).

(** *** [_configure_server] *)

Definition _configure_server (config : config) (server_dir : str) : run W unit :=
  let etl_server_cfg := server_dir ++ py "/etmain/etl_server.cfg" in
  there ← ask (os_path_exists h etl_server_cfg);
  when there (
    cfg_content ← open_read h etl_server_cfg;
    cfg_content ← lift (replace_configuration_values config cfg_content);
    open_write h etl_server_cfg cfg_content).

(** *** [_install_maps] *)

Definition maps_url_base : str :=
  py "http://moestavern.site.nfoservers.com/downloads/et/etmain/".

Definition maps_list : list string :=
  ["adlernest.pk3"; "etl_adlernest_v4.pk3"; "badplace4_rc.pk3"; "etl_bergen_v9.pk3";
   "braundorf_b4.pk3"; "bremen_b3.pk3"; "crevasse_b3.pk3"; "ctf_multi.pk3";
   "decay_sw.pk3"; "element_b4_1.pk3"; "erdenberg_t2.pk3"; "et_beach.pk3";
   "et_brewdog_b6.pk3"; "et_headshot.pk3"; "et_headshot2_b2.pk3"; "et_ice.pk3";
   "etl_ice_v12.pk3"; "et_ufo_final.pk3"; "frostbite.pk3"; "etl_frostbite_v17.pk3";
   "karsiah_te2.pk3"; "missile_b3.pk3"; "mp_sillyctf.pk3"; "osiris_final.pk3";
   "reactor_final.pk3"; "rifletennis_te.pk3"; "rifletennis_te2.pk3"; "sos_secret_weapon.pk3";
   "sp_delivery_te.pk3"; "etl_sp_delivery_v5.pk3"; "supply.pk3"; "etl_supply_v14.pk3";
   "sw_battery.pk3"; "sw_goldrush_te.pk3"; "sw_oasis_b3.pk3"; "tc_base.pk3";
   "te_escape2.pk3"; "te_escape2_fixed.pk3"; "te_valhalla.pk3"; "venice_ne4.pk3"].

(** Every download stands in its own [try]: neither an exit status nor an
    exception of [run_command] ends the loop. *)
Definition _install_maps (server_dir : str) : run W unit :=
  let maps_dir := server_dir ++ py "/etmain" in
  for_each maps_list (fun map_file =>
    let map_url := maps_url_base ++ py map_file in
    let command :=
      py "wget -q -O '" ++ maps_dir ++ py "/" ++ py map_file ++ py "' '"
        ++ map_url ++ py "'" in
    fun w => (Return tt, snd (run_command h command false w))).

(** *** [_create_start_script] *)

Definition start_script_text (port : pyval) : str :=
  SystemService.nl_lines
    [py "#!/bin/bash";
     [];
     quoting [py "DIR="; py "$( cd "; py "$( dirname "; py "${BASH_SOURCE[0]}";
              py " )"; py " >/dev/null 2>&1 && pwd )"; []];
     quoting [[]; py "${DIR}/etlded.x86_64"; py " \"];
     py "    +set dedicated 2 \";
     py "    +set vm_game 0 \";
     py "    +set net_port " ++ format port ++ py " \";
     py "    +set fs_game legacy \";
     quoting [py "    +set fs_basepath "; py "${DIR}"; py " \"];
     quoting [py "    +set fs_homepath "; py "${DIR}"; py " \"];
     py "    +exec etl_server.cfg"].

Definition _create_start_script (server_dir : str) (port : pyval) : run W unit :=
  let start_script := server_dir ++ py "/etl_start.sh" in
  _ ← open_write h start_script (start_script_text port);
  os_chmod h start_script (oct [7; 5; 5]).

(** *** [_setup_ftp] *)

Definition vsftpd_conf : str :=
  SystemService.nl_lines
    [py "# ET Legacy Server FTP Configuration";
     py "anonymous_enable=NO";
     py "local_enable=YES";
     py "write_enable=YES";
     py "local_umask=022";
     py "dirmessage_enable=YES";
     py "use_localtime=YES";
     py "xferlog_enable=YES";
     py "connect_from_port_20=YES";
     py "chroot_local_user=YES";
     py "secure_chroot_dir=/var/run/vsftpd/empty";
     py "pam_service_name=vsftpd";
     py "rsa_cert_file=/etc/ssl/certs/ssl-cert-snakeoil.pem";
     py "rsa_private_key_file=/etc/ssl/private/ssl-cert-snakeoil.key";
     py "ssl_enable=NO";
     py "pasv_enable=YES";
     py "pasv_min_port=40000";
     py "pasv_max_port=50000";
     py "allow_writeable_chroot=YES"].

Definition _setup_ftp (username install_dir : pyval) : run W unit :=
  let username := format username in
  _ ← run_command h (py "apt install -y vsftpd") false;
  _ ← open_write h (py "/etc/vsftpd.conf") vsftpd_conf;
  _ ← (fun w =>
         match run_command h (py "id -u " ++ username) false w with
         | (Return _, w') => (Return tt, w')
         | (Raise _, w') =>
             (_ ← run_command h (py "useradd -m " ++ username) false; mret tt) w'
         end);
  _ ← run_command h (py "passwd " ++ username) true;
  _ ← run_command h (py "usermod -aG etusers " ++ username) false;
  _ ← open_append h (py "/etc/ssh/sshd_config")
        (newline :: py "DenyUsers " ++ username ++ [newline]);
  _ ← run_command h (py "systemctl restart sshd") false;
  _ ← run_command h (py "systemctl restart vsftpd") false;
  mret tt.

(** *** [install_server] *)

(** The configuration of an installation: the entry for [version], and the
    other entries. *)
Record install_config := InstallConfig {
  settings : config;
  version : option pyobj
}.

(** [DownloadManager(self.console)]: the constructor makes sure that its
    [temp_dir] exists. *)
Definition download_dir : str := py "/tmp/etlegacy-installer".

Definition vendor_installer (installer_path server_dir : str) : str :=
  py "chmod +x " ++ installer_path ++ py " && " ++ installer_path
    ++ py " --target-directory=" ++ server_dir.

Definition install_server (config : install_config) : run W bool :=
  let c := settings config in
  _ ← lift (getitem c "servername");
  port ← lift (getitem c "port");
  install_dir ← lift (getitem c "installDir");
  let server_dir := format install_dir ++ py "/et/" ++ format port in
  (* Step 1: prepare system *)
  _ ← call (setup_etl_group h);
  _ ← os_makedirs h server_dir;
  _ ← os_makedirs h (server_dir ++ py "/etmain");
  _ ← os_makedirs h (server_dir ++ py "/legacy");
  _ ← run_command h (py "apt update") false;
  _ ← run_command h (py "apt install -y unzip wget") false;
  (* Step 2: download and install *)
  _ ← os_makedirs h download_dir;
  version_info ← lift (match version config with
                       | Some v => Return v
                       | None => Raise (py "KeyError: version")
                       end);
  installer_path ← download_version h version_info;
  result ← run_command h (vendor_installer installer_path server_dir) false;
  if negb (returncode result =? 0)%Z then mret false else
  _ ← _configure_server c server_dir;
  (* Step 3: maps *)
  _ ← when (truthy (get c "install_maps" (PBool true))) (_install_maps server_dir);
  (* Steps 4 and 5: start script and services *)
  _ ← _create_start_script server_dir port;
  _ ← call (configure_etl_services h install_dir port server_dir);
  (* Step 6: FTP *)
  _ ← match c !! "ftpuser" with
      | Some ftpuser => when (truthy ftpuser) (_setup_ftp ftpuser install_dir)
      | None => mret tt
      end;
  (* Step 7: firewall *)
  _ ← when (truthy (get c "configure_firewall" (PBool true)))
        (_ ← call (configure_for_server h port); mret tt);
  (* Steps 8 and 9: permissions, start *)
  _ ← call (set_file_permissions h install_dir);
  _ ← call (start_server h port);
  mret true.

(** *** [update_server] *)

Definition config_files : list str :=
  [py "etl_server.cfg"; py "configs"; py "mapscripts"].

(** ['etmain' if config_file == 'etl_server.cfg' else 'legacy'] *)
Definition home_of (config_file : str) : str :=
  if str_eqb config_file (py "etl_server.cfg") then py "etmain" else py "legacy".

(** The body of the [with] block: [Some false] is [return False], [None]
    the end of the block. *)
Definition update_steps (server_info version_info : config) : run W (option bool) :=
  port ← lift (getitem server_info "port");
  install_dir ← lift (getitem server_info "installDir");
  let server_dir := format install_dir ++ py "/et/" ++ format port in
  (* Step 1: backup *)
  _ ← lift (load_global "time");
  now ← ask (time_time h);
  let backup_dir := server_dir ++ py "_backup_" ++ str_of_Z now in
  _ ← os_makedirs h backup_dir;
  _ ← for_each config_files (fun config_file =>
        let src_path := path_join server_dir [home_of config_file; config_file] in
        there ← ask (os_path_exists h src_path);
        when there (
          let dst_path := path_join backup_dir [config_file] in
          is_dir ← ask (os_path_isdir h src_path);
          if is_dir : bool then shutil_copytree h src_path dst_path
          else shutil_copy2 h src_path dst_path));
  (* Step 2: download and install *)
  _ ← os_makedirs h download_dir;
  installer_path ← download_version h (Dict version_info);
  let temp_dir := server_dir ++ py "_old" in
  _ ← os_rename h server_dir temp_dir;
  result ← run_command h (vendor_installer installer_path server_dir) false;
  if negb (returncode result =? 0)%Z then
    _ ← os_rename h temp_dir server_dir;
    mret (Some false)
  else
  _ ← for_each config_files (fun config_file =>
        let src_path := path_join backup_dir [config_file] in
        there ← ask (os_path_exists h src_path);
        when there (
          let dst_path := path_join server_dir [home_of config_file; config_file] in
          is_dir ← ask (os_path_isdir h src_path);
          if is_dir : bool then
            dst_there ← ask (os_path_exists h dst_path);
            _ ← when dst_there (shutil_rmtree h dst_path);
            shutil_copytree h src_path dst_path
          else shutil_copy2 h src_path dst_path));
  let old_maps_dir := path_join temp_dir [py "etmain"] in
  let new_maps_dir := path_join server_dir [py "etmain"] in
  old_maps ← ask (os_path_exists h old_maps_dir);
  _ ← when old_maps (
        names ← os_listdir h old_maps_dir;
        for_each names (fun map_file =>
          there ← ask (os_path_exists h (path_join new_maps_dir [map_file]));
          when (endswith (py ".pk3") map_file && negb there)
            (shutil_copy2 h (path_join old_maps_dir [map_file])
                            (path_join new_maps_dir [map_file]))));
  _ ← _create_start_script server_dir port;
  _ ← shutil_rmtree h temp_dir;
  (* Step 3: permissions *)
  _ ← call (set_file_permissions h install_dir);
  mret None.

(** [update_server]: what it returns or raises, the host, and the dictionary
    [server_info] of the caller, which the last statements update. *)
Definition update_server (server_info version_info : config) (w : W)
  : result bool * W * config :=
  match update_steps server_info version_info w with
  | (Raise e, w') => (Raise e, w', server_info)
  | (Return (Some b), w') => (Return b, w', server_info)
  | (Return None, w') =>
      match getitem version_info "version" with
      | Raise e => (Raise e, w', server_info)
      | Return v =>
          let server_info := <["version" := v]> server_info in
          match getitem server_info "name" with
          | Raise e => (Raise e, w', server_info)
          | Return _ => (Return true, w', server_info)
          end
      end
  end.

End Methods.

End Installer.

(** ** A host that follows a script *)

Module Scripted.
Import ConfigTemplate Installer.

(** The calls that change the host. *)
Inductive action :=
| Makedirs (path : str)
| Rename (src dst : str)
| Chmod (path : str) (mode : Z)
| Copytree (src dst : str)
| Copy2 (src dst : str)
| Rmtree (path : str)
| Write (path : str)
| Append (path : str)
| Command (line : str)
| Download (path : str)
| SetupEtlGroup
| ConfigureEtlServices (port : pyval)
| ConfigureForServer (port : pyval)
| SetFilePermissions (install_dir : pyval)
| StartServer (port : pyval).

(** What the host answers: the exit status of each command line, which paths
    exist, and whether the steps that report with a boolean succeed. *)
Record script := Script {
  exit_status : str -> Z;
  present : str -> bool;
  group_ok : bool;
  services_ok : bool;
  firewall_ok : bool;
  permissions_ok : bool;
  started : bool
}.

Definition does {A} (a : action) (x : A) : run (list action) A :=
  fun w => (Return x, w ++ [a]).

Definition reports (a : action) (b : bool) (w : list action) : bool * list action :=
  (b, w ++ [a]).

(** [download_version]: the file is named after [version_info['version']]. *)
Definition downloaded (version_info : pyobj) : run (list action) str :=
  match version_info with
  | Dict d =>
      v ← lift (getitem d "version");
      let filename :=
        path_join download_dir [py "etlegacy-" ++ format v ++ py ".sh"] in
      does (Download filename) filename
  | Scalar _ => lift (Raise (py "TypeError"))
  end.

(** The host keeps the list of the calls made on it.  The paths that exist
    are empty files. *)
Definition scripted (s : script) : system (list action) :=
  System
    (fun path => does (Makedirs path) tt)
    (fun path _ => present s path)
    (fun _ _ => false)
    (fun _ => mret [])
    (fun src dst => does (Rename src dst) tt)
    (fun path mode => does (Chmod path mode) tt)
    (fun src dst => does (Copytree src dst) tt)
    (fun src dst => does (Copy2 src dst) tt)
    (fun path => does (Rmtree path) tt)
    (fun _ => 0%Z)
    (fun path => if present s path then mret [] else lift (Raise (py "FileNotFoundError")))
    (fun path _ => does (Write path) tt)
    (fun path _ => does (Append path) tt)
    (fun line _ => does (Command line) (Completed (exit_status s line) [] []))
    downloaded
    (reports SetupEtlGroup (group_ok s))
    (fun install_dir => reports (SetFilePermissions install_dir) (permissions_ok s))
    (fun _ port _ => reports (ConfigureEtlServices port) (services_ok s))
    (fun port => reports (ConfigureForServer port) (firewall_ok s))
    (fun port => reports (StartServer port) (started s)).

(** Only the vendor's installer exits with status 0. *)
Definition only_installer_runs (line : str) : Z :=
  match strip_prefix (py "chmod +x ") line with
  | Some _ => 0%Z
  | None => 1%Z
  end.

(** No command exits with status 0. *)
Definition nothing_runs (line : str) : Z := 1%Z.

Definition release : config :=
  <["version" := PStr (py "2.83.1")]>
  (<["name" := PStr (py "ET Legacy 2.83.1 (Stable)")]>
  (<["url" := PStr (py "https://etlegacy.com/download/file/552")]> ∅)).

(** What the wizard hands to [install_server]. *)
Definition wizard_config : install_config :=
  InstallConfig
    (<["installDir" := PStr (py "/home/etlegacy")]>
     (<["ftpuser" := PStr []]>
     (<["install_maps" := PBool false]>
     (<["configure_firewall" := PBool true]> ConfigExamples.config0))))
    (Some (Dict release)).

(** A record of [get_installed_servers]. *)
Definition server_info0 : config :=
  <["name" := PStr (py "ET Legacy Server")]>
  (<["port" := PInt 27960]>
  (<["version" := PStr (py "Unknown")]>
  (<["dir" := PStr (py "/home/etlegacy/et/27960")]>
  (<["installDir" := PStr (py "/home/etlegacy")]> ∅)))).

End Scripted.

(** ** Installing and updating: what the caller learns *)

Module InstallerProps.
Import ConfigTemplate Installer Scripted.

Lemma update_steps_raise {W} (h : system W) server_info version_info w :
  update_steps h server_info version_info w
  = (_ ← getitem server_info "port";
     _ ← getitem server_info "installDir";
     Raise (name_error "time"), w).
Proof.
  unfold update_steps, getitem.
  destruct (server_info !! "port") as [port|]; [|reflexivity].
  destruct (server_info !! "installDir") as [install_dir|]; reflexivity.
Qed.

(** C1: [update_server] never comes to the vendor's installer.  On every
    host, for every server record and every release, it raises: [KeyError]
    when the record lacks [port] or [installDir], and otherwise [NameError],
    because lib/installer.py reads [time.time()] for the name of the backup
    directory without importing [time].  It does not return [False], and it
    leaves the host and the record as they were: no backup, no download, no
    rename, no installer run, no rename back. *)
Theorem C1_update_stops_before_installer {W} (h : system W)
    (server_info version_info : config) (w : W) :
  update_server h server_info version_info w
  = (_ ← getitem server_info "port";
     _ ← getitem server_info "installDir";
     Raise (name_error "time"), w, server_info)
  /\ fst (fst (update_server h server_info version_info w)) <> Return false.
Proof.
  unfold update_server. rewrite update_steps_raise. unfold getitem.
  destruct (server_info !! "port") as [port|]; [|split; [reflexivity|discriminate]].
  destruct (server_info !! "installDir") as [install_dir|];
    split; try reflexivity; discriminate.
Qed.

Example maps_demo :
  snd (_install_maps (scripted (Script nothing_runs (fun _ => false) true true true true true))
         (py "/srv/27960") [])
  = map (fun map_file =>
           Command (py "wget -q -O '/srv/27960/etmain/" ++ py map_file
                      ++ py "' 'http://moestavern.site.nfoservers.com/downloads/et/etmain/"
                      ++ py map_file ++ py "'"))
        maps_list.
Proof. vm_compute. reflexivity. Qed.

Example update_demo :
  update_server (scripted (Script nothing_runs (fun _ => true) true true true true true))
    server_info0 release []
  = (Raise (name_error "time"), [], server_info0).
Proof. reflexivity. Qed.

(** C2: steps that fail are passed over.  On a host where the vendor's
    installer exits with status 0 and ships no etl_server.cfg, and where
    [apt update] and [apt install] exit with status 1, [install_server]
    runs every step and returns [True] whatever [setup_etl_group],
    [configure_etl_services], [configure_for_server], [set_file_permissions]
    and [start_server] return: in particular when all five return [False]. *)
Theorem C2_failed_steps_passed_over
    (group_ok services_ok firewall_ok permissions_ok started : bool) :
  let s := Script only_installer_runs (fun _ => false)
             group_ok services_ok firewall_ok permissions_ok started in
  let installer := py "/tmp/etlegacy-installer/etlegacy-2.83.1.sh" in
  install_server (scripted s) wizard_config []
  = (Return true,
     [SetupEtlGroup;
      Makedirs (py "/home/etlegacy/et/27960");
      Makedirs (py "/home/etlegacy/et/27960/etmain");
      Makedirs (py "/home/etlegacy/et/27960/legacy");
      Command (py "apt update");
      Command (py "apt install -y unzip wget");
      Makedirs (py "/tmp/etlegacy-installer");
      Download installer;
      Command (py "chmod +x /tmp/etlegacy-installer/etlegacy-2.83.1.sh && /tmp/etlegacy-installer/etlegacy-2.83.1.sh --target-directory=/home/etlegacy/et/27960");
      Write (py "/home/etlegacy/et/27960/etl_start.sh");
      Chmod (py "/home/etlegacy/et/27960/etl_start.sh") 493;
      ConfigureEtlServices (PInt 27960);
      ConfigureForServer (PInt 27960);
      SetFilePermissions (PStr (py "/home/etlegacy"));
      StartServer (PInt 27960)]).
Proof. vm_compute. reflexivity. Qed.

End InstallerProps.
